(** * An interactive 3D scene editor: the manipulation engine of [main.py]

    A shallow embedding of the measurement tool, the transform gizmos, the
    object manager and the pointer handlers of the VTK widget, followed by
    the properties the design document states about them.

    Python [float] is IEEE binary64 and is embedded as Rocq's primitive
    [float]; Python [int] (pixel coordinates) is [Z].  Objects that Python
    shares by reference (the scene's [vtkActor]s) live in a heap indexed by
    object identity. *)

From Stdlib Require Import ZArith Floats Uint63 DecimalString.
From stdpp Require Import gmap strings list.

#[local] Set Warnings "-inexact-float".
#[local] Open Scope Z_scope.

(** ** Python numbers *)

Module Py.

(** What a call can do besides returning: the exceptions the arithmetic
    of this code can raise. *)
Inductive Exn := ZeroDivisionError | OverflowError.

Inductive Result (A : Type) :=
  | Return (a : A)
  | Raise (e : Exn).
Arguments Return {A} a.
Arguments Raise {A} e.

Definition bind {A B} (m : Result A) (k : A -> Result B) : Result B :=
  match m with
  | Return a => k a
  | Raise e => Raise e
  end.

(** [float(n)] for an [int] in the range of a C [int], which is what Qt
    hands out as pixel coordinates. *)
Definition float_of_int (z : Z) : float :=
  match z with
  | Z0 => 0%float
  | Zpos _ => of_uint63 (Uint63.of_Z z)
  | Zneg p => (- of_uint63 (Uint63.of_Z (Zpos p)))%float
  end.

(** [max(a, b)] keeps its first argument unless the second compares
    greater; [min(a, b)] unless the second compares smaller. *)
Definition max (a b : float) : float := if (a <? b)%float then b else a.
Definition min (a b : float) : float := if (b <? a)%float then b else a.

(** [math.sqrt] on an argument that is not negative, and [abs]. *)
Definition sqrt (x : float) : float := PrimFloat.sqrt x.
Definition abs (x : float) : float := PrimFloat.abs x.

(** The value of [x ** 2] where it returns: the correctly rounded
    square. *)
Definition sq (x : float) : float := (x * x)%float.

(** [x ** 2]: the square of a finite number that is out of the range of
    binary64 raises [OverflowError]; an infinity and a NaN are squared
    without error. *)
Definition pow2 (x : float) : Result float :=
  if is_finite x && negb (is_finite (sq x)) then Raise OverflowError else Return (sq x).

(** [math.sqrt(a**2 + b**2 + c**2)]: the squares are taken from left to
    right; the sums do not raise, and the root of a sum of squares is
    defined. *)
Definition norm3 (a b c : float) : Result float :=
  bind (pow2 a) (fun x =>
  bind (pow2 b) (fun y =>
  bind (pow2 c) (fun z =>
  Return (sqrt (x + y + z)%float)))).

(** [a / b] raises on a zero divisor. *)
Definition div (a b : float) : Result float :=
  if (b =? 0)%float then Raise ZeroDivisionError else Return (a / b)%float.

(** [math.fmod] on the specification of binary64: the remainder of the
    exact quotient truncated towards zero; it is always representable. *)
Definition SFfmod (x y : spec_float) : spec_float :=
  match x, y with
  | S754_nan, _ | _, S754_nan => S754_nan
  | S754_infinity _, _ => S754_nan
  | _, S754_zero _ => S754_nan
  | S754_zero _, _ => x
  | S754_finite _ _ _, S754_infinity _ => x
  | S754_finite sx mx ex, S754_finite _ my ey =>
      let e := Z.min ex ey in
      let X := Zpos mx * 2 ^ (ex - e) in
      let Y := Zpos my * 2 ^ (ey - e) in
      binary_normalize prec emax (cond_Zopp sx (X mod Y)) e sx
  end.

Definition fmod (x y : float) : float := SF2Prim (SFfmod (Prim2SF x) (Prim2SF y)).

(** [v % w] on floats ([float_rem] of CPython): the result takes the sign
    of the divisor. *)
Definition mod_ (v w : float) : Result float :=
  if (w =? 0)%float then Raise ZeroDivisionError
  else
    let m := fmod v w in
    if (m =? 0)%float then Return (if (w <? 0)%float then (-0)%float else 0%float)
    else if xorb (w <? 0)%float (m <? 0)%float then Return (m + w)%float
    else Return m.

(** The digits of a natural number. *)
Definition digits (n : N) : string := NilZero.string_of_uint (N.to_uint n).

(** Round [m * 2^e * 100] to the nearest integer, ties to even. *)
Definition round_hundredths (m : positive) (e : Z) : N :=
  match e with
  | Zneg p =>
      let den := Z.pow_pos 2 p in
      let num := Zpos m * 100 in
      let q := num / den in
      let r := num mod den in
      Z.to_N
        match (2 * r) ?= den with
        | Lt => q
        | Gt => q + 1
        | Eq => if Z.even q then q else q + 1
        end
  | _ => Z.to_N (Zpos m * 2 ^ e * 100)
  end.

Definition two_digits (n : N) : string :=
  if (n <? 10)%N then "0" +:+ digits n else digits n.

(** [f"{x:.2f}"]: the correctly rounded decimal expansion with two
    digits after the point. *)
Definition format_2f (x : float) : string :=
  match Prim2SF x with
  | S754_nan => "nan"
  | S754_infinity s => if s then "-inf" else "inf"
  | S754_zero s => if s then "-0.00" else "0.00"
  | S754_finite s m e =>
      let n := round_hundredths m e in
      (if s then "-" else "") +:+ digits (n / 100)%N +:+ "." +:+ two_digits (n mod 100)%N
  end.

(** A tuple and a list are different kinds of sequence; [==] between a
    tuple and a list is [False] whatever they hold. *)
Inductive Num := Int (z : Z) | Float (f : float).
Inductive Seq := Tuple (l : list Num) | List (l : list Num).

Definition num_eq (a b : Num) : bool :=
  match a, b with
  | Int x, Int y => x =? y
  | Float x, Float y => (x =? y)%float
  | Int x, Float y => (float_of_int x =? y)%float
  | Float x, Int y => (x =? float_of_int y)%float
  end.

Fixpoint nums_eq (l1 l2 : list Num) : bool :=
  match l1, l2 with
  | [], [] => true
  | a :: l1', b :: l2' => num_eq a b && nums_eq l1' l2'
  | _, _ => false
  end.

Definition seq_eq (a b : Seq) : bool :=
  match a, b with
  | Tuple x, Tuple y => nums_eq x y
  | List x, List y => nums_eq x y
  | _, _ => false
  end.

Definition seq_ne (a b : Seq) : bool := negb (seq_eq a b).

End Py.

#[global] Instance result_ret : MRet Py.Result := @Py.Return.
#[global] Instance result_bind : MBind Py.Result := fun A B k m => Py.bind m k.

(** ** Vectors *)

Record Vec3 := mkVec3 { v0 : float; v1 : float; v2 : float }.

Definition vec_add (a b : Vec3) : Vec3 :=
  mkVec3 (v0 a + v0 b)%float (v1 a + v1 b)%float (v2 a + v2 b)%float.

Definition vec_sub (a b : Vec3) : Vec3 :=
  mkVec3 (v0 a - v0 b)%float (v1 a - v1 b)%float (v2 a - v2 b)%float.

Definition vec_dot (a b : Vec3) : float :=
  (v0 a * v0 b + v1 a * v1 b + v2 a * v2 b)%float.

Definition vec_map (f : float -> float) (a : Vec3) : Vec3 :=
  mkVec3 (f (v0 a)) (f (v1 a)) (f (v2 a)).

Definition vec_forall (P : float -> bool) (a : Vec3) : bool :=
  P (v0 a) && P (v1 a) && P (v2 a).

Definition vec_tuple (a : Vec3) : Py.Seq :=
  Py.Tuple [Py.Float (v0 a); Py.Float (v1 a); Py.Float (v2 a)].

Definition vec_zero : Vec3 := mkVec3 0%float 0%float 0%float.

(** The three components are equal as floats: [==] of C and of Python. *)
Definition vec_eqb (a b : Vec3) : bool :=
  (v0 a =? v0 b)%float && (v1 a =? v1 b)%float && (v2 a =? v2 b)%float.

(** [math.isfinite] on each coordinate. *)
Definition vec_finite (a : Vec3) : bool := vec_forall is_finite a.


(** ** The renderer, as far as picking consults it

    What VTK answers is not computed here: the renderer is a record of its
    answers.  [vtkWorldPointPicker] reads the depth buffer, so it has a pick
    position at every pixel; the Python wrapper hands it out as a tuple. *)

Definition ActorId := positive.

(** The three gizmos and the names of their handles. *)
Inductive GizmoKind := MoveGizmo | RotateGizmo | ScaleGizmo.
Inductive Axis := axis_x | axis_y | axis_z | axis_uniform.

#[global] Instance GizmoKind_eq_dec : EqDecision GizmoKind.
Proof. solve_decision. Defined.
#[global] Instance Axis_eq_dec : EqDecision Axis.
Proof. solve_decision. Defined.

(** What a [vtkPropPicker] can find under a pixel. *)
Inductive Prop3D :=
  | SceneActor (actor : ActorId)
  | GizmoHandle (gizmo : GizmoKind) (axis : Axis)
  | OtherProp.

Record Renderer := mkRenderer {
  GetSize : Z * Z;
  camera_GetPosition : Vec3;
  camera_GetFocalPoint : Vec3;
  (** [picker.Pick(x, y, 0, renderer); picker.GetPickPosition()] for a
      [vtkWorldPointPicker] *)
  WorldPointPicker_Pick : Z -> Z -> Vec3;
  (** [SetDisplayPoint(x, y, z); DisplayToWorld(); GetWorldPoint()]: a
      homogeneous point, its fourth coordinate last *)
  DisplayToWorld : Z -> Z -> float -> Vec3 * float;
  (** [picker.Pick(x, y, 0, renderer); picker.GetActor()] for a
      [vtkPropPicker] *)
  PropPicker_Pick : Z -> Z -> option Prop3D
}.

(** ** Python lists *)

Module PyList.

(** What indexing a list can raise, next to the exceptions of
    arithmetic. *)
Inductive Exn := IndexError | Other (e : Py.Exn).

Inductive Result (A : Type) :=
  | Return (a : A)
  | Raise (e : Exn).
Arguments Return {A} a.
Arguments Raise {A} e.

Definition bind {A B} (m : Result A) (k : A -> Result B) : Result B :=
  match m with
  | Return a => k a
  | Raise e => Raise e
  end.

(** A call that can only raise an exception of arithmetic. *)
Definition lift {A} (m : Py.Result A) : Result A :=
  match m with
  | Py.Return a => Return a
  | Py.Raise e => Raise (Other e)
  end.

(** [l[i] = v] for an index that is not negative. *)
Definition setitem {A} (i : nat) (v : A) (l : list A) : Result (list A) :=
  if decide (i < length l)%nat then Return (<[i := v]> l) else Raise IndexError.

End PyList.

(** ** class MeasurementTool *)

Module MeasurementTool.

(** The markers the tool puts into the scene. *)
Inductive Marker :=
  | Sphere (center : Vec3)
  | Line (point1 point2 : Vec3)
  | Follower (text : string) (position : Vec3).

Record MarkerActor := mkMarkerActor { marker : Marker; _is_temporary : bool }.

Record t := mk {
  is_active : bool;
  points : list Vec3;
  actors : list MarkerActor;
  dragging_point : option nat;
  is_dragging_new_point : bool
}.

Definition add_actor (a : MarkerActor) (self : t) : t :=
  mk (is_active self) (points self) (actors self ++ [a])
     (dragging_point self) (is_dragging_new_point self).

(** [[w[0]/w[3], w[1]/w[3], w[2]/w[3]]] *)
Definition dehomogenize (w : Vec3 * float) : Py.Result Vec3 :=
  x ← Py.div (v0 w.1) w.2;
  y ← Py.div (v1 w.1) w.2;
  z ← Py.div (v2 w.1) w.2;
  mret (mkVec3 x y z).

(** [length = math.sqrt(d[0]**2 + d[1]**2 + d[2]**2);
     if length > 0: d = [d[0]/length, d[1]/length, d[2]/length]] *)
Definition normalize (d : Vec3) : Py.Result Vec3 :=
  length ← Py.norm3 (v0 d) (v1 d) (v2 d);
  if (0 <? length)%float then mret (vec_map (fun c => c / length)%float d) else mret d.

Definition view_direction (renderer : Renderer) : Py.Result Vec3 :=
  normalize (vec_sub (camera_GetFocalPoint renderer) (camera_GetPosition renderer)).

(** The point ten units in front of the camera. *)
Definition along_view (renderer : Renderer) (view_dir : Vec3) : Vec3 :=
  let camera_pos := camera_GetPosition renderer in
  mkVec3 (v0 camera_pos + v0 view_dir * 10)%float
         (v1 camera_pos + v1 view_dir * 10)%float
         (v2 camera_pos + v2 view_dir * 10)%float.

(** The ray through a display point: its origin on the near plane and its
    normalized direction. *)
Definition display_ray (renderer : Renderer) (display_x display_y : Z)
  : Py.Result (Vec3 * Vec3) :=
  world_point1 ← dehomogenize (DisplayToWorld renderer display_x display_y 0);
  world_point2 ← dehomogenize (DisplayToWorld renderer display_x display_y 1);
  ray_dir ← normalize (vec_sub world_point2 world_point1);
  mret (world_point1, ray_dir).

(** [t = ((P0 - O) . N) / (D . N)] *)
Definition ray_parameter (O D P0 N : Vec3) : float :=
  (((v0 P0 - v0 O) * v0 N + (v1 P0 - v1 O) * v1 N + (v2 P0 - v2 O) * v2 N)
   / vec_dot D N)%float.

(** [[O[0] + t*D[0], O[1] + t*D[1], O[2] + t*D[2]]] *)
Definition ray_point (O D : Vec3) (t : float) : Vec3 :=
  mkVec3 (v0 O + t * v0 D)%float (v1 O + t * v1 D)%float (v2 O + t * v2 D)%float.

(** The second half of [get_world_position_from_mouse], below the test
    of the picker's answer: intersect the ray through the display point
    with the plane through the focal point that faces the camera. *)
Definition plane_intersection (renderer : Renderer) (display_x display_y : Z)
  : Py.Result Vec3 :=
  let camera_focus := camera_GetFocalPoint renderer in
  view_dir ← view_direction renderer;
  ray ← display_ray renderer display_x display_y;
  let plane_normal := view_dir in
  let plane_point := camera_focus in
  let O := ray.1 in
  let D := ray.2 in
  let P0 := plane_point in
  let N := plane_normal in
  let dot_DN := vec_dot D N in
  if (1e-6 <? Py.abs dot_DN)%float then
    let t := ray_parameter O D P0 N in
    if (0 <=? t)%float then mret (ray_point O D t)
    else mret (along_view renderer view_dir)
  else mret (along_view renderer view_dir).

Definition get_world_position_from_mouse (renderer : Renderer) (mouse_x mouse_y : Z)
  : Py.Result (option Vec3) :=
  let renderer_size := GetSize renderer in
  if (renderer_size.1 =? 0) || (renderer_size.2 =? 0) then mret None
  else
    let display_x := mouse_x in
    let display_y := renderer_size.2 - mouse_y in
    let pick_pos := WorldPointPicker_Pick renderer display_x display_y in
    if Py.seq_ne (vec_tuple pick_pos) (Py.List [Py.Int 0; Py.Int 0; Py.Int 0])
    then mret (Some pick_pos)
    else
      p ← plane_intersection renderer display_x display_y;
      mret (Some p).

(** The distance [create_distance_text] computes from its two points. *)
Definition distance (point1 point2 : Vec3) : Py.Result float :=
  Py.norm3 (v0 point2 - v0 point1)%float (v1 point2 - v1 point1)%float
    (v2 point2 - v2 point1)%float.

Definition create_distance_text_at_position (position : Vec3) (distance : float)
    (self : t) : MarkerActor * t :=
  let follower := mkMarkerActor (Follower (Py.format_2f distance) position) false in
  (follower, add_actor follower self).

Definition create_distance_text (point1 point2 : Vec3) (self : t)
  : Py.Result (MarkerActor * t) :=
  distance ← distance point1 point2;
  let mid_point :=
    mkVec3 ((v0 point1 + v0 point2) / 2)%float
           ((v1 point1 + v1 point2) / 2)%float
           ((v2 point1 + v2 point2) / 2)%float in
  mret (create_distance_text_at_position mid_point distance self).


(** [__init__] *)
Definition init : t := mk false [] [] None false.

Definition with_points (points : list Vec3) (self : t) : t :=
  mk (is_active self) points (actors self) (dragging_point self) (is_dragging_new_point self).

Definition with_actors (actors : list MarkerActor) (self : t) : t :=
  mk (is_active self) (points self) actors (dragging_point self) (is_dragging_new_point self).

Definition with_drag (dragging_point : option nat) (is_dragging_new_point : bool) (self : t)
  : t :=
  mk (is_active self) (points self) (actors self) dragging_point is_dragging_new_point.

(** [clear_measurements]: the markers leave the renderer and the list. *)
Definition clear_measurements (self : t) : t :=
  mk (is_active self) [] [] (dragging_point self) false.

Definition activate (self : t) : t :=
  clear_measurements
    (mk true (points self) (actors self) (dragging_point self) (is_dragging_new_point self)).

Definition deactivate (self : t) : t :=
  mk false (points self) (actors self) None false.

Definition create_sphere (position : Vec3) (self : t) : MarkerActor * t :=
  let actor := mkMarkerActor (Sphere position) false in
  (actor, add_actor actor self).

Definition create_line (point1 point2 : Vec3) (self : t) : MarkerActor * t :=
  let actor := mkMarkerActor (Line point1 point2) false in
  (actor, add_actor actor self).

(** [actor._is_temporary = True] for the actor at index [i] of
    [self.actors]: the list holds the very object the attribute is set
    on. *)
Definition set_is_temporary (i : nat) (self : t) : t :=
  with_actors (alter (fun actor => mkMarkerActor (marker actor) true) i (actors self)) self.

(** [get_point_at_position], the loop from index [i] on. *)
Fixpoint point_at_position (world_pos : Vec3) (tolerance : float) (i : nat)
    (points : list Vec3) : Py.Result (option nat) :=
  match points with
  | [] => mret None
  | point :: rest =>
      distance ←
        Py.norm3 (v0 point - v0 world_pos)%float (v1 point - v1 world_pos)%float
          (v2 point - v2 world_pos)%float;
      if (distance <? tolerance)%float then mret (Some i)
      else point_at_position world_pos tolerance (S i) rest
  end.

Definition get_point_at_position (world_pos : Vec3) (self : t) : Py.Result (option nat) :=
  point_at_position world_pos 0.5%float 0%nat (points self).

(** [update_temporary_measurement]: every temporary marker is taken out
    of the renderer and of [self.actors]; each marker is in the list
    once, so the removals leave the markers that are not temporary, in
    their order. *)
Definition update_temporary_measurement (world_pos : Vec3) (self : t) : Py.Result t :=
  let self := with_actors (List.filter (fun actor => negb (_is_temporary actor)) (actors self))
                self in
  match points self with
  | [point0] =>
      let i := length (actors self) in
      let '(temp_line, self) := create_line point0 world_pos self in
      let self := set_is_temporary i self in
      distance ←
        Py.norm3 (v0 world_pos - v0 point0)%float (v1 world_pos - v1 point0)%float
          (v2 world_pos - v2 point0)%float;
      let mid_point :=
        mkVec3 ((v0 point0 + v0 world_pos) / 2)%float
               ((v1 point0 + v1 world_pos) / 2)%float
               ((v2 point0 + v2 world_pos) / 2)%float in
      let j := length (actors self) in
      let '(temp_text, self) := create_distance_text_at_position mid_point distance self in
      mret (set_is_temporary j self)
  | _ => mret self
  end.

(** Whether the geometry of a marker comes from a [vtkSphereSource]. *)
Definition is_sphere (actor : MarkerActor) : bool :=
  match marker actor with
  | Sphere _ => true
  | _ => false
  end.

(** [update_visualization]: every marker that is not a sphere is taken
    out, then the line and the label are made again. *)
Definition update_visualization (self : t) : Py.Result t :=
  let self := with_actors (List.filter is_sphere (actors self)) self in
  match points self with
  | point0 :: point1 :: _ =>
      let '(_, self) := create_line point0 point1 self in
      r ← create_distance_text point0 point1 self;
      mret (snd (r : MarkerActor * t))
  | _ => mret self
  end.

(** [handle_click]: the result and the tool afterwards.  After the
    [append] in the branch with one point [self.points[0]] is that point
    and [self.points[1]] the new one. *)
Definition handle_click (renderer : Renderer) (mouse_x mouse_y : Z) (self : t)
  : Py.Result (bool * t) :=
  if negb (is_active self) then mret (false, self)
  else
    world_pos ← get_world_position_from_mouse renderer mouse_x mouse_y;
    match world_pos with
    | None => mret (false, self)
    | Some world_pos =>
        point_idx ← get_point_at_position world_pos self;
        match point_idx with
        | Some point_idx =>
            mret (true, with_drag (Some point_idx) (is_dragging_new_point self) self)
        | None =>
            match points self with
            | [] =>
                let self := with_points (points self ++ [world_pos]) self in
                let '(_, self) := create_sphere world_pos self in
                mret (true, with_drag (Some 1%nat) true self)
            | [point0] =>
                let self := with_points (points self ++ [world_pos]) self in
                let '(_, self) := create_sphere world_pos self in
                let '(_, self) := create_line point0 world_pos self in
                r ← create_distance_text point0 world_pos self;
                mret (true, snd (r : MarkerActor * t))
            | _ =>
                let self := clear_measurements self in
                let self := with_points (points self ++ [world_pos]) self in
                let '(_, self) := create_sphere world_pos self in
                mret (true, with_drag (Some 1%nat) true self)
            end
        end
    end.

Definition handle_drag (renderer : Renderer) (mouse_x mouse_y : Z) (self : t)
  : PyList.Result (bool * t) :=
  if negb (is_active self) then PyList.Return (false, self)
  else
    PyList.bind (PyList.lift (get_world_position_from_mouse renderer mouse_x mouse_y))
      (fun world_pos =>
         match world_pos with
         | None => PyList.Return (false, self)
         | Some world_pos =>
             if is_dragging_new_point self then
               match points self with
               | [_] =>
                   PyList.bind (PyList.lift (update_temporary_measurement world_pos self))
                     (fun self => PyList.Return (true, self))
               | _ => PyList.Return (false, self)
               end
             else
               match dragging_point self with
               | Some i =>
                   PyList.bind (PyList.setitem i world_pos (points self))
                     (fun points =>
                        PyList.bind
                          (PyList.lift (update_visualization (with_points points self)))
                          (fun self => PyList.Return (true, self)))
               | None => PyList.Return (false, self)
               end
         end).

Definition handle_release (renderer : Renderer) (mouse_x mouse_y : Z) (self : t)
  : Py.Result (bool * t) :=
  if negb (is_active self) then mret (false, self)
  else
    world_pos ← get_world_position_from_mouse renderer mouse_x mouse_y;
    match world_pos with
    | None => mret (false, self)
    | Some world_pos =>
        self ←
          match is_dragging_new_point self, points self with
          | true, [point0] =>
              let self := with_points (points self ++ [world_pos]) self in
              let '(_, self) := create_sphere world_pos self in
              let '(_, self) := create_line point0 world_pos self in
              r ← create_distance_text point0 world_pos self;
              mret (snd (r : MarkerActor * t))
          | _, _ => mret self
          end;
        mret (true, with_drag None false self)
    end.

(** The pointer events the widget hands to the tool, each with what the
    renderer answers at that time, and a run of them. *)
Inductive PointerEvent :=
  | Press (renderer : Renderer) (mouse_x mouse_y : Z)
  | Drag (renderer : Renderer) (mouse_x mouse_y : Z)
  | Release (renderer : Renderer) (mouse_x mouse_y : Z).

Definition pointer_event (e : PointerEvent) (self : t) : PyList.Result t :=
  match e with
  | Press renderer mouse_x mouse_y =>
      PyList.bind (PyList.lift (handle_click renderer mouse_x mouse_y self))
        (fun r => PyList.Return r.2)
  | Drag renderer mouse_x mouse_y =>
      PyList.bind (handle_drag renderer mouse_x mouse_y self) (fun r => PyList.Return r.2)
  | Release renderer mouse_x mouse_y =>
      PyList.bind (PyList.lift (handle_release renderer mouse_x mouse_y self))
        (fun r => PyList.Return r.2)
  end.

Fixpoint pointer_run (events : list PointerEvent) (self : t) : PyList.Result t :=
  match events with
  | [] => PyList.Return self
  | e :: rest => PyList.bind (pointer_event e self) (pointer_run rest)
  end.

End MeasurementTool.


(** ** Actors

    A [vtkActor] as this code uses it: its transform, the opacity of its
    property, its visibility, and whether the renderer holds it.  Position,
    scale, opacity and visibility are stored by their setters and read
    back by their getters.

    The orientation is kept in the matrix of the actor's [vtkTransform].
    [SetOrientation] builds the matrix from the angles it is given, by
    RotateZ, RotateX and RotateY from the identity, and [GetOrientation]
    works the angles out of the matrix again; they need not be the angles
    the matrix was built from.  [Rotation] is the angles the matrix is
    built from, and [Transform_GetOrientation] is what the transform of
    this actor answers for a matrix built from given angles. *)

Record Actor := mkActor {
  Position : Vec3;
  Rotation : Vec3;
  Scale : Vec3;
  Opacity : float;
  Visibility : bool;
  InRenderer : bool;
  Transform_GetOrientation : Vec3 -> Vec3
}.

Definition SetPosition (p : Vec3) (a : Actor) : Actor :=
  mkActor p (Rotation a) (Scale a) (Opacity a) (Visibility a) (InRenderer a)
    (Transform_GetOrientation a).
Definition SetScale (s : Vec3) (a : Actor) : Actor :=
  mkActor (Position a) (Rotation a) s (Opacity a) (Visibility a) (InRenderer a)
    (Transform_GetOrientation a).
Definition SetOpacity (o : float) (a : Actor) : Actor :=
  mkActor (Position a) (Rotation a) (Scale a) o (Visibility a) (InRenderer a)
    (Transform_GetOrientation a).
Definition SetVisibility (v : bool) (a : Actor) : Actor :=
  mkActor (Position a) (Rotation a) (Scale a) (Opacity a) v (InRenderer a)
    (Transform_GetOrientation a).
(** [renderer.AddActor(a)] and [renderer.RemoveActor(a)] *)
Definition AddActor (a : Actor) : Actor :=
  mkActor (Position a) (Rotation a) (Scale a) (Opacity a) (Visibility a) true
    (Transform_GetOrientation a).
Definition RemoveActor (a : Actor) : Actor :=
  mkActor (Position a) (Rotation a) (Scale a) (Opacity a) (Visibility a) false
    (Transform_GetOrientation a).

(** [a.GetOrientation()] *)
Definition GetOrientation (a : Actor) : Vec3 :=
  Transform_GetOrientation a (Rotation a).

(** [a.SetOrientation(angles)].  VTK returns at once when the angles are
    equal, as floats, to the ones the actor holds, which are those of its
    last [SetOrientation] or, after a call of [GetOrientation], the answer
    of that call.  In the first case returning at once and building the
    matrix anew give the same matrix, a turn by a zero of either sign
    being left out; that is [SetOrientation].  The second case is
    [SetOrientation_after_get], the call that comes after
    [a.GetOrientation()] on the same actor: given the angles just read,
    it leaves the matrix as it is. *)
Definition SetOrientation (angles : Vec3) (a : Actor) : Actor :=
  mkActor (Position a) angles (Scale a) (Opacity a) (Visibility a) (InRenderer a)
    (Transform_GetOrientation a).

Definition SetOrientation_after_get (angles : Vec3) (a : Actor) : Actor :=
  if vec_eqb angles (GetOrientation a) then a else SetOrientation angles a.

(** [vtk.vtkActor()]: at the origin, not turned, of scale 1, opaque,
    visible, in no renderer; [transform] is what the transform of the new
    actor answers. *)
Definition vtkActor (transform : Vec3 -> Vec3) : Actor :=
  mkActor vec_zero vec_zero (mkVec3 1%float 1%float 1%float) 1%float true false transform.

(** A [vtk.vtkActor()] that this code never turns: its matrix stays the
    identity, from which VTK works out the angles (0, -0, 0). *)
Definition new_actor : Actor :=
  vtkActor (fun _ => mkVec3 0%float (-0)%float 0%float).

(** The scene's actors are shared: the object manager's lists, the gizmos
    and the handlers all hold references to the same objects.  The heap
    maps the identity of an actor to its current state.  At an identity
    not yet in use stands the actor that [vtk.vtkActor()] will make there,
    and with it the transform that this actor will have. *)
Definition Heap := ActorId -> Actor.

Definition heap_upd (actor : ActorId) (f : Actor -> Actor) (heap : Heap) : Heap :=
  fun b => if Pos.eqb b actor then f (heap b) else heap b.

(** ** class MoveGizmo, class RotateGizmo, class ScaleGizmo

    The three classes differ in their handles and in the opacity they dim
    the target to; [show] and [hide] are the same code. *)

Module Gizmo.

Definition handle_names (kind : GizmoKind) : list Axis :=
  match kind with
  | ScaleGizmo => [axis_x; axis_y; axis_z; axis_uniform]
  | _ => [axis_x; axis_y; axis_z]
  end.

Definition dimmed_opacity (kind : GizmoKind) : float :=
  match kind with
  | RotateGizmo => 0.2%float
  | _ => 0.3%float
  end.

Record t := mk {
  kind : GizmoKind;
  (** [self.actors]: handle name to handle actor, in insertion order;
      nothing else refers to the handle actors *)
  actors : list (Axis * Actor);
  is_visible : bool;
  selected_actor : option ActorId;
  original_opacities : gmap ActorId float
}.

(** [__init__]: the handles are created, nothing is shown. *)
Definition init (kind : GizmoKind) : t :=
  mk kind (map (fun axis => (axis, new_actor)) (handle_names kind)) false None ∅.

Definition show (target_actor : option ActorId) (self : t) (heap : Heap) : t * Heap :=
  match target_actor with
  | Some target =>
      let original_opacity := Opacity (heap target) in
      let opacities := <[target := original_opacity]> (original_opacities self) in
      let heap := heap_upd target (SetOpacity (dimmed_opacity (kind self))) heap in
      let position := Position (heap target) in
      let handles :=
        map (fun h : Axis * Actor => (h.1, AddActor (SetPosition position h.2)))
            (actors self) in
      (mk (kind self) handles true (Some target) opacities, heap)
  | None =>
      (mk (kind self) (actors self) (is_visible self) None (original_opacities self), heap)
  end.

(** [for actor, original_opacity in self.original_opacities.items():
       actor.GetProperty().SetOpacity(original_opacity)] *)
Definition restore_opacities (opacities : gmap ActorId float) (heap : Heap) : Heap :=
  map_fold (fun actor original_opacity heap =>
              heap_upd actor (SetOpacity original_opacity) heap)
           heap opacities.

Definition hide (self : t) (heap : Heap) : t * Heap :=
  let heap := restore_opacities (original_opacities self) heap in
  let handles := map (fun h : Axis * Actor => (h.1, RemoveActor h.2)) (actors self) in
  (mk (kind self) handles false None ∅, heap).

Definition update_position (self : t) (heap : Heap) : t :=
  match is_visible self, selected_actor self with
  | true, Some target =>
      let position := Position (heap target) in
      mk (kind self)
         (map (fun h : Axis * Actor => (h.1, SetPosition position h.2)) (actors self))
         (is_visible self) (selected_actor self) (original_opacities self)
  | _, _ => self
  end.

Definition get_axis_at_position (renderer : Renderer) (px py : Z) (self : t)
  : option Axis :=
  if negb (is_visible self) then None
  else
    match PropPicker_Pick renderer px py with
    | Some (GizmoHandle k axis) =>
        if bool_decide (k = kind self) && bool_decide (axis ∈ map fst (actors self))
        then Some axis else None
    | _ => None
    end.

(** One show/hide cycle per target. *)
Fixpoint cycles (targets : list ActorId) (self : t) (heap : Heap) : t * Heap :=
  match targets with
  | [] => (self, heap)
  | target :: rest =>
      let '(self, heap) := show (Some target) self heap in
      let '(self, heap) := hide self heap in
      cycles rest self heap
  end.

End Gizmo.

(** ** class CameraObject *)

Module CameraObject.

Record VtkCamera := mkVtkCamera {
  cam_Position : Vec3;
  cam_FocalPoint : Vec3;
  cam_ViewUp : Vec3;
  cam_ViewAngle : float
}.

Record t := mk {
  position : Vec3;
  focal_point : Vec3;
  view_up : Vec3;
  (** the actor that stands for the camera in the scene *)
  actor : ActorId;
  vtk_camera : VtkCamera
}.

Definition update_vtk_camera (self : t) : t :=
  mk (position self) (focal_point self) (view_up self) (actor self)
     (mkVtkCamera (position self) (focal_point self) (view_up self) 30%float).

Definition set_position (p : Vec3) (self : t) (heap : Heap) : t * Heap :=
  let self := mk p (focal_point self) (view_up self) (actor self) (vtk_camera self) in
  let heap := heap_upd (actor self) (SetPosition p) heap in
  (update_vtk_camera self, heap).

Definition set_focal_point (f : Vec3) (self : t) : t :=
  update_vtk_camera (mk (position self) f (view_up self) (actor self) (vtk_camera self)).

Definition get_view_direction (self : t) : Py.Result Vec3 :=
  let direction := vec_sub (focal_point self) (position self) in
  length ← Py.norm3 (v0 direction) (v1 direction) (v2 direction);
  if (0 <? length)%float then mret (vec_map (fun d => d / length)%float direction)
  else mret (mkVec3 0%float 0%float (-1)%float).

End CameraObject.

(** ** class LightManager *)

Record Bounds := mkBounds {
  xmin : float; xmax : float; ymin : float; ymax : float; zmin : float; zmax : float
}.

Module LightManager.

Record Light := mkLight { light_Position : Vec3; light_FocalPoint : Vec3 }.

Inductive LightType := point | sun | spot | mesh.

(** The [info] dictionary of a light icon: its type with one light, or
    an area light with its lights and their offsets. *)
Inductive Info :=
  | Single (type : LightType) (vtk_light : Light)
  | Area (vtk_light : list Light) (offsets : list Vec3).

Record t := mk { light_objects : gmap ActorId Info }.

(** [__init__]: no light yet. *)
Definition init : t := mk ∅.

Section Update.
(** [actor.GetBounds()]: the box around the actor's geometry in the
    scene, which VTK derives from the mesh. *)
Variable GetBounds : ActorId -> Actor -> Bounds.

Definition _update_point_light (a : Actor) (light : Light) : Light :=
  mkLight (Position a) vec_zero.

Definition _update_sun_light (a : Actor) (light : Light) : Light :=
  let pos := Position a in
  let direction := mkVec3 (- v0 pos)%float (- v1 pos)%float (- v2 pos)%float in
  let direction :=
    if (v0 direction =? 0)%float && (v1 direction =? 0)%float && (v2 direction =? 0)%float
    then mkVec3 0%float (-1)%float (-0.5)%float
    else direction in
  mkLight pos (vec_add pos direction).

Definition _update_spot_light (a : Actor) (light : Light) : Light :=
  mkLight (Position a) vec_zero.

Fixpoint _update_area_light (a : Actor) (offsets : list Vec3) (lights : list Light)
  : list Light :=
  match offsets, lights with
  | o :: offsets', l :: lights' =>
      mkLight (vec_add (Position a) o) vec_zero :: _update_area_light a offsets' lights'
  | _, _ => lights
  end.

Definition _update_mesh_light (id : ActorId) (a : Actor) (light : Light) : Light :=
  let bounds := GetBounds id a in
  let center :=
    mkVec3 ((xmin bounds + xmax bounds) / 2)%float
           ((ymin bounds + ymax bounds) / 2)%float
           ((zmin bounds + zmax bounds) / 2)%float in
  mkLight center (light_FocalPoint light).

Definition sync_light_for_actor (actor : ActorId) (self : t) (heap : Heap) : t :=
  match light_objects self !! actor with
  | None => self
  | Some info =>
      let a := heap actor in
      let info :=
        match info with
        | Single point l => Single point (_update_point_light a l)
        | Single sun l => Single sun (_update_sun_light a l)
        | Single spot l => Single spot (_update_spot_light a l)
        | Single mesh l => Single mesh (_update_mesh_light actor a l)
        | Area lights offsets => Area (_update_area_light a offsets lights) offsets
        end in
      mk (<[actor := info]> (light_objects self))
  end.
End Update.

End LightManager.

(** ** class ObjectManager *)

Inductive Tool :=
  | tool_select | tool_box_select | tool_move | tool_rotate | tool_scale | tool_measure.

(** [l.remove(a)]: drop the first occurrence. *)
Fixpoint list_remove_first (a : ActorId) (l : list ActorId) : list ActorId :=
  match l with
  | [] => []
  | b :: l' => if Pos.eqb b a then l' else b :: list_remove_first a l'
  end.

Module ObjectManager.

Record t := mk {
  actors : list ActorId;
  selected_actors : list ActorId;
  (** [self.outline_actors]: the outline of each actor that has one;
      nothing else refers to an outline actor *)
  outline_actors : gmap ActorId Actor;
  (** the [_camera_object] of the actors with [_is_camera] set *)
  camera_objects : gmap ActorId CameraObject.t;
  move_gizmo : Gizmo.t;
  rotate_gizmo : Gizmo.t;
  scale_gizmo : Gizmo.t;
  active_gizmo : option Tool;
  light_manager : option LightManager.t
}.

Definition init : t :=
  mk [] [] ∅ ∅ (Gizmo.init MoveGizmo) (Gizmo.init RotateGizmo) (Gizmo.init ScaleGizmo)
     None None.

Definition with_selection (sel : list ActorId) (outlines : gmap ActorId Actor) (self : t) : t :=
  mk (actors self) sel outlines (camera_objects self)
     (move_gizmo self) (rotate_gizmo self) (scale_gizmo self)
     (active_gizmo self) (light_manager self).

Definition with_gizmos (mg rg sg : Gizmo.t) (self : t) : t :=
  mk (actors self) (selected_actors self) (outline_actors self) (camera_objects self)
     mg rg sg (active_gizmo self) (light_manager self).

Definition with_roles (cams : gmap ActorId CameraObject.t) (lm : option LightManager.t)
    (self : t) : t :=
  mk (actors self) (selected_actors self) (outline_actors self) cams
     (move_gizmo self) (rotate_gizmo self) (scale_gizmo self) (active_gizmo self) lm.

(** The outline table after [update_outline_position(actor)]. *)
Definition follow (actor : ActorId) (heap : Heap) (outlines : gmap ActorId Actor)
  : gmap ActorId Actor :=
  alter (fun outline_actor =>
           SetOrientation (GetOrientation (heap actor))
             (SetPosition (Position (heap actor)) outline_actor))
        actor outlines.

Definition update_outline_position (actor : ActorId) (self : t) (heap : Heap) : t :=
  with_selection (selected_actors self) (follow actor heap (outline_actors self)) self.

Definition deselect_object (actor : ActorId) (self : t) : t :=
  let selected :=
    if bool_decide (actor ∈ selected_actors self)
    then list_remove_first actor (selected_actors self)
    else selected_actors self in
  with_selection selected (alter (SetVisibility false) actor (outline_actors self)) self.

Definition deselect_all (self : t) (heap : Heap) : t * Heap :=
  let '(mg, heap) := Gizmo.hide (move_gizmo self) heap in
  let '(rg, heap) := Gizmo.hide (rotate_gizmo self) heap in
  let '(sg, heap) := Gizmo.hide (scale_gizmo self) heap in
  let outlines :=
    foldl (fun outlines actor => alter (SetVisibility false) actor outlines)
          (outline_actors self) (selected_actors self) in
  (with_selection [] outlines (with_gizmos mg rg sg self), heap).

(** The tail of [select_object]: put the gizmo of the active tool on the
    first selected actor. *)
Definition show_active_gizmo (self : t) (heap : Heap) : t * Heap :=
  match selected_actors self, active_gizmo self with
  | first :: _, Some tool_move =>
      let '(mg, heap) := Gizmo.show (Some first) (move_gizmo self) heap in
      (with_gizmos mg (rotate_gizmo self) (scale_gizmo self) self, heap)
  | first :: _, Some tool_rotate =>
      let '(rg, heap) := Gizmo.show (Some first) (rotate_gizmo self) heap in
      (with_gizmos (move_gizmo self) rg (scale_gizmo self) self, heap)
  | first :: _, Some tool_scale =>
      let '(sg, heap) := Gizmo.show (Some first) (scale_gizmo self) heap in
      (with_gizmos (move_gizmo self) (rotate_gizmo self) sg self, heap)
  | _, _ => (self, heap)
  end.

Definition select_object (actor : ActorId) (multi_select : bool) (self : t) (heap : Heap)
  : t * Heap :=
  let '(self, heap) :=
    if multi_select && bool_decide (actor ∈ selected_actors self) then
      (deselect_object actor self, heap)
    else if multi_select then
      let outlines := alter (SetVisibility true) actor (outline_actors self) in
      (with_selection (selected_actors self ++ [actor]) (follow actor heap outlines) self,
       heap)
    else
      let '(self, heap) := deselect_all self heap in
      let outlines := alter (SetVisibility true) actor (outline_actors self) in
      (with_selection [actor] (follow actor heap outlines) self, heap) in
  show_active_gizmo self heap.

Definition create_outline (actor : ActorId) (self : t) (heap : Heap) : t :=
  let a := heap actor in
  let outline_actor :=
    AddActor
      (SetScale (Scale a)
         (SetOrientation (GetOrientation a)
            (SetPosition (Position a)
               (SetVisibility false (vtkActor (Transform_GetOrientation a)))))) in
  with_selection (selected_actors self) (<[actor := outline_actor]> (outline_actors self)) self.

(** [finalize_object_creation], from the creation of the actor on;
    [actor] is the identity of the new [vtkActor]. *)
Definition finalize_object_creation (actor : ActorId) (self : t) (heap : Heap) : t * Heap :=
  let heap :=
    heap_upd actor
      (fun fresh =>
         SetPosition vec_zero
           (SetOpacity 1%float (vtkActor (Transform_GetOrientation fresh)))) heap in
  let self :=
    mk (actors self ++ [actor]) (selected_actors self) (outline_actors self)
       (camera_objects self) (move_gizmo self) (rotate_gizmo self) (scale_gizmo self)
       (active_gizmo self) (light_manager self) in
  let heap := heap_upd actor AddActor heap in
  let self := create_outline actor self heap in
  select_object actor false self heap.

(** [add_external_model(actor, mapper, source)] *)
Definition add_external_model (actor : ActorId) (self : t) (heap : Heap) : t * Heap :=
  let self :=
    mk (actors self ++ [actor]) (selected_actors self) (outline_actors self)
       (camera_objects self) (move_gizmo self) (rotate_gizmo self) (scale_gizmo self)
       (active_gizmo self) (light_manager self) in
  let self := create_outline actor self heap in
  select_object actor false self heap.

(** The registry refers to its own objects only: what is selected or has
    an outline is in the actor list. *)
Definition consistent (self : t) : Prop :=
  (forall b, b ∈ selected_actors self -> b ∈ actors self) /\
  (forall b, is_Some (outline_actors self !! b) -> b ∈ actors self).

Section Move.
Variable GetBounds : ActorId -> Actor -> Bounds.

(** The definition of [move_object] that is in force, the later of the
    two in the class.  The call can raise, where a camera computes its
    view direction; what it did before then stays done: the actor and
    its outline are moved and the camera object has its new position,
    the focal point is not moved and the light is not synced.
    [move_object_outcome] is the exception the call ends with, if any,
    with the manager and the heap as it leaves them. *)
Definition move_object_outcome (actor : ActorId) (delta_x delta_y delta_z : float)
    (self : t) (heap : Heap) : option Py.Exn * (t * Heap) :=
  let current_pos := Position (heap actor) in
  let new_pos :=
    mkVec3 (v0 current_pos + delta_x)%float
           (v1 current_pos + delta_y)%float
           (v2 current_pos + delta_z)%float in
  let heap := heap_upd actor (SetPosition new_pos) heap in
  let self := update_outline_position actor self heap in
  let '(raised, cams, heap) :=
    match camera_objects self !! actor with
    | Some camera_obj =>
        let '(camera_obj, heap) := CameraObject.set_position new_pos camera_obj heap in
        match CameraObject.get_view_direction camera_obj with
        | Py.Return direction =>
            let new_focal :=
              mkVec3 (v0 new_pos + v0 direction * 10)%float
                     (v1 new_pos + v1 direction * 10)%float
                     (v2 new_pos + v2 direction * 10)%float in
            (None,
             <[actor := CameraObject.set_focal_point new_focal camera_obj]>
               (camera_objects self),
             heap)
        | Py.Raise e => (Some e, <[actor := camera_obj]> (camera_objects self), heap)
        end
    | None => (None, camera_objects self, heap)
    end in
  let lm :=
    match raised, light_manager self with
    | None, Some lm => Some (LightManager.sync_light_for_actor GetBounds actor lm heap)
    | _, lm => lm
    end in
  (raised, (with_roles cams lm self, heap)).

Definition move_object (actor : ActorId) (delta_x delta_y delta_z : float)
    (self : t) (heap : Heap) : t * Heap :=
  (move_object_outcome actor delta_x delta_y delta_z self heap).2.

Definition move_object_raises (actor : ActorId) (delta_x delta_y delta_z : float)
    (self : t) (heap : Heap) : option Py.Exn :=
  (move_object_outcome actor delta_x delta_y delta_z self heap).1.
End Move.

Definition clear_objects (self : t) (heap : Heap) : t * Heap :=
  let heap := foldl (fun heap actor => heap_upd actor RemoveActor heap) heap (actors self) in
  (mk [] [] ∅ (camera_objects self)
      (move_gizmo self) (rotate_gizmo self) (scale_gizmo self)
      (active_gizmo self) (light_manager self),
   heap).

Definition set_active_tool (tool_name : Tool) (self : t) (heap : Heap) : t * Heap :=
  let '(mg, heap) := Gizmo.hide (move_gizmo self) heap in
  let '(rg, heap) := Gizmo.hide (rotate_gizmo self) heap in
  let '(sg, heap) := Gizmo.hide (scale_gizmo self) heap in
  let self :=
    mk (actors self) (selected_actors self) (outline_actors self) (camera_objects self)
       mg rg sg (Some tool_name) (light_manager self) in
  show_active_gizmo self heap.

(** [get_object_at_position(x, y)] *)
Definition get_object_at_position (renderer : Renderer) (px py : Z) (self : t)
  : option ActorId :=
  match PropPicker_Pick renderer px py with
  | Some (SceneActor picked_actor) =>
      if bool_decide (picked_actor ∈ actors self) then Some picked_actor else None
  | _ => None
  end.

(** The calls the rest of the program makes on the object manager, and a
    run of them on the manager and the heap.  A run is followed through
    the state each call leaves behind; for [move_object] that is the state
    it leaves also where it raises. *)
Inductive Call :=
  | FinalizeObjectCreation (actor : ActorId)
  | SelectObject (actor : ActorId) (multi_select : bool)
  | DeselectObject (actor : ActorId)
  | DeselectAll
  | MoveObject (actor : ActorId) (delta_x delta_y delta_z : float)
  | ClearObjects
  | SetActiveTool (tool_name : Tool).

Section Calls.
Variable GetBounds : ActorId -> Actor -> Bounds.

Definition call (c : Call) (state : t * Heap) : t * Heap :=
  let '(self, heap) := state in
  match c with
  | FinalizeObjectCreation actor => finalize_object_creation actor self heap
  | SelectObject actor multi_select => select_object actor multi_select self heap
  | DeselectObject actor => (deselect_object actor self, heap)
  | DeselectAll => deselect_all self heap
  | MoveObject actor delta_x delta_y delta_z =>
      move_object GetBounds actor delta_x delta_y delta_z self heap
  | ClearObjects => clear_objects self heap
  | SetActiveTool tool_name => set_active_tool tool_name self heap
  end.

Definition calls (cs : list Call) (state : t * Heap) : t * Heap :=
  foldl (fun state c => call c state) state cs.

(** Every [select_object] of the run is given an actor of the actor list,
    as [get_object_at_position] and the creation of an object give it. *)
Fixpoint selects_registered (cs : list Call) (state : t * Heap) : Prop :=
  match cs with
  | [] => True
  | c :: cs' =>
      match c with
      | SelectObject actor _ => actor ∈ actors state.1
      | _ => True
      end /\ selects_registered cs' (call c state)
  end.
End Calls.

End ObjectManager.

(** ** class LightManager: creating a light with its icon

    The light manager reaches the object manager it was given, and the
    object manager the light manager that attached itself to it; here the
    pair is the object manager with its [light_manager]. *)

Module LightIcons.

(** [_add_icon_actor(source, color, position)]; [actor] is the identity
    of the new [vtkActor]. *)
Definition _add_icon_actor (actor : ActorId) (position : Vec3)
    (om : ObjectManager.t) (heap : Heap) : ObjectManager.t * Heap :=
  let heap :=
    heap_upd actor
      (fun fresh =>
         SetPosition position
           (SetScale (mkVec3 1.5%float 1.5%float 1.5%float)
              (vtkActor (Transform_GetOrientation fresh)))) heap in
  ObjectManager.add_external_model actor om heap.

(** [self.light_objects[actor] = info] *)
Definition register (actor : ActorId) (info : LightManager.Info)
    (om : ObjectManager.t) : ObjectManager.t :=
  match ObjectManager.light_manager om with
  | Some lm =>
      ObjectManager.with_roles (ObjectManager.camera_objects om)
        (Some (LightManager.mk (<[actor := info]> (LightManager.light_objects lm)))) om
  | None => om
  end.

(** A new [vtkLight]. *)
Definition new_light : LightManager.Light :=
  LightManager.mkLight (mkVec3 0%float 0%float 1%float) vec_zero.

Definition _create_point_light (actor : ActorId) (om : ObjectManager.t) (heap : Heap)
  : ObjectManager.t * Heap :=
  let '(om, heap) := _add_icon_actor actor (mkVec3 0%float 5%float 0%float) om heap in
  let light := new_light in
  let info :=
    LightManager.Single LightManager.point
      (LightManager._update_point_light (heap actor) light) in
  (register actor info om, heap).

Definition _create_sun_light (actor : ActorId) (om : ObjectManager.t) (heap : Heap)
  : ObjectManager.t * Heap :=
  let '(om, heap) := _add_icon_actor actor (mkVec3 0%float 10%float 0%float) om heap in
  let heap := heap_upd actor (SetScale (mkVec3 3.0%float 3.0%float 3.0%float)) heap in
  let light := new_light in
  let info :=
    LightManager.Single LightManager.sun
      (LightManager._update_sun_light (heap actor) light) in
  (register actor info om, heap).

Definition _create_area_light (actor : ActorId) (om : ObjectManager.t) (heap : Heap)
  : ObjectManager.t * Heap :=
  let '(om, heap) := _add_icon_actor actor (mkVec3 (-5)%float 5%float 0%float) om heap in
  let offsets :=
    [mkVec3 (-0.5)%float (-0.5)%float 0%float;
     mkVec3 0.5%float (-0.5)%float 0%float;
     mkVec3 (-0.5)%float 0.5%float 0%float;
     mkVec3 0.5%float 0.5%float 0%float] in
  let lights := map (fun _ => new_light) offsets in
  let info :=
    LightManager.Area (LightManager._update_area_light (heap actor) offsets lights) offsets in
  (register actor info om, heap).

End LightIcons.

(** ** class VTKWidget: the pointer handlers *)

(** [QPoint]: pixel coordinates. *)
Record QPoint := mkQPoint { qx : Z; qy : Z }.

Definition QPoint_sub (a b : QPoint) : QPoint := mkQPoint (qx a - qx b) (qy a - qy b).

(** [math.pi] *)
Definition math_pi : float := 0x1.921fb54442d18p+1%float.

#[global] Instance Tool_eq_dec : EqDecision Tool.
Proof. solve_decision. Defined.

(** ** class BoxSelectRubberBand *)

Module BoxSelectRubberBand.

(** [setGeometry(x, y, width, height)] *)
Record QRect := mkQRect { rect_x : Z; rect_y : Z; rect_width : Z; rect_height : Z }.

Record t := mk {
  start_point : QPoint;
  end_point : QPoint;
  is_selecting : bool;
  geometry : QRect;
  (** [show()] and [hide()] *)
  isVisible : bool
}.

Definition update_geometry (self : t) : t :=
  let x := Z.min (qx (start_point self)) (qx (end_point self)) in
  let y := Z.min (qy (start_point self)) (qy (end_point self)) in
  let width := Z.max 2 (Z.abs (qx (start_point self) - qx (end_point self))) in
  let height := Z.max 2 (Z.abs (qy (start_point self) - qy (end_point self))) in
  mk (start_point self) (end_point self) (is_selecting self) (mkQRect x y width height)
     (isVisible self).

Definition start_selection (start_point : QPoint) (self : t) : t :=
  let self := update_geometry (mk start_point start_point true (geometry self) (isVisible self)) in
  mk (BoxSelectRubberBand.start_point self) (end_point self) (is_selecting self)
     (geometry self) true.

Definition update_selection (end_point : QPoint) (self : t) : t :=
  update_geometry (mk (start_point self) end_point (is_selecting self) (geometry self)
                      (isVisible self)).

Definition end_selection (self : t) : t :=
  mk (start_point self) (end_point self) false (geometry self) false.

(** [__init__]; [geometry] is the geometry Qt gives the new widget. *)
Definition init (geometry : QRect) : t :=
  mk (mkQPoint 0 0) (mkQPoint 0 0) false geometry false.

(** A selection from its start through the pointer positions that
    follow. *)
Definition band (start_point : QPoint) (moves : list QPoint) (self : t) : t :=
  foldl (fun self pos => update_selection pos self) (start_selection start_point self) moves.

End BoxSelectRubberBand.

Module VTKWidget.

Record t := mk {
  object_manager : ObjectManager.t;
  heap : Heap;
  (** the renderer's active camera *)
  camera : CameraObject.VtkCamera;
  camera_radius : float;
  camera_theta : float;
  camera_phi : float;
  rotation_pivot : Vec3;
  last_mouse_pos : QPoint;
  is_rotating_view : bool;
  is_rotating_object : bool;
  rotate_axis : option Axis;
  rotate_start_point : QPoint;
  is_scaling : bool;
  scale_axis : option Axis;
  scale_start_point : QPoint;
  original_scale : Vec3;
  (** [main_window.right_panel.transform_widget.updates_paused], when
      there is a main window *)
  updates_paused : option bool
}.

Definition with_scene (om : ObjectManager.t) (h : Heap) (self : t) : t :=
  mk om h (camera self) (camera_radius self) (camera_theta self) (camera_phi self)
     (rotation_pivot self) (last_mouse_pos self) (is_rotating_view self)
     (is_rotating_object self) (rotate_axis self) (rotate_start_point self)
     (is_scaling self) (scale_axis self) (scale_start_point self) (original_scale self)
     (updates_paused self).

Definition with_view (cam : CameraObject.VtkCamera) (theta phi : float) (pivot : Vec3)
    (last : QPoint) (self : t) : t :=
  mk (object_manager self) (heap self) cam (camera_radius self) theta phi
     pivot last (is_rotating_view self)
     (is_rotating_object self) (rotate_axis self) (rotate_start_point self)
     (is_scaling self) (scale_axis self) (scale_start_point self) (original_scale self)
     (updates_paused self).

Definition with_rotate_start (p : QPoint) (self : t) : t :=
  mk (object_manager self) (heap self) (camera self) (camera_radius self)
     (camera_theta self) (camera_phi self)
     (rotation_pivot self) (last_mouse_pos self) (is_rotating_view self)
     (is_rotating_object self) (rotate_axis self) p
     (is_scaling self) (scale_axis self) (scale_start_point self) (original_scale self)
     (updates_paused self).

Definition with_scaling (axis : Axis) (start : QPoint) (original : Vec3) (self : t) : t :=
  mk (object_manager self) (heap self) (camera self) (camera_radius self)
     (camera_theta self) (camera_phi self)
     (rotation_pivot self) (last_mouse_pos self) (is_rotating_view self)
     (is_rotating_object self) (rotate_axis self) (rotate_start_point self)
     true (Some axis) start original
     (match updates_paused self with Some _ => Some true | None => None end).

Section Camera.
(** [math.sin] and [math.cos] *)
Variables math_sin math_cos : float -> float.

Definition update_camera_position (self : t) : t :=
  let r := camera_radius self in
  let theta := camera_theta self in
  let phi := camera_phi self in
  let cx := (r * math_sin theta * math_cos phi)%float in
  let cy := (r * math_sin theta * math_sin phi)%float in
  let cz := (r * math_cos theta)%float in
  let pivot := rotation_pivot self in
  let camera_pos := mkVec3 (cx + v0 pivot)%float (cy + v1 pivot)%float (cz + v2 pivot)%float in
  let up :=
    if (Py.abs theta <? 0.01)%float || (Py.abs (theta - math_pi) <? 0.01)%float
    then mkVec3 0%float 1%float 0%float
    else mkVec3 0%float 0%float 1%float in
  with_view (CameraObject.mkVtkCamera camera_pos pivot up
               (CameraObject.cam_ViewAngle (camera self)))
            theta phi pivot (last_mouse_pos self) self.

(** [math.radians(x)] *)
Definition radians (deg : float) : float := (deg * (math_pi / 180))%float.

(** [__init__]: a new object manager, to which the new light manager
    attaches itself, the camera 15 units from the origin at 45 degrees;
    [h] is the state of the actors there are. *)
Definition init (h : Heap) : t :=
  update_camera_position
    (mk (ObjectManager.with_roles ∅ (Some LightManager.init) ObjectManager.init) h
        (CameraObject.mkVtkCamera (mkVec3 0%float 0%float 1%float) vec_zero
           (mkVec3 0%float 1%float 0%float) 30%float)
        15.0%float (radians 45.0%float) (radians 45.0%float) vec_zero
        (mkQPoint 0 0) false false None (mkQPoint 0 0)
        false None (mkQPoint 0 0) (mkVec3 1.0%float 1.0%float 1.0%float) None).

(** The branch of [mouseMoveEvent] that runs while the middle button
    drags the view: with Shift it pans the pivot, without it orbits.  The
    squares of the pan are taken as in range, the [OverflowError] of [**]
    is not followed there: the vector squared is the cross product of the
    up vector with the way from the camera to the pivot, which
    [update_camera_position] makes the orbit radius, at most 1000, times
    sines and cosines. *)
Definition mouseMoveEvent_view (pos : QPoint) (shift : bool) (self : t) : Py.Result t :=
  let delta := QPoint_sub pos (last_mouse_pos self) in
  self' ←
    (if shift then
       let pan_sensitivity := 0.005%float in
       let camera_pos := CameraObject.cam_Position (camera self) in
       let focal_point := CameraObject.cam_FocalPoint (camera self) in
       let view_up := CameraObject.cam_ViewUp (camera self) in
       let view_dir := vec_sub focal_point camera_pos in
       let right_vec :=
         mkVec3 (v1 view_up * v2 view_dir - v2 view_up * v1 view_dir)%float
                (v2 view_up * v0 view_dir - v0 view_up * v2 view_dir)%float
                (v0 view_up * v1 view_dir - v1 view_up * v0 view_dir)%float in
       let right_length :=
         Py.sqrt (Py.sq (v0 right_vec) + Py.sq (v1 right_vec) + Py.sq (v2 right_vec))%float in
       let right_vec :=
         if (0 <? right_length)%float
         then vec_map (fun c => c / right_length)%float right_vec else right_vec in
       let pan_scale := (camera_radius self * 0.1)%float in
       let pan_x := (Py.float_of_int (qx delta) * pan_sensitivity * pan_scale)%float in
       let pan_y := (Py.float_of_int (qy delta) * pan_sensitivity * pan_scale)%float in
       let pivot := rotation_pivot self in
       let pivot :=
         mkVec3 (v0 pivot + (v0 right_vec * pan_x + v0 view_up * pan_y))%float
                (v1 pivot + (v1 right_vec * pan_x + v1 view_up * pan_y))%float
                (v2 pivot + (v2 right_vec * pan_x + v2 view_up * pan_y))%float in
       mret (with_view (camera self) (camera_theta self) (camera_phi self) pivot pos self)
     else
       let sensitivity := 0.008%float in
       let phi := (camera_phi self - Py.float_of_int (qx delta) * sensitivity)%float in
       let theta := (camera_theta self - Py.float_of_int (qy delta) * sensitivity)%float in
       let theta := Py.max 0.01%float (Py.min (math_pi - 0.01)%float theta) in
       phi ← Py.mod_ phi (2 * math_pi)%float;
       mret (with_view (camera self) theta phi (rotation_pivot self) pos self));
  mret (update_camera_position self').

(** A run of such events without Shift. *)
Fixpoint orbit_run (events : list QPoint) (self : t) : Py.Result t :=
  match events with
  | [] => mret self
  | pos :: rest =>
      self' ← mouseMoveEvent_view pos false self;
      orbit_run rest self'
  end.

Definition handle_object_selection (renderer : Renderer) (mouse_pos : QPoint)
    (multi_select : bool) (self : t) : t :=
  match ObjectManager.actors (object_manager self) with
  | [] => self
  | _ =>
      let renderer_size := GetSize renderer in
      if (renderer_size.1 =? 0) || (renderer_size.2 =? 0) then self
      else
        let px := qx mouse_pos in
        let py := renderer_size.2 - qy mouse_pos in
        let self :=
          match ObjectManager.get_object_at_position renderer px py (object_manager self) with
          | Some picked_actor =>
              let '(om, h) :=
                ObjectManager.select_object picked_actor multi_select
                  (object_manager self) (heap self) in
              with_scene om h self
          | None =>
              if negb multi_select then
                let '(om, h) := ObjectManager.deselect_all (object_manager self) (heap self) in
                with_scene om h self
              else self
          end in
        update_camera_position self
  end.

Definition handle_scale_start (renderer : Renderer) (mouse_pos : QPoint) (self : t) : t :=
  let renderer_size := GetSize renderer in
  if (renderer_size.1 =? 0) || (renderer_size.2 =? 0) then self
  else
    let px := qx mouse_pos in
    let py := renderer_size.2 - qy mouse_pos in
    let axis :=
      Gizmo.get_axis_at_position renderer px py
        (ObjectManager.scale_gizmo (object_manager self)) in
    match axis, ObjectManager.selected_actors (object_manager self) with
    | Some axis, selected_actor :: _ =>
        with_scaling axis mouse_pos (Scale (heap self selected_actor)) self
    | _, _ => handle_object_selection renderer mouse_pos false self
    end.

Definition with_radius (radius : float) (self : t) : t :=
  mk (object_manager self) (heap self) (camera self) radius
     (camera_theta self) (camera_phi self)
     (rotation_pivot self) (last_mouse_pos self) (is_rotating_view self)
     (is_rotating_object self) (rotate_axis self) (rotate_start_point self)
     (is_scaling self) (scale_axis self) (scale_start_point self) (original_scale self)
     (updates_paused self).

(** [wheelEvent]; [angle_delta_y] is [event.angleDelta().y()]. *)
Definition wheelEvent (angle_delta_y : Z) (self : t) : t :=
  let zoom_factor := 1.1%float in
  let radius :=
    if 0 <? angle_delta_y then (camera_radius self / zoom_factor)%float
    else (camera_radius self * zoom_factor)%float in
  let radius := Py.max 0.1%float (Py.min 1000.0%float radius) in
  update_camera_position (with_radius radius self).

Definition set_rotation_pivot (x y z : float) (self : t) : t :=
  update_camera_position
    (with_view (camera self) (camera_theta self) (camera_phi self) (mkVec3 x y z)
       (last_mouse_pos self) self).

Definition reset_view (self : t) : t :=
  update_camera_position
    (with_view (camera self) (radians 45.0%float) (radians 45.0%float) vec_zero
       (last_mouse_pos self) (with_radius 15.0%float self)).

(** What the pointer and the wheel can do to the view, and a run of such
    events through [mouseMoveEvent], [wheelEvent] and
    [set_rotation_pivot]. *)
Inductive ViewEvent :=
  | MiddleDrag (pos : QPoint) (shift : bool)
  | Wheel (angle_delta_y : Z)
  | Pivot (x y z : float).

Definition view_event (e : ViewEvent) (self : t) : Py.Result t :=
  match e with
  | MiddleDrag pos shift => mouseMoveEvent_view pos shift self
  | Wheel angle_delta_y => mret (wheelEvent angle_delta_y self)
  | Pivot x y z => mret (set_rotation_pivot x y z self)
  end.

Fixpoint view_run (events : list ViewEvent) (self : t) : Py.Result t :=
  match events with
  | [] => mret self
  | e :: rest =>
      self' ← view_event e self;
      view_run rest self'
  end.
End Camera.

(** [rotation_delta] of [handle_rotate_drag]: the vertical pixel delta
    turns about X, the horizontal one about Y and Z, half a degree per
    pixel. *)
Definition rotation_delta (axis : option Axis) (delta : QPoint) : Vec3 :=
  let sensitivity := 0.5%float in
  match axis with
  | Some axis_x => mkVec3 (Py.float_of_int (qy delta) * sensitivity)%float 0%float 0%float
  | Some axis_y => mkVec3 0%float (Py.float_of_int (qx delta) * sensitivity)%float 0%float
  | Some axis_z => mkVec3 0%float 0%float (Py.float_of_int (qx delta) * sensitivity)%float
  | _ => mkVec3 0%float 0%float 0%float
  end.

Definition handle_rotate_drag (mouse_pos : QPoint) (self : t) : t :=
  match is_rotating_object self, ObjectManager.selected_actors (object_manager self) with
  | true, selected_actor :: _ =>
      let delta := QPoint_sub mouse_pos (rotate_start_point self) in
      let rotation_delta := rotation_delta (rotate_axis self) delta in
      let current_orientation := GetOrientation (heap self selected_actor) in
      let new_orientation := vec_add current_orientation rotation_delta in
      let h :=
        heap_upd selected_actor (SetOrientation_after_get new_orientation) (heap self) in
      let om := object_manager self in
      let outlines :=
        alter (fun outline_actor =>
                 SetPosition (Position (h selected_actor))
                   (SetOrientation new_orientation outline_actor))
              selected_actor (ObjectManager.outline_actors om) in
      let om := ObjectManager.with_selection (ObjectManager.selected_actors om) outlines om in
      with_rotate_start mouse_pos (with_scene om h self)
  | _, _ => self
  end.


(** [scale_factor = 1.0 + delta.x() * sensitivity] *)
Definition scale_factor (mouse_pos start : QPoint) : float :=
  let delta := QPoint_sub mouse_pos start in
  let sensitivity := 0.01%float in
  (1.0 + Py.float_of_int (qx delta) * sensitivity)%float.

(** [new_scale] of [handle_scale_drag] before the floor is applied. *)
Definition scaled (axis : option Axis) (original_scale : Vec3) (scale_factor : float) : Vec3 :=
  match axis with
  | Some axis_x =>
      mkVec3 (v0 original_scale * scale_factor)%float (v1 original_scale) (v2 original_scale)
  | Some axis_y =>
      mkVec3 (v0 original_scale) (v1 original_scale * scale_factor)%float (v2 original_scale)
  | Some axis_z =>
      mkVec3 (v0 original_scale) (v1 original_scale) (v2 original_scale * scale_factor)%float
  | Some axis_uniform =>
      mkVec3 (v0 original_scale * scale_factor)%float
             (v1 original_scale * scale_factor)%float
             (v2 original_scale * scale_factor)%float
  | None => original_scale
  end.

Definition handle_scale_drag (mouse_pos : QPoint) (self : t) : t :=
  match is_scaling self, ObjectManager.selected_actors (object_manager self) with
  | true, selected_actor :: _ =>
      let scale_factor := scale_factor mouse_pos (scale_start_point self) in
      let new_scale := scaled (scale_axis self) (original_scale self) scale_factor in
      let new_scale := vec_map (fun s => Py.max 0.1%float s) new_scale in
      let h := heap_upd selected_actor (SetScale new_scale) (heap self) in
      let om := object_manager self in
      let outlines := alter (SetScale new_scale) selected_actor (ObjectManager.outline_actors om) in
      let om := ObjectManager.with_selection (ObjectManager.selected_actors om) outlines om in
      with_scene om h self
  | _, _ => self
  end.

(** A run of drag events. *)
Definition scale_drags (events : list QPoint) (self : t) : t :=
  foldl (fun self pos => handle_scale_drag pos self) self events.

(** *** The tools of the widget

    The attributes of the widget that the handlers above leave alone: the
    current tool, the measurement tool, and the state of the Move tool and
    of the box selection.  The widget is the pair of [t] and [Tools]. *)

Record Tools := mkTools {
  current_tool : Tool;
  measurement_tool : MeasurementTool.t;
  is_moving : bool;
  move_axis : option Axis;
  move_start_point : QPoint;
  free_move_mouse_world_start : option Vec3;
  free_move_actor_start : option Vec3;
  is_box_selecting : bool;
  box_select_start : QPoint;
  box_select_rubberband : BoxSelectRubberBand.t
}.

(** [__init__], the part on the tools. *)
Definition init_tools (band : BoxSelectRubberBand.QRect) : Tools :=
  mkTools tool_select MeasurementTool.init false None (mkQPoint 0 0) None None
    false (mkQPoint 0 0) (BoxSelectRubberBand.init band).

Definition with_moving (moving : bool) (axis : option Axis) (start : QPoint)
    (world_start actor_start : option Vec3) (tools : Tools) : Tools :=
  mkTools (current_tool tools) (measurement_tool tools) moving axis start
    world_start actor_start
    (is_box_selecting tools) (box_select_start tools) (box_select_rubberband tools).

Definition with_box (selecting : bool) (start : QPoint) (band : BoxSelectRubberBand.t)
    (tools : Tools) : Tools :=
  mkTools (current_tool tools) (measurement_tool tools) (is_moving tools) (move_axis tools)
    (move_start_point tools) (free_move_mouse_world_start tools) (free_move_actor_start tools)
    selecting start band.

Definition with_tool (tool_name : Tool) (measurement_tool : MeasurementTool.t) (tools : Tools)
  : Tools :=
  mkTools tool_name measurement_tool (is_moving tools) (move_axis tools)
    (move_start_point tools) (free_move_mouse_world_start tools) (free_move_actor_start tools)
    (is_box_selecting tools) (box_select_start tools) (box_select_rubberband tools).

Definition with_rotating (rotating : bool) (axis : option Axis) (start : QPoint) (self : t)
  : t :=
  mk (object_manager self) (heap self) (camera self) (camera_radius self)
     (camera_theta self) (camera_phi self)
     (rotation_pivot self) (last_mouse_pos self) (is_rotating_view self)
     rotating axis start
     (is_scaling self) (scale_axis self) (scale_start_point self) (original_scale self)
     (updates_paused self).

Definition with_rotating_view (rotating : bool) (last : QPoint) (self : t) : t :=
  mk (object_manager self) (heap self) (camera self) (camera_radius self)
     (camera_theta self) (camera_phi self)
     (rotation_pivot self) last rotating
     (is_rotating_object self) (rotate_axis self) (rotate_start_point self)
     (is_scaling self) (scale_axis self) (scale_start_point self) (original_scale self)
     (updates_paused self).

(** [mouseReleaseEvent], what it does to the scale state: the drag is
    over and the transform panel takes updates again. *)
Definition end_scaling (self : t) : t :=
  mk (object_manager self) (heap self) (camera self) (camera_radius self)
     (camera_theta self) (camera_phi self)
     (rotation_pivot self) (last_mouse_pos self) (is_rotating_view self)
     (is_rotating_object self) (rotate_axis self) (rotate_start_point self)
     false None (scale_start_point self) (original_scale self)
     (match updates_paused self with Some _ => Some false | None => None end).

(** [QMouseEvent]: the button of a press or release, the buttons held
    during a move, whether Shift is held, and the position. *)
Inductive Button := LeftButton | MiddleButton | OtherButton.

Record QMouseEvent := mkQMouseEvent {
  button : Button;
  buttons_LeftButton : bool;
  buttons_MiddleButton : bool;
  modifiers_ShiftModifier : bool;
  pos : QPoint
}.

Section Pointer.
Variables math_sin math_cos : float -> float.
Variable GetBounds : ActorId -> Actor -> Bounds.
(** [self.vtk_widget.mapFrom(self, pos)] *)
Variable mapFrom : QPoint -> QPoint.

Definition handle_rotate_start (renderer : Renderer) (mouse_pos : QPoint) (self : t) : t :=
  let renderer_size := GetSize renderer in
  if (renderer_size.1 =? 0) || (renderer_size.2 =? 0) then self
  else
    let px := qx mouse_pos in
    let py := renderer_size.2 - qy mouse_pos in
    let axis :=
      Gizmo.get_axis_at_position renderer px py
        (ObjectManager.rotate_gizmo (object_manager self)) in
    match axis, ObjectManager.selected_actors (object_manager self) with
    | Some axis, _ :: _ => with_rotating true (Some axis) mouse_pos self
    | _, _ => handle_object_selection math_sin math_cos renderer mouse_pos false self
    end.

Definition handle_move_start (renderer : Renderer) (mouse_pos : QPoint)
    (self : t) (tools : Tools) : Py.Result (t * Tools) :=
  let renderer_size := GetSize renderer in
  if (renderer_size.1 =? 0) || (renderer_size.2 =? 0) then mret (self, tools)
  else
    let px := qx mouse_pos in
    let py := renderer_size.2 - qy mouse_pos in
    let axis :=
      Gizmo.get_axis_at_position renderer px py
        (ObjectManager.move_gizmo (object_manager self)) in
    match axis, ObjectManager.selected_actors (object_manager self) with
    | Some axis, _ :: _ =>
        mret (self, with_moving true (Some axis) mouse_pos None None tools)
    | _, _ =>
        match ObjectManager.get_object_at_position renderer px py (object_manager self) with
        | Some picked_actor =>
            if bool_decide (picked_actor ∈ ObjectManager.selected_actors (object_manager self))
            then
              world_pos ← MeasurementTool.get_world_position_from_mouse renderer px py;
              match world_pos with
              | None =>
                  mret (handle_object_selection math_sin math_cos renderer mouse_pos false self,
                        tools)
              | Some world_pos =>
                  mret (self,
                        with_moving true None mouse_pos (Some world_pos)
                          (Some (Position (heap self picked_actor))) tools)
              end
            else
              mret (handle_object_selection math_sin math_cos renderer mouse_pos false self,
                    tools)
        | None =>
            mret (handle_object_selection math_sin math_cos renderer mouse_pos false self, tools)
        end
    end.

(** [world_delta] of the axis mode of [handle_move_drag]: a hundredth of
    a unit per pixel, X and Z against the pointer. *)
Definition move_delta (axis : option Axis) (delta : QPoint) : Vec3 :=
  let sensitivity := 0.01%float in
  match axis with
  | Some axis_x => mkVec3 (Py.float_of_int (- qx delta) * sensitivity)%float 0%float 0%float
  | Some axis_y => mkVec3 0%float (Py.float_of_int (qx delta) * sensitivity)%float 0%float
  | Some axis_z => mkVec3 0%float 0%float (Py.float_of_int (- qy delta) * sensitivity)%float
  | _ => mkVec3 0%float 0%float 0%float
  end.

(** [self.object_manager.move_gizmo.update_position()] *)
Definition update_move_gizmo (om : ObjectManager.t) (h : Heap) : ObjectManager.t :=
  ObjectManager.with_gizmos (Gizmo.update_position (ObjectManager.move_gizmo om) h)
    (ObjectManager.rotate_gizmo om) (ObjectManager.scale_gizmo om) om.

Definition handle_move_drag (renderer : Renderer) (mouse_pos : QPoint)
    (self : t) (tools : Tools) : Py.Result (t * Tools) :=
  match is_moving tools, ObjectManager.selected_actors (object_manager self) with
  | true, selected_actor :: _ =>
      match move_axis tools with
      | None =>
          let renderer_size := GetSize renderer in
          if (renderer_size.1 =? 0) || (renderer_size.2 =? 0) then mret (self, tools)
          else
            match free_move_mouse_world_start tools, free_move_actor_start tools with
            | Some world_start, Some actor_start =>
                let px := qx mouse_pos in
                let py := renderer_size.2 - qy mouse_pos in
                world_now ← MeasurementTool.get_world_position_from_mouse renderer px py;
                match world_now with
                | None => mret (self, tools)
                | Some world_now =>
                    let world_delta := vec_sub world_now world_start in
                    let new_pos := vec_add actor_start world_delta in
                    let h := heap_upd selected_actor (SetPosition new_pos) (heap self) in
                    let om := object_manager self in
                    let outlines :=
                      alter (SetPosition new_pos) selected_actor
                        (ObjectManager.outline_actors om) in
                    let om :=
                      ObjectManager.with_selection (ObjectManager.selected_actors om)
                        outlines om in
                    mret (with_scene (update_move_gizmo om h) h self, tools)
                end
            | _, _ => mret (self, tools)
            end
      | Some axis =>
          let delta := QPoint_sub mouse_pos (move_start_point tools) in
          let world_delta := move_delta (Some axis) delta in
          match
            ObjectManager.move_object_raises GetBounds selected_actor
              (v0 world_delta) (v1 world_delta) (v2 world_delta)
              (object_manager self) (heap self)
          with
          | Some e => Py.Raise e
          | None =>
              let '(om, h) :=
                ObjectManager.move_object GetBounds selected_actor
                  (v0 world_delta) (v1 world_delta) (v2 world_delta)
                  (object_manager self) (heap self) in
              mret (with_scene (update_move_gizmo om h) h self,
                    with_moving (is_moving tools) (move_axis tools) mouse_pos
                      (free_move_mouse_world_start tools) (free_move_actor_start tools) tools)
          end
      end
  | _, _ => mret (self, tools)
  end.

Definition start_box_selection (pos : QPoint) (tools : Tools) : Tools :=
  let vtk_pos := mapFrom pos in
  with_box true pos
    (BoxSelectRubberBand.start_selection vtk_pos (box_select_rubberband tools)) tools.

Definition update_box_selection (pos : QPoint) (tools : Tools) : Tools :=
  let vtk_pos := mapFrom pos in
  with_box (is_box_selecting tools) (box_select_start tools)
    (BoxSelectRubberBand.update_selection vtk_pos (box_select_rubberband tools)) tools.

(** The definition of [end_box_selection] that is in force, the later of
    the two in the class: it ends the rubber band and reports the size of
    the box. *)
Definition end_box_selection (pos : QPoint) (tools : Tools) : Tools :=
  with_box false (box_select_start tools)
    (BoxSelectRubberBand.end_selection (box_select_rubberband tools)) tools.

(** The definition of [on_tool_changed] that is in force, the later of
    the two in the class. *)
Definition on_tool_changed (tool_name : Tool) (self : t) (tools : Tools) : t * Tools :=
  let measurement_tool :=
    match tool_name with
    | tool_measure => measurement_tool tools
    | _ => MeasurementTool.deactivate (measurement_tool tools)
    end in
  let om := object_manager self in
  let h := heap self in
  let '(om, h, measurement_tool) :=
    match tool_name with
    | tool_select | tool_box_select =>
        let '(mg, h) := Gizmo.hide (ObjectManager.move_gizmo om) h in
        let '(rg, h) := Gizmo.hide (ObjectManager.rotate_gizmo om) h in
        (ObjectManager.with_gizmos mg rg (ObjectManager.scale_gizmo om) om, h, measurement_tool)
    | tool_move =>
        let '(rg, h) := Gizmo.hide (ObjectManager.rotate_gizmo om) h in
        let om := ObjectManager.with_gizmos (ObjectManager.move_gizmo om) rg
                    (ObjectManager.scale_gizmo om) om in
        match ObjectManager.selected_actors om with
        | first :: _ =>
            let '(mg, h) := Gizmo.show (Some first) (ObjectManager.move_gizmo om) h in
            (ObjectManager.with_gizmos mg (ObjectManager.rotate_gizmo om)
               (ObjectManager.scale_gizmo om) om, h, measurement_tool)
        | [] => (om, h, measurement_tool)
        end
    | tool_rotate =>
        let '(mg, h) := Gizmo.hide (ObjectManager.move_gizmo om) h in
        let om := ObjectManager.with_gizmos mg (ObjectManager.rotate_gizmo om)
                    (ObjectManager.scale_gizmo om) om in
        match ObjectManager.selected_actors om with
        | first :: _ =>
            let '(rg, h) := Gizmo.show (Some first) (ObjectManager.rotate_gizmo om) h in
            (ObjectManager.with_gizmos (ObjectManager.move_gizmo om) rg
               (ObjectManager.scale_gizmo om) om, h, measurement_tool)
        | [] => (om, h, measurement_tool)
        end
    | tool_measure =>
        let '(mg, h) := Gizmo.hide (ObjectManager.move_gizmo om) h in
        let '(rg, h) := Gizmo.hide (ObjectManager.rotate_gizmo om) h in
        let '(sg, h) := Gizmo.hide (ObjectManager.scale_gizmo om) h in
        (ObjectManager.with_gizmos mg rg sg om, h, MeasurementTool.activate measurement_tool)
    | tool_scale => (om, h, measurement_tool)
    end in
  let '(om, h) := ObjectManager.set_active_tool tool_name om h in
  (with_scene om h self, with_tool tool_name measurement_tool tools).

Definition mousePressEvent (renderer : Renderer) (event : QMouseEvent)
    (self : t) (tools : Tools) : Py.Result (t * Tools) :=
  match button event with
  | LeftButton =>
      match current_tool tools with
      | tool_select =>
          let multi_select := modifiers_ShiftModifier event in
          mret (handle_object_selection math_sin math_cos renderer (pos event) multi_select self,
                tools)
      | tool_move => handle_move_start renderer (pos event) self tools
      | tool_rotate => mret (handle_rotate_start renderer (pos event) self, tools)
      | tool_scale =>
          mret (handle_scale_start math_sin math_cos renderer (pos event) self, tools)
      | tool_box_select => mret (self, start_box_selection (pos event) tools)
      | tool_measure =>
          r ← MeasurementTool.handle_click renderer (qx (pos event)) (qy (pos event))
                (measurement_tool tools);
          let handled := fst (r : bool * MeasurementTool.t) in
          let tools := with_tool (current_tool tools) (snd r) tools in
          if handled then mret (self, tools)
          else
            mret (handle_object_selection math_sin math_cos renderer (pos event) false self,
                  tools)
      end
  | MiddleButton => mret (with_rotating_view true (pos event) self, tools)
  | OtherButton => mret (self, tools)
  end.

Definition mouseMoveEvent (renderer : Renderer) (event : QMouseEvent)
    (self : t) (tools : Tools) : PyList.Result (t * Tools) :=
  if is_scaling self && buttons_LeftButton event then
    PyList.Return (handle_scale_drag (pos event) self, tools)
  else if is_moving tools && buttons_LeftButton event then
    PyList.lift (handle_move_drag renderer (pos event) self tools)
  else if is_rotating_object self && buttons_LeftButton event then
    PyList.Return (handle_rotate_drag (pos event) self, tools)
  else if is_box_selecting tools && buttons_LeftButton event then
    PyList.Return (self, update_box_selection (pos event) tools)
  else if bool_decide (current_tool tools = tool_measure) && buttons_LeftButton event then
    PyList.bind
      (MeasurementTool.handle_drag renderer (qx (pos event)) (qy (pos event))
         (measurement_tool tools))
      (fun r : bool * MeasurementTool.t =>
         PyList.Return (self, with_tool (current_tool tools) (snd r) tools))
  else if is_rotating_view self && buttons_MiddleButton event then
    PyList.bind
      (PyList.lift
         (mouseMoveEvent_view math_sin math_cos (pos event) (modifiers_ShiftModifier event) self))
      (fun self => PyList.Return (self, tools))
  else PyList.Return (self, tools).

Definition mouseReleaseEvent (renderer : Renderer) (event : QMouseEvent)
    (self : t) (tools : Tools) : Py.Result (t * Tools) :=
  match button event with
  | LeftButton =>
      if is_scaling self then mret (end_scaling self, tools)
      else if is_moving tools then
        mret (self, with_moving false None (move_start_point tools) None None tools)
      else if is_rotating_object self then
        mret (with_rotating false None (rotate_start_point self) self, tools)
      else if is_box_selecting tools then mret (self, end_box_selection (pos event) tools)
      else if bool_decide (current_tool tools = tool_measure) then
        r ← MeasurementTool.handle_release renderer (qx (pos event)) (qy (pos event))
              (measurement_tool tools);
        mret (self, with_tool (current_tool tools) (snd (r : bool * MeasurementTool.t)) tools)
      else mret (self, tools)
  | MiddleButton => mret (with_rotating_view false (last_mouse_pos self) self, tools)
  | OtherButton => mret (self, tools)
  end.

(** The events the widget gets, each with the renderer's answers at that
    time, and a run of them. *)
Inductive Event :=
  | MousePress (renderer : Renderer) (event : QMouseEvent)
  | MouseMove (renderer : Renderer) (event : QMouseEvent)
  | MouseRelease (renderer : Renderer) (event : QMouseEvent)
  | ToolChanged (tool_name : Tool).

Definition dispatch (e : Event) (widget : t * Tools) : PyList.Result (t * Tools) :=
  match e with
  | MousePress renderer event =>
      PyList.lift (mousePressEvent renderer event widget.1 widget.2)
  | MouseMove renderer event => mouseMoveEvent renderer event widget.1 widget.2
  | MouseRelease renderer event =>
      PyList.lift (mouseReleaseEvent renderer event widget.1 widget.2)
  | ToolChanged tool_name => PyList.Return (on_tool_changed tool_name widget.1 widget.2)
  end.

Fixpoint run (events : list Event) (widget : t * Tools) : PyList.Result (t * Tools) :=
  match events with
  | [] => PyList.Return widget
  | e :: rest => PyList.bind (dispatch e widget) (run rest)
  end.
End Pointer.

End VTKWidget.

(** ** class RightPanel: the geometry shown for the selected object *)

Module RightPanel.

(** [vtkPolyData], as far as the panel reads it: the number of points of
    [GetPoints()] and the cells of [GetPolys()], each cell the list of
    its point ids; either may be [None]. *)
Record vtkPolyData := mkPolyData {
  GetPoints : option Z;
  GetPolys : option (list (list Z))
}.

(** [tuple(sorted([point1, point2]))] *)
Definition sorted_edge (point1 point2 : Z) : Z * Z :=
  (Z.min point1 point2, Z.max point1 point2).

(** The edges the inner loop of [calculate_edge_count] adds for one
    cell, in the order it adds them. *)
Definition cell_edges (id_list : list Z) : list (Z * Z) :=
  let num_points := length id_list in
  map (fun i =>
         let point1 := nth i id_list 0 in
         let point2 := nth ((i + 1) mod num_points)%nat id_list 0 in
         sorted_edge point1 point2)
      (seq 0 num_points).

(** The set [edges] after the traversal of the cells. *)
Definition edge_set (polygons : list (list Z)) : gset (Z * Z) :=
  foldl (fun edges id_list =>
           foldl (fun edges edge => edges ∪ {[edge]}) edges (cell_edges id_list))
        ∅ polygons.

Definition calculate_edge_count (polydata : option vtkPolyData) : Z :=
  match polydata with
  | None => 0
  | Some polydata =>
      match GetPolys polydata with
      | None => 0
      | Some polygons => Z.of_nat (size (edge_set polygons))
      end
  end.

Definition calculate_corner_count (polydata : option vtkPolyData) : Z :=
  match polydata with
  | None => 0
  | Some polydata =>
      match GetPoints polydata with
      | Some points => points
      | None => 0
      end
  end.

End RightPanel.

(** ** What the properties observe *)

(** The polar angle is at least 0.01 and at most pi - 0.01, and so
    strictly between 0 and pi. *)
Definition polar_in_range (theta : float) : Prop :=
  (0.01 <=? theta)%float = true /\ (theta <=? math_pi - 0.01)%float = true /\
  (0 <? theta)%float = true /\ (theta <? math_pi)%float = true.

(** The orbit radius is at least 0.1 and at most 1000. *)
Definition zoom_in_range (radius : float) : Prop :=
  (0.1 <=? radius)%float = true /\ (radius <=? 1000.0)%float = true.

(** The measurement tool between two pointer events: it holds at most two
    points, and a point that is being dragged is one of them. *)
Definition measurement_ready (self : MeasurementTool.t) : Prop :=
  (length (MeasurementTool.points self) <= 2)%nat /\
  (MeasurementTool.is_dragging_new_point self = false ->
   forall i, MeasurementTool.dragging_point self = Some i ->
             (i < length (MeasurementTool.points self))%nat).

(** [x ** 2] returns: the number is not finite, or its square is in the
    range of binary64. *)
Definition square_in_range (x : float) : bool :=
  negb (is_finite x) || is_finite (x * x)%float.



(** The distance between the two points can be computed: the square of
    each coordinate difference is in range. *)
Definition measurable (point1 point2 : Vec3) : bool :=
  square_in_range (v0 point2 - v0 point1) && square_in_range (v1 point2 - v1 point1)
  && square_in_range (v2 point2 - v2 point1).


(** Whether the outline of an actor is shown, if it has an outline. *)
Definition outline_visible (om : ObjectManager.t) (a : ActorId) : option bool :=
  Visibility <$> ObjectManager.outline_actors om !! a.

(** Exactly the selected objects show their outline, and no object is
    selected twice. *)
Definition selection_outlined (om : ObjectManager.t) : Prop :=
  NoDup (ObjectManager.selected_actors om) /\
  forall a shown, outline_visible om a = Some shown ->
                  (shown = true <-> a ∈ ObjectManager.selected_actors om).

(** The gizmos of an object manager with the tools they belong to. *)
Definition gizmos (om : ObjectManager.t) : list (Tool * Gizmo.t) :=
  [(tool_move, ObjectManager.move_gizmo om);
   (tool_rotate, ObjectManager.rotate_gizmo om);
   (tool_scale, ObjectManager.scale_gizmo om)].

(** A gizmo that is shown is the one of the active tool and sits on an
    actor; a gizmo that is hidden has no opacity left to restore. *)
Definition gizmos_match_tool (om : ObjectManager.t) : Prop :=
  forall tool g, (tool, g) ∈ gizmos om ->
    (Gizmo.is_visible g = true ->
     ObjectManager.active_gizmo om = Some tool /\ is_Some (Gizmo.selected_actor g)) /\
    (Gizmo.is_visible g = false -> Gizmo.original_opacities g = ∅).

(** The opacity an actor has once every gizmo is hidden, which
    [deselect_all] does first. *)
Definition restored_opacity (state : ObjectManager.t * Heap) (a : ActorId) : float :=
  Opacity ((ObjectManager.deselect_all state.1 state.2).2 a).

(** The call is neither a selection with the multi-select flag nor the
    creation of the actor [a]. *)
Definition leaves_opacity (a : ActorId) (c : ObjectManager.Call) : bool :=
  match c with
  | ObjectManager.SelectObject _ multi_select => negb multi_select
  | ObjectManager.FinalizeObjectCreation actor => negb (Pos.eqb actor a)
  | _ => true
  end.

(** A free move of the first selected object [a] is in progress: it
    began at the picked point [world_start], with [actor_start] taken as
    the position to move from, and no scale drag is under way. *)
Definition free_move_in_progress (a : ActorId) (world_start actor_start : Vec3)
    (widget : VTKWidget.t * VTKWidget.Tools) : Prop :=
  VTKWidget.is_scaling widget.1 = false /\
  VTKWidget.is_moving widget.2 = true /\
  VTKWidget.move_axis widget.2 = None /\
  VTKWidget.free_move_mouse_world_start widget.2 = Some world_start /\
  VTKWidget.free_move_actor_start widget.2 = Some actor_start /\
  head (ObjectManager.selected_actors (VTKWidget.object_manager widget.1)) = Some a.

(** The handles of the move gizmo are where the object [a] is, when the
    gizmo is shown on it. *)
Definition move_gizmo_on (a : ActorId) (self : VTKWidget.t) : Prop :=
  Gizmo.is_visible (ObjectManager.move_gizmo (VTKWidget.object_manager self)) = true ->
  Gizmo.selected_actor (ObjectManager.move_gizmo (VTKWidget.object_manager self)) = Some a ->
  forall handle,
    handle ∈ Gizmo.actors (ObjectManager.move_gizmo (VTKWidget.object_manager self)) ->
    Position handle.2 = Position (VTKWidget.heap self a).

(** The outline of the object [a], if it has one, is where the object is. *)
Definition outline_on (a : ActorId) (self : VTKWidget.t) : Prop :=
  forall outline,
    ObjectManager.outline_actors (VTKWidget.object_manager self) !! a = Some outline ->
    Position outline = Position (VTKWidget.heap self a).

(** Two cells list the same polygon: the one is the other started at
    another corner, possibly with the corners in the opposite order. *)
Definition same_polygon (p q : list Z) : Prop :=
  exists k, q = rotate k p \/ q = rotate k (reverse p).

(** Two lists of cells describe the same polygons, whatever the order of
    the cells and however often a polygon is listed. *)
Definition same_polygons (cells cells' : list (list Z)) : Prop :=
  (forall p, p ∈ cells -> exists q, q ∈ cells' /\ same_polygon p q) /\
  (forall q, q ∈ cells' -> exists p, p ∈ cells /\ same_polygon p q).


(** ** A small scene

    One object is created and selected, the Scale tool is chosen, and the
    pointer goes down on the X handle of the scale gizmo at pixel
    (200, 300) of an 800 x 600 viewport. *)

Module Demo.

(** What VTK works out of the matrix built from [angles], at the angles
    the examples reach: (0, -0, 0) from the identity,
    29.999999999999996 about Z from a turn of 30 about Z, and
    (80.00000000000001, -180, 180) from a turn of 100 about X.  No example
    asks for other angles. *)
Definition vtk_angles (angles : Vec3) : Vec3 :=
  if vec_eqb angles (mkVec3 0 0 0) then mkVec3 0 (-0) 0
  else if vec_eqb angles (mkVec3 0 0 30) then mkVec3 0 (-0) 0x1.dffffffffffffp+4
  else if vec_eqb angles (mkVec3 100 0 0) then mkVec3 0x1.4000000000001p+6 (-180) 180
  else angles.

Definition heap0 : Heap := fun _ => vtkActor vtk_angles.

Definition object : ActorId := 1%positive.

(** [math.sin] and [math.cos] at the one angle the scene needs, 45
    degrees, where the camera starts. *)
Definition sin_45 : float -> float := fun _ => 0x1.6a09e667f3bccp-1%float.
Definition cos_45 : float -> float := fun _ => 0x1.6a09e667f3bcdp-1%float.

Definition fresh : VTKWidget.t := VTKWidget.init sin_45 cos_45 heap0.

Definition scene : ObjectManager.t * Heap :=
  let '(om, h) :=
    ObjectManager.finalize_object_creation object
      (VTKWidget.object_manager fresh) (VTKWidget.heap fresh) in
  ObjectManager.set_active_tool tool_scale om h.

(** A second object, created after the first. *)
Definition second_object : ActorId := 2%positive.

Definition two_objects : ObjectManager.t * Heap :=
  let '(om, h) :=
    ObjectManager.finalize_object_creation object
      (VTKWidget.object_manager fresh) (VTKWidget.heap fresh) in
  ObjectManager.finalize_object_creation second_object om h.

Definition renderer : Renderer :=
  mkRenderer (800, 600)
    (mkVec3 0%float 0%float 10%float) vec_zero
    (fun _ _ => mkVec3 0%float 0%float (-90)%float)
    (fun _ _ depth =>
       if (depth =? 0)%float then (mkVec3 0%float 0%float 9%float, 1%float)
       else (mkVec3 0%float 0%float (-90)%float, 1%float))
    (fun _ _ => Some (GizmoHandle ScaleGizmo axis_x)).



(** The scene after [clear_objects]: the first object is still referred
    to from outside but is no longer in the actor list. *)
Definition cleared : ObjectManager.t * Heap :=
  ObjectManager.clear_objects scene.1 scene.2.

(** Bounds are not looked at in the examples. *)
Definition no_bounds : ActorId -> Actor -> Bounds :=
  fun _ _ => mkBounds 0%float 0%float 0%float 0%float 0%float 0%float.

Definition widget : VTKWidget.t := VTKWidget.with_scene scene.1 scene.2 fresh.

(** A view straight onto a wall in the plane z = 0, one unit per pixel:
    the world point under a display point has that point's coordinates. *)
Definition wall_view : Renderer :=
  mkRenderer (800, 600)
    (mkVec3 400%float 300%float 1000%float) (mkVec3 400%float 300%float 0%float)
    (fun x y => mkVec3 (Py.float_of_int x) (Py.float_of_int y) 0%float)
    (fun x y depth => (mkVec3 (Py.float_of_int x) (Py.float_of_int y) 0%float, 1%float))
    (fun _ _ => None).

(** The measurement tool when the Measure tool has just been chosen. *)
Definition measuring : MeasurementTool.t := MeasurementTool.activate MeasurementTool.init.

(** The pointer goes down at pixel (100, 500), moves, and is released at
    pixel (103, 496). *)
Definition gesture : list MeasurementTool.PointerEvent :=
  [MeasurementTool.Press wall_view 100 500;
   MeasurementTool.Drag wall_view 101 499;
   MeasurementTool.Drag wall_view 102 497;
   MeasurementTool.Release wall_view 103 496].

(** The scene with a point light and an area light added. *)
Definition lamp : ActorId := 3%positive.
Definition panel : ActorId := 4%positive.

Definition lit : ObjectManager.t * Heap :=
  let '(om, h) := LightIcons._create_point_light lamp scene.1 scene.2 in
  LightIcons._create_area_light panel om h.

(** The tools of the widget at start-up, and a press, a move or a
    release of the left button at a pixel. *)
Definition tools : VTKWidget.Tools :=
  VTKWidget.init_tools (BoxSelectRubberBand.mkQRect 0 0 640 480).

Definition left (x y : Z) : VTKWidget.QMouseEvent :=
  VTKWidget.mkQMouseEvent VTKWidget.LeftButton true false false (mkQPoint x y).

(** The viewport with the X arrow of the move gizmo under every pixel,
    and the wall view with the first object under every pixel. *)
Definition arrow_view : Renderer :=
  mkRenderer (800, 600)
    (mkVec3 0%float 0%float 10%float) vec_zero
    (fun _ _ => mkVec3 0%float 0%float (-90)%float)
    (fun _ _ depth => (mkVec3 0%float 0%float 9%float, 1%float))
    (fun _ _ => Some (GizmoHandle MoveGizmo axis_x)).

Definition object_view : Renderer :=
  mkRenderer (800, 600)
    (mkVec3 400%float 300%float 1000%float) (mkVec3 400%float 300%float 0%float)
    (fun x y => mkVec3 (Py.float_of_int x) (Py.float_of_int y) 0%float)
    (fun x y depth => (mkVec3 (Py.float_of_int x) (Py.float_of_int y) 0%float, 1%float))
    (fun _ _ => Some (SceneActor object)).

(** The widget with the Move tool chosen, and then with the left button
    down on the X arrow at pixel (200, 300), or on the object itself. *)
Definition move_tool : VTKWidget.t * VTKWidget.Tools :=
  VTKWidget.on_tool_changed tool_move widget tools.

Definition pressed (renderer : Renderer) : VTKWidget.t * VTKWidget.Tools :=
  match VTKWidget.mousePressEvent sin_45 cos_45 id renderer (left 200 300)
          move_tool.1 move_tool.2 with
  | Py.Return w => w
  | Py.Raise _ => move_tool
  end.

Definition moving : VTKWidget.t * VTKWidget.Tools := pressed arrow_view.
Definition grabbing : VTKWidget.t * VTKWidget.Tools := pressed object_view.

(** The second object put at (5, 0, 0), both objects selected, the first
    one first, and the Move tool chosen; and the wall view with the
    second object under every pixel. *)
Definition both_selected : VTKWidget.t * VTKWidget.Tools :=
  let '(om, h) := two_objects in
  let '(om, h) := ObjectManager.move_object no_bounds second_object 5 0 0 om h in
  let '(om, h) := ObjectManager.select_object object false om h in
  let '(om, h) := ObjectManager.select_object second_object true om h in
  VTKWidget.on_tool_changed tool_move (VTKWidget.with_scene om h fresh) tools.

Definition second_view : Renderer :=
  mkRenderer (800, 600)
    (mkVec3 400%float 300%float 1000%float) (mkVec3 400%float 300%float 0%float)
    (fun x y => mkVec3 (Py.float_of_int x) (Py.float_of_int y) 0%float)
    (fun x y depth => (mkVec3 (Py.float_of_int x) (Py.float_of_int y) 0%float, 1%float))
    (fun _ _ => Some (SceneActor second_object)).

(** Two triangles with a common edge, and the same two triangles listed
    with other first corners, the first one also the other way round and
    the second one twice. *)
Definition two_triangles : list (list Z) := [[0; 1; 2]; [2; 1; 3]].
Definition two_triangles_again : list (list Z) := [[3; 2; 1]; [2; 1; 0]; [1; 3; 2]].

(** The widget and its tools after the Box Select tool is chosen. *)
Definition boxing : VTKWidget.t * VTKWidget.Tools :=
  VTKWidget.on_tool_changed tool_box_select widget tools.

(** The light manager of that scene. *)
Definition lights : LightManager.t :=
  match ObjectManager.light_manager lit.1 with
  | Some lm => lm
  | None => LightManager.init
  end.

(** The tool after that gesture, with its two points. *)
Definition measured : MeasurementTool.t :=
  match MeasurementTool.pointer_run gesture measuring with
  | PyList.Return self => self
  | PyList.Raise _ => measuring
  end.

Definition scaling : VTKWidget.t :=
  VTKWidget.handle_scale_start sin_45 cos_45 renderer (mkQPoint 200 300) widget.

(** The same object while the Z ring of the rotate gizmo is dragged from
    pixel (200, 300). *)
Definition rotating : VTKWidget.t :=
  VTKWidget.mk (VTKWidget.object_manager widget) (VTKWidget.heap widget)
    (VTKWidget.camera widget) (VTKWidget.camera_radius widget)
    (VTKWidget.camera_theta widget) (VTKWidget.camera_phi widget)
    (VTKWidget.rotation_pivot widget) (VTKWidget.last_mouse_pos widget) false
    true (Some axis_z) (mkQPoint 200 300)
    false None (mkQPoint 0 0) (VTKWidget.original_scale widget) None.

(** The pointer has gone 60 pixels to the right: 30 degrees about Z. *)
Definition turned_z : VTKWidget.t :=
  VTKWidget.handle_rotate_drag (mkQPoint 260 300) rotating.

(** The pointer stays where it is: a step of no degrees. *)
Definition held_z : VTKWidget.t :=
  VTKWidget.handle_rotate_drag (mkQPoint 260 300) turned_z.



End Demo.

(** * Properties *)

(** ** Comparisons of binary64 numbers *)

Lemma ltb_leb (a b : float) : (a <? b)%float = true -> (a <=? b)%float = true.
Proof.
  rewrite FloatAxioms.ltb_spec, FloatAxioms.leb_spec. unfold SFltb, SFleb.
  destruct (SFcompare (Prim2SF a) (Prim2SF b)) as [[]|]; congruence.
Qed.

(** The result of [max(a, s)] is never below [a], whatever [s] is, also
    when [s] is not a number. *)
Lemma max_lower_bound (a s : float) :
  (a <=? a)%float = true -> (a <=? Py.max a s)%float = true.
Proof.
  intros Ha. unfold Py.max. destruct (a <? s)%float eqn:E.
  - now apply ltb_leb.
  - exact Ha.
Qed.

Lemma min_upper_bound (a s : float) :
  (a <=? a)%float = true -> (Py.min a s <=? a)%float = true.
Proof.
  intros Ha. unfold Py.min. destruct (s <? a)%float eqn:E.
  - now apply ltb_leb.
  - exact Ha.
Qed.

Lemma SF_above_positive_finite (t : spec_float) (m : positive) (e : Z) :
  SFleb (S754_finite false m e) t = true -> SFltb (S754_zero false) t = true.
Proof.
  unfold SFleb, SFltb, SFcompare.
  destruct t as [s|[]| |[] m' e']; intros H; first [discriminate H | reflexivity].
Qed.

Lemma above_hundredth_positive (t : float) :
  (0.01 <=? t)%float = true -> (0 <? t)%float = true.
Proof.
  rewrite FloatAxioms.leb_spec, FloatAxioms.ltb_spec.
  replace (Prim2SF 0.01%float) with (S754_finite false 5764607523034235 (-59))
    by (vm_compute; reflexivity).
  replace (Prim2SF 0%float) with (S754_zero false) by (vm_compute; reflexivity).
  apply SF_above_positive_finite.
Qed.

Lemma SF_leb_ltb_finite (t : spec_float) (m1 m2 : positive) (e : Z) :
  (m1 < m2)%positive ->
  SFleb t (S754_finite false m1 e) = true -> SFltb t (S754_finite false m2 e) = true.
Proof.
  intros Hm. unfold SFleb, SFltb, SFcompare.
  destruct t as [s|[]| |[] m e']; intros H; try first [discriminate H | reflexivity].
  destruct (Z.compare e' e); try first [discriminate H | reflexivity].
  change (Pos.compare_cont Eq m m1) with (Pos.compare m m1) in H.
  change (Pos.compare_cont Eq m m2) with (Pos.compare m m2).
  assert (Hle : (m <= m1)%positive).
  { unfold Pos.le. intros E. rewrite E in H. discriminate H. }
  assert (Hlt : (m < m2)%positive) by (eapply Pos.le_lt_trans; eassumption).
  unfold Pos.lt in Hlt. rewrite Hlt. reflexivity.
Qed.

Lemma below_pi_margin (t : float) :
  (t <=? math_pi - 0.01)%float = true -> (t <? math_pi)%float = true.
Proof.
  rewrite FloatAxioms.leb_spec, FloatAxioms.ltb_spec.
  replace (Prim2SF (math_pi - 0.01)%float) with (S754_finite false 7051719753891588 (-51))
    by (vm_compute; reflexivity).
  replace (Prim2SF math_pi) with (S754_finite false 7074237752028440 (-51))
    by (vm_compute; reflexivity).
  apply SF_leb_ltb_finite. vm_compute. reflexivity.
Qed.

(** ** The orbiting camera *)

Lemma clamped_polar_in_range (theta : float) :
  polar_in_range (Py.max 0.01 (Py.min (math_pi - 0.01) theta)).
Proof.
  assert (Hlo : (0.01 <=? Py.max 0.01 (Py.min (math_pi - 0.01) theta))%float = true)
    by (apply max_lower_bound; vm_compute; reflexivity).
  assert (Hhi : (Py.max 0.01 (Py.min (math_pi - 0.01) theta) <=? math_pi - 0.01)%float = true).
  { unfold Py.max.
    destruct (0.01 <? Py.min (math_pi - 0.01) theta)%float.
    - apply min_upper_bound. vm_compute. reflexivity.
    - vm_compute. reflexivity. }
  repeat split; auto using above_hundredth_positive, below_pi_margin.
Qed.

Lemma mod_full_turn_returns (v : float) :
  exists r, Py.mod_ v (2 * math_pi)%float = Py.Return r.
Proof.
  unfold Py.mod_.
  set (b := (2 * math_pi =? 0)%float). vm_compute in b. subst b.
  set (b := (2 * math_pi <? 0)%float). vm_compute in b. subst b.
  cbv iota.
  destruct (Py.fmod v (2 * math_pi) =? 0)%float; [eauto|].
  destruct (xorb false (Py.fmod v (2 * math_pi) <? 0)%float); eauto.
Qed.

Lemma orbit_step (math_sin math_cos : float -> float) (pos : QPoint) (w : VTKWidget.t) :
  exists w',
    VTKWidget.mouseMoveEvent_view math_sin math_cos pos false w = Py.Return w' /\
    VTKWidget.camera_theta w' =
      Py.max 0.01
        (Py.min (math_pi - 0.01)
           (VTKWidget.camera_theta w
            - Py.float_of_int (qy (QPoint_sub pos (VTKWidget.last_mouse_pos w))) * 0.008))%float.
Proof.
  unfold VTKWidget.mouseMoveEvent_view.
  destruct (mod_full_turn_returns
              (VTKWidget.camera_phi w
               - Py.float_of_int (qx (QPoint_sub pos (VTKWidget.last_mouse_pos w))) * 0.008)%float)
    as [phi Hphi].
  cbn [mbind result_bind mret result_ret Py.bind].
  unfold mbind, result_bind, mret, result_ret.
  rewrite Hphi. cbn [Py.bind].
  eexists. split; [reflexivity|]. reflexivity.
Qed.

(** C7. After every orbit step of the camera the polar angle lies in the
    closed interval from 0.01 to pi - 0.01, hence strictly between 0 and
    pi; this holds after every non-empty run of orbit steps, whatever the
    pointer positions are, and every such run returns. *)
Theorem orbit_keeps_polar_angle_in_range
    (math_sin math_cos : float -> float) (pos : QPoint) (rest : list QPoint)
    (w : VTKWidget.t) :
  exists w',
    VTKWidget.orbit_run math_sin math_cos (pos :: rest) w = Py.Return w' /\
    polar_in_range (VTKWidget.camera_theta w').
Proof.
  revert pos w. induction rest as [|next rest IH]; intros pos w.
  - destruct (orbit_step math_sin math_cos pos w) as [w1 [Hstep Htheta]].
    exists w1. split.
    + cbn [VTKWidget.orbit_run]. unfold mbind, result_bind. rewrite Hstep. reflexivity.
    + rewrite Htheta. apply clamped_polar_in_range.
  - destruct (orbit_step math_sin math_cos pos w) as [w1 [Hstep _]].
    destruct (IH next w1) as [w' [Hrun Hrange]].
    exists w'. split; [|exact Hrange].
    change (VTKWidget.orbit_run math_sin math_cos (pos :: next :: rest) w)
      with (Py.bind (VTKWidget.mouseMoveEvent_view math_sin math_cos pos false w)
              (VTKWidget.orbit_run math_sin math_cos (next :: rest))).
    rewrite Hstep. exact Hrun.
Qed.


(** ** Scaling with the gizmo *)

Lemma heap_upd_same (a : ActorId) (f : Actor -> Actor) (h : Heap) :
  heap_upd a f h a = f (h a).
Proof. unfold heap_upd. now rewrite Pos.eqb_refl. Qed.

Lemma heap_upd_other (a b : ActorId) (f : Actor -> Actor) (h : Heap) :
  b <> a -> heap_upd a f h b = h b.
Proof.
  intros Hne. unfold heap_upd. destruct (Pos.eqb_spec b a); [contradiction|reflexivity].
Qed.

(** A drag event changes neither the drag mode nor what was recorded when
    the drag started, nor the selection. *)
Lemma scale_drag_keeps_start (pos : QPoint) (w : VTKWidget.t) :
  let w' := VTKWidget.handle_scale_drag pos w in
  VTKWidget.is_scaling w' = VTKWidget.is_scaling w /\
  VTKWidget.scale_axis w' = VTKWidget.scale_axis w /\
  VTKWidget.scale_start_point w' = VTKWidget.scale_start_point w /\
  VTKWidget.original_scale w' = VTKWidget.original_scale w /\
  ObjectManager.selected_actors (VTKWidget.object_manager w') =
    ObjectManager.selected_actors (VTKWidget.object_manager w).
Proof.
  unfold VTKWidget.handle_scale_drag.
  destruct (VTKWidget.is_scaling w) eqn:Es;
    destruct (ObjectManager.selected_actors (VTKWidget.object_manager w)) eqn:E;
    cbn; rewrite ?Es, ?E; repeat split; reflexivity.
Qed.

Lemma scale_drags_keep_start (events : list QPoint) (w : VTKWidget.t) :
  let w' := VTKWidget.scale_drags events w in
  VTKWidget.is_scaling w' = VTKWidget.is_scaling w /\
  VTKWidget.scale_axis w' = VTKWidget.scale_axis w /\
  VTKWidget.scale_start_point w' = VTKWidget.scale_start_point w /\
  VTKWidget.original_scale w' = VTKWidget.original_scale w /\
  ObjectManager.selected_actors (VTKWidget.object_manager w') =
    ObjectManager.selected_actors (VTKWidget.object_manager w).
Proof.
  revert w. induction events as [|pos events IH]; intros w; [cbn; repeat split; reflexivity|].
  cbn [VTKWidget.scale_drags foldl].
  destruct (IH (VTKWidget.handle_scale_drag pos w)) as (H1 & H2 & H3 & H4 & H5).
  destruct (scale_drag_keeps_start pos w) as (G1 & G2 & G3 & G4 & G5).
  unfold VTKWidget.scale_drags in *. cbn zeta in *.
  rewrite H1, H2, H3, H4, H5. repeat split; assumption.
Qed.

(** What one drag event stores in the selected object. *)
Lemma scale_drag_sets (pos : QPoint) (w : VTKWidget.t) (a : ActorId) (rest : list ActorId) :
  VTKWidget.is_scaling w = true ->
  ObjectManager.selected_actors (VTKWidget.object_manager w) = a :: rest ->
  Scale (VTKWidget.heap (VTKWidget.handle_scale_drag pos w) a) =
    vec_map (fun s => Py.max 0.1 s)
      (VTKWidget.scaled (VTKWidget.scale_axis w) (VTKWidget.original_scale w)
         (VTKWidget.scale_factor pos (VTKWidget.scale_start_point w))).
Proof.
  intros Hs Hsel. unfold VTKWidget.handle_scale_drag. rewrite Hs, Hsel.
  cbn. now rewrite heap_upd_same.
Qed.

(** C5. After every event of a Scale drag, however far and in whichever
    direction the pointer has moved, no component of the selected object's
    scale is below the floor 0.1. *)
Theorem scale_drag_never_below_floor
    (events : list QPoint) (pos : QPoint) (w : VTKWidget.t)
    (a : ActorId) (rest : list ActorId) :
  VTKWidget.is_scaling w = true ->
  ObjectManager.selected_actors (VTKWidget.object_manager w) = a :: rest ->
  vec_forall (fun c => (0.1 <=? c)%float)
    (Scale (VTKWidget.heap (VTKWidget.scale_drags (events ++ [pos]) w) a)) = true.
Proof.
  intros Hs Hsel.
  unfold VTKWidget.scale_drags. rewrite foldl_app. cbn [foldl].
  fold (VTKWidget.scale_drags events w).
  destruct (scale_drags_keep_start events w) as (H1 & _ & _ & _ & H5).
  cbn zeta in H1, H5.
  rewrite scale_drag_sets with (rest := rest) by congruence.
  unfold vec_forall, vec_map. cbn [v0 v1 v2].
  rewrite !max_lower_bound by (vm_compute; reflexivity). reflexivity.
Qed.

Lemma scale_drag_never_below_floor_witness :
  VTKWidget.is_scaling Demo.scaling = true /\
  ObjectManager.selected_actors (VTKWidget.object_manager Demo.scaling) = [Demo.object] /\
  vec_forall (fun c => (0.1 <=? c)%float)
    (Scale (VTKWidget.heap
              (VTKWidget.scale_drags ([mkQPoint 150 300] ++ [mkQPoint (-100000) 300])
                 Demo.scaling)
              Demo.object)) = true.
Proof.
  assert (H1 : VTKWidget.is_scaling Demo.scaling = true) by (vm_compute; reflexivity).
  assert (H2 : ObjectManager.selected_actors (VTKWidget.object_manager Demo.scaling)
               = [Demo.object]) by (vm_compute; reflexivity).
  split; [exact H1|]. split; [exact H2|].
  exact (scale_drag_never_below_floor [mkQPoint 150 300] (mkQPoint (-100000) 300)
           Demo.scaling Demo.object [] H1 H2).
Defined.

(** ** Subtraction and squares of binary64 numbers *)








Lemma finite_cases (c : float) :
  is_finite c = true ->
  (exists s, Prim2SF c = S754_zero s) \/ (exists s m e, Prim2SF c = S754_finite s m e).
Proof.
  unfold is_finite, is_nan, is_infinity.
  rewrite !FloatAxioms.eqb_spec, FloatAxioms.abs_spec.
  replace (Prim2SF infinity) with (S754_infinity false) by (vm_compute; reflexivity).
  destruct (Prim2SF c) as [s|[]| |s m e]; cbn; try discriminate; eauto.
Qed.


(** *** Results that are numbers *)














(** ** The measured distance *)




(** The outcome of [x ** 2]. *)
Lemma pow2_spec (x : float) :
  Py.pow2 x = if square_in_range x then Py.Return (x * x)%float else Py.Raise Py.OverflowError.
Proof.
  unfold Py.pow2, square_in_range, Py.sq.
  now destruct (is_finite x), (is_finite (x * x)).
Qed.

Lemma norm3_spec (a b c : float) :
  Py.norm3 a b c =
    if square_in_range a && square_in_range b && square_in_range c
    then Py.Return (PrimFloat.sqrt (a * a + b * b + c * c))
    else Py.Raise Py.OverflowError.
Proof.
  unfold Py.norm3. rewrite !pow2_spec.
  now destruct (square_in_range a), (square_in_range b), (square_in_range c).
Qed.

(** The arithmetic of a distance raises nothing but [OverflowError]. *)
Lemma norm3_raises (a b c : float) (e : Py.Exn) :
  Py.norm3 a b c = Py.Raise e -> e = Py.OverflowError.
Proof.
  rewrite norm3_spec.
  destruct (square_in_range a && square_in_range b && square_in_range c);
    [discriminate|now intros [= <-]].
Qed.








(** ** Gizmos and the opacity of their target *)

(** Restoring sets the opacity of every actor in the table to the value
    recorded for it and touches nothing else. *)
Lemma restore_opacities_spec (opacities : gmap ActorId float) (heap : Heap) (a : ActorId) :
  Gizmo.restore_opacities opacities heap a =
    match opacities !! a with
    | Some o => SetOpacity o (heap a)
    | None => heap a
    end.
Proof.
  unfold Gizmo.restore_opacities. revert a.
  apply (map_fold_weak_ind
           (fun (r : Heap) (m : gmap ActorId float) =>
              forall a, r a = match m !! a with
                              | Some o => SetOpacity o (heap a)
                              | None => heap a
                              end)).
  - intros a. now rewrite lookup_empty.
  - intros i o m r Hi IH a.
    destruct (decide (a = i)) as [->|Hne].
    + rewrite heap_upd_same, lookup_insert_eq, IH, Hi. reflexivity.
    + rewrite heap_upd_other, lookup_insert_ne by congruence. apply IH.
Qed.

Lemma show_hide_spec (target : ActorId) (g : Gizmo.t) (heap : Heap) :
  let '(g1, heap1) := Gizmo.show (Some target) g heap in
  let '(g2, heap2) := Gizmo.hide g1 heap1 in
  Opacity (heap2 target) = Opacity (heap target) /\
  Gizmo.original_opacities g2 = ∅ /\
  Gizmo.kind g2 = Gizmo.kind g /\
  (forall a, Gizmo.original_opacities g !! a = None -> Opacity (heap2 a) = Opacity (heap a)).
Proof.
  cbn. repeat split.
  - rewrite restore_opacities_spec, lookup_insert_eq. reflexivity.
  - intros a Ha. rewrite restore_opacities_spec.
    destruct (decide (a = target)) as [->|Hne].
    + rewrite lookup_insert_eq. reflexivity.
    + rewrite lookup_insert_ne, Ha, heap_upd_other by congruence. reflexivity.
Qed.

Lemma cycles_spec (targets : list ActorId) (g : Gizmo.t) (heap : Heap) :
  Gizmo.original_opacities g = ∅ ->
  let '(g', heap') := Gizmo.cycles targets g heap in
  (forall a, Opacity (heap' a) = Opacity (heap a)) /\
  Gizmo.original_opacities g' = ∅ /\
  Gizmo.kind g' = Gizmo.kind g.
Proof.
  revert g heap. induction targets as [|target rest IH]; intros g heap Hg.
  - cbn. auto.
  - cbn [Gizmo.cycles].
    pose proof (show_hide_spec target g heap) as Hsh.
    destruct (Gizmo.show (Some target) g heap) as [g1 heap1].
    destruct (Gizmo.hide g1 heap1) as [g2 heap2].
    destruct Hsh as (_ & Hempty & Hkind & Hother).
    specialize (IH g2 heap2 Hempty).
    destruct (Gizmo.cycles rest g2 heap2) as [g' heap'].
    destruct IH as (IH1 & IH2 & IH3).
    split; [|split; congruence].
    intros a. rewrite IH1. apply Hother. rewrite Hg. apply lookup_empty.
Qed.

(** C4. Whatever the gizmo (Move, Rotate or Scale), whatever its state
    and whatever the opacity of the target: [show(target)] dims the target,
    and after the [hide()] that follows the target has the opacity it had
    immediately before [show] and the restore table is empty; from then on
    any number of show/hide cycles on any targets leaves every opacity as
    it was and the table empty. *)
Theorem gizmo_show_hide_restores_opacity
    (g : Gizmo.t) (heap : Heap) (target : ActorId) (targets : list ActorId) :
  let '(g1, heap1) := Gizmo.show (Some target) g heap in
  let '(g2, heap2) := Gizmo.hide g1 heap1 in
  let '(g3, heap3) := Gizmo.cycles targets g2 heap2 in
  Opacity (heap1 target) = Gizmo.dimmed_opacity (Gizmo.kind g) /\
  Opacity (heap2 target) = Opacity (heap target) /\
  Gizmo.original_opacities g2 = ∅ /\
  (forall a, Opacity (heap3 a) = Opacity (heap2 a)) /\
  Gizmo.original_opacities g3 = ∅.
Proof.
  pose proof (show_hide_spec target g heap) as Hsh.
  assert (Hdim : Opacity ((Gizmo.show (Some target) g heap).2 target)
                 = Gizmo.dimmed_opacity (Gizmo.kind g)).
  { cbn. rewrite heap_upd_same. reflexivity. }
  destruct (Gizmo.show (Some target) g heap) as [g1 heap1].
  destruct (Gizmo.hide g1 heap1) as [g2 heap2].
  destruct Hsh as (Hrestored & Hempty & _ & _).
  pose proof (cycles_spec targets g2 heap2 Hempty) as Hcyc.
  destruct (Gizmo.cycles targets g2 heap2) as [g3 heap3].
  destruct Hcyc as (Hsame & Hempty3 & _).
  auto.
Qed.

(** The three gizmos on an object of opacity 0.65. *)
Example show_hide_on_translucent_object :
  let heap := heap_upd Demo.object (SetOpacity 0.65) Demo.heap0 in
  map (fun kind =>
         let '(g1, heap1) := Gizmo.show (Some Demo.object) (Gizmo.init kind) heap in
         let '(g2, heap2) := Gizmo.hide g1 heap1 in
         (Opacity (heap1 Demo.object), Opacity (heap2 Demo.object)))
      [MoveGizmo; RotateGizmo; ScaleGizmo]
  = [(0.3, 0.65); (0.2, 0.65); (0.3, 0.65)]%float.
Proof. vm_compute. reflexivity. Qed.

(** ** Selection *)

Lemma hide_outlines_lookup (sel : list ActorId) (outlines : gmap ActorId Actor) (k : ActorId) :
  foldl (fun outlines actor => alter (SetVisibility false) actor outlines) outlines sel !! k =
    (if bool_decide (k ∈ sel) then SetVisibility false else id) <$> outlines !! k.
Proof.
  revert outlines. induction sel as [|a sel IH]; intros outlines; cbn [foldl].
  - rewrite bool_decide_eq_false_2 by apply not_elem_of_nil.
    now destruct (outlines !! k).
  - rewrite IH. destruct (decide (a = k)) as [->|Hne].
    + rewrite lookup_alter_eq.
      rewrite (bool_decide_eq_true_2 (k ∈ k :: sel)) by apply list_elem_of_here.
      destruct (outlines !! k); [|reflexivity].
      now destruct (bool_decide (k ∈ sel)).
    + rewrite lookup_alter_ne by assumption.
      destruct (bool_decide_reflect (k ∈ sel)) as [Hin|Hnin].
      * now rewrite (bool_decide_eq_true_2 (k ∈ a :: sel))
          by now apply list_elem_of_further.
      * rewrite (bool_decide_eq_false_2 (k ∈ a :: sel)); [reflexivity|].
        rewrite elem_of_cons. intros [->|?]; [now apply Hne|contradiction].
Qed.

Lemma show_active_gizmo_keeps (om : ObjectManager.t) (heap : Heap) :
  ObjectManager.selected_actors (ObjectManager.show_active_gizmo om heap).1
    = ObjectManager.selected_actors om /\
  ObjectManager.outline_actors (ObjectManager.show_active_gizmo om heap).1
    = ObjectManager.outline_actors om /\
  ObjectManager.actors (ObjectManager.show_active_gizmo om heap).1
    = ObjectManager.actors om.
Proof.
  unfold ObjectManager.show_active_gizmo.
  destruct (ObjectManager.selected_actors om) eqn:E; [cbn; rewrite ?E; auto|].
  destruct (ObjectManager.active_gizmo om) as [[]|]; cbn; rewrite ?E; auto.
Qed.

(** A selection without the multi-select flag. *)
Lemma select_single_spec (X : ActorId) (om : ObjectManager.t) (heap : Heap) :
  let om' := (ObjectManager.select_object X false om heap).1 in
  ObjectManager.selected_actors om' = [X] /\
  forall k, outline_visible om' k =
    (fun v => if decide (k = X) then true
              else if bool_decide (k ∈ ObjectManager.selected_actors om) then false
              else v) <$> outline_visible om k.
Proof.
  unfold ObjectManager.select_object, ObjectManager.deselect_all. cbn [andb].
  cbn [Gizmo.hide].
  match goal with
  | |- context [ObjectManager.show_active_gizmo ?o ?h] =>
      destruct (show_active_gizmo_keeps o h) as (Hs & Ho & _);
      destruct (ObjectManager.show_active_gizmo o h) as [om' heap']
  end.
  cbn [fst] in *. cbn in Hs, Ho. split; [exact Hs|].
  intros k. unfold outline_visible. rewrite Ho.
  unfold ObjectManager.follow.
  destruct (decide (k = X)) as [->|Hne].
  - rewrite !lookup_alter_eq, hide_outlines_lookup.
    now destruct (ObjectManager.outline_actors om !! X).
  - rewrite !lookup_alter_ne, hide_outlines_lookup by congruence.
    destruct (ObjectManager.outline_actors om !! k); [|reflexivity].
    now destruct (bool_decide (k ∈ ObjectManager.selected_actors om)).
Qed.

Lemma remove_first_other (a k : ActorId) (l : list ActorId) :
  k <> a -> (k ∈ list_remove_first a l <-> k ∈ l).
Proof.
  intros Hne. induction l as [|b l IH]; [reflexivity|]. cbn.
  destruct (Pos.eqb_spec b a) as [->|Hb].
  - rewrite elem_of_cons. intuition congruence.
  - rewrite !elem_of_cons, IH. reflexivity.
Qed.

Lemma remove_first_gone (a : ActorId) (l : list ActorId) :
  NoDup l -> a ∉ list_remove_first a l.
Proof.
  induction 1 as [|b l Hb Hl IH]; cbn; [apply not_elem_of_nil|].
  destruct (Pos.eqb_spec b a) as [->|Hne]; [assumption|].
  rewrite not_elem_of_cons. split; [congruence|assumption].
Qed.

(** A selection with the multi-select flag. *)
Lemma select_multi_spec (X : ActorId) (om : ObjectManager.t) (heap : Heap) :
  let om' := (ObjectManager.select_object X true om heap).1 in
  ObjectManager.selected_actors om' =
    (if bool_decide (X ∈ ObjectManager.selected_actors om)
     then list_remove_first X (ObjectManager.selected_actors om)
     else ObjectManager.selected_actors om ++ [X]) /\
  outline_visible om' X =
    (fun _ => negb (bool_decide (X ∈ ObjectManager.selected_actors om)))
      <$> outline_visible om X /\
  forall k, k <> X -> outline_visible om' k = outline_visible om k.
Proof.
  unfold ObjectManager.select_object. cbn [andb].
  destruct (bool_decide (X ∈ ObjectManager.selected_actors om)) eqn:E.
  - match goal with
    | |- context [ObjectManager.show_active_gizmo ?o ?h] =>
        destruct (show_active_gizmo_keeps o h) as (Hs & Ho & _);
        destruct (ObjectManager.show_active_gizmo o h) as [om' heap']
    end.
    cbn [fst] in *. unfold ObjectManager.deselect_object in Hs, Ho.
    rewrite E in Hs. cbn in Hs, Ho.
    split; [exact Hs|]. unfold outline_visible. rewrite Ho. split.
    + rewrite lookup_alter_eq. now destruct (ObjectManager.outline_actors om !! X).
    + intros k Hk. now rewrite lookup_alter_ne by congruence.
  - match goal with
    | |- context [ObjectManager.show_active_gizmo ?o ?h] =>
        destruct (show_active_gizmo_keeps o h) as (Hs & Ho & _);
        destruct (ObjectManager.show_active_gizmo o h) as [om' heap']
    end.
    cbn [fst] in *. cbn in Hs, Ho.
    split; [exact Hs|]. unfold outline_visible. rewrite Ho.
    unfold ObjectManager.follow. split.
    + rewrite !lookup_alter_eq. now destruct (ObjectManager.outline_actors om !! X).
    + intros k Hk. now rewrite !lookup_alter_ne by congruence.
Qed.

(** C8. Two selections in a row without the multi-select flag, of [A] then
    of another object [B], leave exactly [B] selected, the outline of [A]
    hidden and the outline of [B] shown.  A selection with the flag toggles
    the object: it is taken out if it was selected, with its outline
    hidden, and appended otherwise, with its outline shown; the other
    objects stay as they are. *)
Theorem select_replaces_and_multi_select_toggles
    (A B C : ActorId) (om : ObjectManager.t) (heap : Heap) :
  A <> B ->
  NoDup (ObjectManager.selected_actors om) ->
  let '(om1, heap1) := ObjectManager.select_object A false om heap in
  let '(om2, heap2) := ObjectManager.select_object B false om1 heap1 in
  let '(om3, heap3) := ObjectManager.select_object C true om heap in
  ObjectManager.selected_actors om2 = [B] /\
  outline_visible om2 A = (fun _ => false) <$> outline_visible om A /\
  outline_visible om2 B = (fun _ => true) <$> outline_visible om B /\
  ObjectManager.selected_actors om3 =
    (if bool_decide (C ∈ ObjectManager.selected_actors om)
     then list_remove_first C (ObjectManager.selected_actors om)
     else ObjectManager.selected_actors om ++ [C]) /\
  (C ∈ ObjectManager.selected_actors om3 <-> C ∉ ObjectManager.selected_actors om) /\
  (forall k, k <> C ->
     (k ∈ ObjectManager.selected_actors om3 <-> k ∈ ObjectManager.selected_actors om)) /\
  outline_visible om3 C =
    (fun _ => negb (bool_decide (C ∈ ObjectManager.selected_actors om)))
      <$> outline_visible om C.
Proof.
  intros Hab Hnd.
  pose proof (select_single_spec A om heap) as H1.
  destruct (ObjectManager.select_object A false om heap) as [om1 heap1].
  pose proof (select_single_spec B om1 heap1) as H2.
  destruct (ObjectManager.select_object B false om1 heap1) as [om2 heap2].
  pose proof (select_multi_spec C om heap) as H3.
  destruct (ObjectManager.select_object C true om heap) as [om3 heap3].
  cbn [fst] in *. destruct H1 as [S1 V1], H2 as [S2 V2], H3 as (S3 & V3 & _).
  split; [exact S2|].
  split.
  { rewrite V2, V1, S1. destruct (outline_visible om A); [cbn|reflexivity].
    rewrite (decide_False (P := A = B)) by exact Hab.
    now rewrite (bool_decide_eq_true_2 (A ∈ [A])) by apply list_elem_of_here. }
  split.
  { rewrite V2, V1. destruct (outline_visible om B); [cbn|reflexivity].
    now rewrite (decide_True (P := B = B)) by reflexivity. }
  split; [exact S3|].
  split; [|split; [|exact V3]].
  - rewrite S3. destruct (bool_decide_reflect (C ∈ ObjectManager.selected_actors om)) as [Hin|Hnin].
    + split; [intros H; exfalso; revert H; now apply remove_first_gone|contradiction].
    + split; [auto|]. intros _. rewrite elem_of_app, list_elem_of_singleton. auto.
  - intros k Hk. rewrite S3.
    destruct (bool_decide (C ∈ ObjectManager.selected_actors om)).
    + now apply remove_first_other.
    + rewrite elem_of_app, list_elem_of_singleton. intuition congruence.
Qed.

Lemma select_replaces_and_multi_select_toggles_witness :
  Demo.object <> Demo.second_object /\
  NoDup (ObjectManager.selected_actors Demo.two_objects.1) /\
  let '(om1, heap1) :=
    ObjectManager.select_object Demo.object false Demo.two_objects.1 Demo.two_objects.2 in
  let '(om2, heap2) := ObjectManager.select_object Demo.second_object false om1 heap1 in
  ObjectManager.selected_actors om2 = [Demo.second_object] /\
  outline_visible om2 Demo.object = Some false /\
  outline_visible om2 Demo.second_object = Some true.
Proof.
  assert (Hne : Demo.object <> Demo.second_object) by discriminate.
  assert (Hnd : NoDup (ObjectManager.selected_actors Demo.two_objects.1)).
  { change (NoDup [Demo.second_object]). apply NoDup_singleton. }
  split; [exact Hne|]. split; [exact Hnd|].
  pose proof (select_replaces_and_multi_select_toggles Demo.object Demo.second_object
                Demo.object Demo.two_objects.1 Demo.two_objects.2 Hne Hnd) as H.
  destruct (ObjectManager.select_object Demo.object false _ _) as [om1 heap1].
  destruct (ObjectManager.select_object Demo.second_object false om1 heap1) as [om2 heap2].
  destruct (ObjectManager.select_object Demo.object true _ _) as [om3 heap3].
  destruct H as (H1 & H2 & H3 & _).
  split; [exact H1|]. split.
  - rewrite H2. vm_compute. reflexivity.
  - rewrite H3. vm_compute. reflexivity.
Defined.

(** ** Rotating with the gizmo *)








(** ** Scaling from the state recorded at the start of the drag *)

(** What pressing the pointer on a handle of the scale gizmo records. *)
Lemma scale_start_records
    (math_sin math_cos : float -> float) (renderer : Renderer) (p0 : QPoint)
    (w : VTKWidget.t) (a : ActorId) (rest : list ActorId) (axis : Axis) :
  (GetSize renderer).1 <> 0 -> (GetSize renderer).2 <> 0 ->
  Gizmo.get_axis_at_position renderer (qx p0) ((GetSize renderer).2 - qy p0)
    (ObjectManager.scale_gizmo (VTKWidget.object_manager w)) = Some axis ->
  ObjectManager.selected_actors (VTKWidget.object_manager w) = a :: rest ->
  let started := VTKWidget.handle_scale_start math_sin math_cos renderer p0 w in
  VTKWidget.is_scaling started = true /\
  VTKWidget.scale_axis started = Some axis /\
  VTKWidget.scale_start_point started = p0 /\
  VTKWidget.original_scale started = Scale (VTKWidget.heap w a) /\
  ObjectManager.selected_actors (VTKWidget.object_manager started) = a :: rest.
Proof.
  intros Hw Hh Hax Hsel. unfold VTKWidget.handle_scale_start.
  apply Z.eqb_neq in Hw, Hh. rewrite Hw, Hh. cbn [orb].
  rewrite Hax, Hsel. cbn. rewrite Hsel. repeat split; reflexivity.
Qed.

(** The claim as stated fails where the floor applies: dragging the X
    handle 200 pixels to the left of where the drag started gives the
    factor -1, and the object of scale (1, 1, 1) gets the X scale 0.1, not
    1 * -1. *)
Lemma scale_drag_floor_replaces_product :
  let w' := VTKWidget.handle_scale_drag (mkQPoint 0 300) Demo.scaling in
  VTKWidget.scale_start_point Demo.scaling = mkQPoint 200 300 /\
  VTKWidget.original_scale Demo.scaling = mkVec3 1 1 1 /\
  VTKWidget.scale_factor (mkQPoint 0 300) (mkQPoint 200 300) = (-1)%float /\
  Scale (VTKWidget.heap w' Demo.object) = mkVec3 0.1 1 1 /\
  Scale (VTKWidget.heap w' Demo.object) <>
    VTKWidget.scaled (Some axis_x) (mkVec3 1 1 1) (-1)%float.
Proof.
  cbv zeta. repeat split; try (vm_compute; reflexivity).
  intros H. apply (f_equal (fun v => Prim2SF (v0 v))) in H.
  vm_compute in H. discriminate H.
Qed.

(** C6, amended. From the press on a handle of the scale gizmo on, every
    drag event computes the factor 1 + dx * 0.01 from the horizontal pixel
    distance to the pointer position at the start of the drag, multiplies
    the dragged component (all three for the uniform handle) of the scale
    recorded at the start by it, and stores max(0.1, .) of each component
    of the result; the events in between do not matter, so a second event
    at the same pointer position stores the same scale again. *)
Theorem scale_drag_is_relative_to_drag_start
    (math_sin math_cos : float -> float) (renderer : Renderer) (p0 : QPoint)
    (w : VTKWidget.t) (a : ActorId) (rest : list ActorId) (axis : Axis)
    (events : list QPoint) (p : QPoint) :
  (GetSize renderer).1 <> 0 -> (GetSize renderer).2 <> 0 ->
  Gizmo.get_axis_at_position renderer (qx p0) ((GetSize renderer).2 - qy p0)
    (ObjectManager.scale_gizmo (VTKWidget.object_manager w)) = Some axis ->
  ObjectManager.selected_actors (VTKWidget.object_manager w) = a :: rest ->
  let started := VTKWidget.handle_scale_start math_sin math_cos renderer p0 w in
  let dragged := VTKWidget.handle_scale_drag p (VTKWidget.scale_drags events started) in
  let factor := (1.0 + Py.float_of_int (qx p - qx p0) * 0.01)%float in
  Scale (VTKWidget.heap dragged a) =
    vec_map (fun s => Py.max 0.1 s)
      (VTKWidget.scaled (Some axis) (Scale (VTKWidget.heap w a)) factor) /\
  Scale (VTKWidget.heap (VTKWidget.handle_scale_drag p dragged) a) =
    Scale (VTKWidget.heap dragged a).
Proof.
  intros Hw Hh Hax Hsel started dragged factor.
  destruct (scale_start_records math_sin math_cos renderer p0 w a rest axis Hw Hh Hax Hsel)
    as (S1 & S2 & S3 & S4 & S5).
  fold started in S1, S2, S3, S4, S5.
  destruct (scale_drags_keep_start events started) as (D1 & D2 & D3 & D4 & D5).
  cbn zeta in D1, D2, D3, D4, D5.
  assert (Hfirst :
    Scale (VTKWidget.heap dragged a) =
      vec_map (fun s => Py.max 0.1 s)
        (VTKWidget.scaled (Some axis) (Scale (VTKWidget.heap w a)) factor)).
  { unfold dragged. rewrite scale_drag_sets with (rest := rest) by congruence.
    rewrite D2, D3, D4, S2, S3, S4. reflexivity. }
  split; [exact Hfirst|].
  destruct (scale_drag_keeps_start p (VTKWidget.scale_drags events started))
    as (E1 & E2 & E3 & E4 & E5).
  fold dragged in E1, E2, E3, E4, E5.
  rewrite scale_drag_sets with (rest := rest) by congruence.
  rewrite Hfirst, E2, E3, E4, D2, D3, D4, S2, S3, S4. reflexivity.
Qed.

Lemma scale_drag_is_relative_to_drag_start_witness :
  (GetSize Demo.renderer).1 <> 0 /\ (GetSize Demo.renderer).2 <> 0 /\
  Gizmo.get_axis_at_position Demo.renderer 200 ((GetSize Demo.renderer).2 - 300)
    (ObjectManager.scale_gizmo (VTKWidget.object_manager Demo.widget)) = Some axis_x /\
  ObjectManager.selected_actors (VTKWidget.object_manager Demo.widget) = [Demo.object] /\
  Scale
    (VTKWidget.heap
       (VTKWidget.handle_scale_drag (mkQPoint 250 300)
          (VTKWidget.scale_drags [mkQPoint 150 300; mkQPoint 0 300] Demo.scaling))
       Demo.object)
  = mkVec3 1.5 1 1.
Proof.
  assert (H1 : (GetSize Demo.renderer).1 <> 0) by discriminate.
  assert (H2 : (GetSize Demo.renderer).2 <> 0) by discriminate.
  assert (H3 : Gizmo.get_axis_at_position Demo.renderer 200 ((GetSize Demo.renderer).2 - 300)
                 (ObjectManager.scale_gizmo (VTKWidget.object_manager Demo.widget))
               = Some axis_x) by (vm_compute; reflexivity).
  assert (H4 : ObjectManager.selected_actors (VTKWidget.object_manager Demo.widget)
               = [Demo.object]) by (vm_compute; reflexivity).
  split; [exact H1|]. split; [exact H2|]. split; [exact H3|]. split; [exact H4|].
  destruct (scale_drag_is_relative_to_drag_start Demo.sin_45 Demo.cos_45 Demo.renderer
              (mkQPoint 200 300) Demo.widget Demo.object [] axis_x
              [mkQPoint 150 300; mkQPoint 0 300] (mkQPoint 250 300) H1 H2 H3 H4)
    as [H _].
  unfold Demo.scaling. rewrite H. vm_compute. reflexivity.
Defined.

(** ** Picking a world point *)

(** The test [picker.GetPickPosition() != [0, 0, 0]] has a tuple on its
    left and a list on its right: it holds whatever the picker found. *)
Lemma pick_guard_always_holds (pick_pos : Vec3) :
  Py.seq_ne (vec_tuple pick_pos) (Py.List [Py.Int 0; Py.Int 0; Py.Int 0]) = true.
Proof. reflexivity. Qed.

Lemma world_pick_value (renderer : Renderer) (mouse_x mouse_y : Z) :
  MeasurementTool.get_world_position_from_mouse renderer mouse_x mouse_y =
    Py.Return
      (if ((GetSize renderer).1 =? 0) || ((GetSize renderer).2 =? 0) then None
       else Some (WorldPointPicker_Pick renderer mouse_x ((GetSize renderer).2 - mouse_y))).
Proof.
  unfold MeasurementTool.get_world_position_from_mouse.
  rewrite pick_guard_always_holds.
  now destruct (((GetSize renderer).1 =? 0) || ((GetSize renderer).2 =? 0)).
Qed.

Lemma world_pick_none_iff (renderer : Renderer) (mouse_x mouse_y : Z) :
  MeasurementTool.get_world_position_from_mouse renderer mouse_x mouse_y = Py.Return None
  <-> (GetSize renderer).1 = 0 \/ (GetSize renderer).2 = 0.
Proof.
  unfold MeasurementTool.get_world_position_from_mouse.
  rewrite pick_guard_always_holds.
  destruct (Z.eqb_spec (GetSize renderer).1 0) as [Hw|Hw]; cbn [orb].
  - split; intros _; [now left|reflexivity].
  - destruct (Z.eqb_spec (GetSize renderer).2 0) as [Hh|Hh].
    + split; intros _; [now right|reflexivity].
    + split; [discriminate|]. intros [?|?]; contradiction.
Qed.

(** C2. With a viewport of non-zero size [get_world_position_from_mouse]
    returns the position the world-point picker reports, for every
    pointer position and whatever that position is: the test of the
    picker's answer compares a tuple with a list and always holds, so the
    ray/plane code below it is never reached.  The function returns no
    point exactly when the width or the height of the viewport is zero,
    and it never raises. *)
Theorem world_pick_returns_picker_position
    (renderer : Renderer) (mouse_x mouse_y : Z) :
  (forall pick_pos,
     Py.seq_ne (vec_tuple pick_pos) (Py.List [Py.Int 0; Py.Int 0; Py.Int 0]) = true) /\
  MeasurementTool.get_world_position_from_mouse renderer mouse_x mouse_y =
    (if ((GetSize renderer).1 =? 0) || ((GetSize renderer).2 =? 0)
     then Py.Return None
     else Py.Return
            (Some (WorldPointPicker_Pick renderer mouse_x
                     ((GetSize renderer).2 - mouse_y)))) /\
  (MeasurementTool.get_world_position_from_mouse renderer mouse_x mouse_y = Py.Return None
   <-> (GetSize renderer).1 = 0 \/ (GetSize renderer).2 = 0).
Proof.
  split; [exact pick_guard_always_holds|].
  split; [|apply world_pick_none_iff].
  unfold MeasurementTool.get_world_position_from_mouse.
  now rewrite pick_guard_always_holds.
Qed.




(** ** Objects that are not in the registry *)

(** The claim as stated fails for [move]: after [clear_objects] the first
    object of the scene is not in the actor list, and moving it by
    (1, 0, 0) takes it from the origin to (1, 0, 0). *)
Lemma move_changes_unregistered_object :
  let om := Demo.cleared.1 in
  let heap := Demo.cleared.2 in
  let moved := ObjectManager.move_object Demo.no_bounds Demo.object 1 0 0 om heap in
  bool_decide (Demo.object ∈ ObjectManager.actors om) = false /\
  Position (heap Demo.object) = mkVec3 0 0 0 /\
  Position (moved.2 Demo.object) = mkVec3 1 0 0 /\
  Position (moved.2 Demo.object) <> Position (heap Demo.object).
Proof.
  cbv zeta. repeat split; try (vm_compute; reflexivity).
  intros H. apply (f_equal (fun v => Prim2SF (v0 v))) in H.
  vm_compute in H. discriminate H.
Qed.

(** The heap that [move_object] leaves, whether the call returns or
    raises. *)
Lemma move_object_heap
    (GetBounds : ActorId -> Actor -> Bounds) (a : ActorId) (dx dy dz : float)
    (om : ObjectManager.t) (heap : Heap) :
  let new_pos :=
    mkVec3 (v0 (Position (heap a)) + dx) (v1 (Position (heap a)) + dy)
           (v2 (Position (heap a)) + dz)%float in
  (ObjectManager.move_object GetBounds a dx dy dz om heap).2 =
    match ObjectManager.camera_objects om !! a with
    | Some cam =>
        heap_upd (CameraObject.actor cam) (SetPosition new_pos)
          (heap_upd a (SetPosition new_pos) heap)
    | None => heap_upd a (SetPosition new_pos) heap
    end.
Proof.
  unfold ObjectManager.move_object, ObjectManager.move_object_outcome.
  cbn [ObjectManager.update_outline_position ObjectManager.camera_objects
       ObjectManager.with_selection].
  destruct (ObjectManager.camera_objects om !! a) as [cam|];
    cbn -[CameraObject.get_view_direction]; [|reflexivity].
  destruct (CameraObject.get_view_direction _); reflexivity.
Qed.

Lemma move_object_position
    (GetBounds : ActorId -> Actor -> Bounds) (a : ActorId) (dx dy dz : float)
    (om : ObjectManager.t) (heap : Heap) :
  Position ((ObjectManager.move_object GetBounds a dx dy dz om heap).2 a) =
    mkVec3 (v0 (Position (heap a)) + dx) (v1 (Position (heap a)) + dy)
           (v2 (Position (heap a)) + dz)%float.
Proof.
  unfold ObjectManager.move_object, ObjectManager.move_object_outcome.
  destruct (ObjectManager.camera_objects _ !! a) as [cam|];
    cbn -[CameraObject.get_view_direction].
  - destruct (CameraObject.get_view_direction _); cbn;
      unfold heap_upd; rewrite Pos.eqb_refl;
      destruct (Pos.eqb a (CameraObject.actor cam)); reflexivity.
  - now rewrite heap_upd_same.
Qed.

(** C3, amended. For an object that is not in the actor list of a
    consistent registry, [deselect] is a silent no-op: the registry is left
    exactly as it was.  [move] is not: it has no check of its own and adds
    the delta to the position of the object all the same; it leaves the
    actor list, the selection, the outlines, the gizmos and the active tool
    of the registry as they were. *)
Theorem unregistered_object_is_moved_but_not_deselected
    (GetBounds : ActorId -> Actor -> Bounds) (a : ActorId) (dx dy dz : float)
    (om : ObjectManager.t) (heap : Heap) :
  ObjectManager.consistent om ->
  a ∉ ObjectManager.actors om ->
  let '(om', heap') := ObjectManager.move_object GetBounds a dx dy dz om heap in
  ObjectManager.deselect_object a om = om /\
  Position (heap' a) =
    mkVec3 (v0 (Position (heap a)) + dx) (v1 (Position (heap a)) + dy)
           (v2 (Position (heap a)) + dz)%float /\
  ObjectManager.actors om' = ObjectManager.actors om /\
  ObjectManager.selected_actors om' = ObjectManager.selected_actors om /\
  ObjectManager.outline_actors om' = ObjectManager.outline_actors om /\
  ObjectManager.move_gizmo om' = ObjectManager.move_gizmo om /\
  ObjectManager.rotate_gizmo om' = ObjectManager.rotate_gizmo om /\
  ObjectManager.scale_gizmo om' = ObjectManager.scale_gizmo om /\
  ObjectManager.active_gizmo om' = ObjectManager.active_gizmo om.
Proof.
  intros [Hsel Hout] Ha.
  assert (Hnot_selected : a ∉ ObjectManager.selected_actors om) by (intros H; auto).
  assert (Hno_outline : ObjectManager.outline_actors om !! a = None).
  { destruct (ObjectManager.outline_actors om !! a) eqn:E; [|reflexivity].
    exfalso. apply Ha, Hout. rewrite E. eauto. }
  pose proof (move_object_position GetBounds a dx dy dz om heap) as Hpos.
  assert (Hreg :
    let om' := (ObjectManager.move_object GetBounds a dx dy dz om heap).1 in
    ObjectManager.actors om' = ObjectManager.actors om /\
    ObjectManager.selected_actors om' = ObjectManager.selected_actors om /\
    ObjectManager.outline_actors om' = ObjectManager.outline_actors om /\
    ObjectManager.move_gizmo om' = ObjectManager.move_gizmo om /\
    ObjectManager.rotate_gizmo om' = ObjectManager.rotate_gizmo om /\
    ObjectManager.scale_gizmo om' = ObjectManager.scale_gizmo om /\
    ObjectManager.active_gizmo om' = ObjectManager.active_gizmo om).
  { unfold ObjectManager.move_object, ObjectManager.move_object_outcome.
    destruct (ObjectManager.camera_objects _ !! a) as [cam|];
      cbn -[CameraObject.get_view_direction];
      try destruct (CameraObject.get_view_direction _); cbn;
      unfold ObjectManager.follow; rewrite alter_id' by exact Hno_outline;
      repeat split; reflexivity. }
  destruct (ObjectManager.move_object GetBounds a dx dy dz om heap) as [om' heap'].
  cbn [fst snd] in *. split; [|split; [exact Hpos|exact Hreg]].
  unfold ObjectManager.deselect_object.
  rewrite bool_decide_eq_false_2 by exact Hnot_selected.
  rewrite alter_id' by exact Hno_outline.
  now destruct om.
Qed.

Lemma unregistered_object_is_moved_but_not_deselected_witness :
  ObjectManager.consistent Demo.cleared.1 /\
  (Demo.object ∉ ObjectManager.actors Demo.cleared.1) /\
  let '(om', heap') :=
    ObjectManager.move_object Demo.no_bounds Demo.object 1 0 0
      Demo.cleared.1 Demo.cleared.2 in
  ObjectManager.deselect_object Demo.object Demo.cleared.1 = Demo.cleared.1 /\
  Position (heap' Demo.object) =
    mkVec3 (v0 (Position (Demo.cleared.2 Demo.object)) + 1)
           (v1 (Position (Demo.cleared.2 Demo.object)) + 0)
           (v2 (Position (Demo.cleared.2 Demo.object)) + 0)%float /\
  ObjectManager.actors om' = ObjectManager.actors Demo.cleared.1 /\
  ObjectManager.selected_actors om' = ObjectManager.selected_actors Demo.cleared.1 /\
  ObjectManager.outline_actors om' = ObjectManager.outline_actors Demo.cleared.1 /\
  ObjectManager.move_gizmo om' = ObjectManager.move_gizmo Demo.cleared.1 /\
  ObjectManager.rotate_gizmo om' = ObjectManager.rotate_gizmo Demo.cleared.1 /\
  ObjectManager.scale_gizmo om' = ObjectManager.scale_gizmo Demo.cleared.1 /\
  ObjectManager.active_gizmo om' = ObjectManager.active_gizmo Demo.cleared.1.
Proof.
  assert (Hc : ObjectManager.consistent Demo.cleared.1).
  { split; intros b Hb.
    - change (b ∈ @nil ActorId) in Hb. exact Hb.
    - change (is_Some ((∅ : gmap ActorId Actor) !! b)) in Hb.
      rewrite lookup_empty in Hb. destruct Hb as [? Hb]. discriminate Hb. }
  assert (Ha : Demo.object ∉ ObjectManager.actors Demo.cleared.1).
  { change (Demo.object ∉ @nil ActorId). apply not_elem_of_nil. }
  split; [exact Hc|]. split; [exact Ha|].
  exact (unregistered_object_is_moved_but_not_deselected Demo.no_bounds Demo.object
           1 0 0 Demo.cleared.1 Demo.cleared.2 Hc Ha).
Defined.

(** * Further properties of the code *)

(** ** Zooming and resetting the view *)

Lemma clamped_zoom_in_range (radius : float) :
  zoom_in_range (Py.max 0.1 (Py.min 1000.0 radius)).
Proof.
  split.
  - apply max_lower_bound. vm_compute. reflexivity.
  - unfold Py.max. destruct (0.1 <? Py.min 1000.0 radius)%float.
    + apply min_upper_bound. vm_compute. reflexivity.
    + vm_compute. reflexivity.
Qed.

(** Every view event returns; it keeps the view angle of the camera, and
    it keeps the radius in range once it is in range. *)
Lemma view_event_returns (math_sin math_cos : float -> float)
    (e : VTKWidget.ViewEvent) (w : VTKWidget.t) :
  exists w',
    VTKWidget.view_event math_sin math_cos e w = Py.Return w' /\
    CameraObject.cam_ViewAngle (VTKWidget.camera w')
      = CameraObject.cam_ViewAngle (VTKWidget.camera w) /\
    (zoom_in_range (VTKWidget.camera_radius w) -> zoom_in_range (VTKWidget.camera_radius w')).
Proof.
  destruct e as [pos [|]|d|x y z].
  - eexists. split; [reflexivity|]. split; [reflexivity|]. auto.
  - unfold VTKWidget.view_event, VTKWidget.mouseMoveEvent_view.
    destruct (mod_full_turn_returns
                (VTKWidget.camera_phi w
                 - Py.float_of_int (qx (QPoint_sub pos (VTKWidget.last_mouse_pos w))) * 0.008)%float)
      as [phi Hphi].
    unfold mbind, result_bind, mret, result_ret. rewrite Hphi. cbn [Py.bind].
    eexists. split; [reflexivity|]. split; [reflexivity|]. auto.
  - eexists. split; [reflexivity|]. split; [reflexivity|].
    intros _. apply clamped_zoom_in_range.
  - eexists. split; [reflexivity|]. split; [reflexivity|]. auto.
Qed.

Lemma view_run_returns (math_sin math_cos : float -> float)
    (events : list VTKWidget.ViewEvent) (w : VTKWidget.t) :
  exists w',
    VTKWidget.view_run math_sin math_cos events w = Py.Return w' /\
    CameraObject.cam_ViewAngle (VTKWidget.camera w')
      = CameraObject.cam_ViewAngle (VTKWidget.camera w) /\
    (zoom_in_range (VTKWidget.camera_radius w) -> zoom_in_range (VTKWidget.camera_radius w')).
Proof.
  revert w. induction events as [|e events IH]; intros w.
  - exists w. split; [reflexivity|]. auto.
  - destruct (view_event_returns math_sin math_cos e w) as (w1 & Hstep & Hangle & Hzoom).
    destruct (IH w1) as (w' & Hrun & Hangle' & Hzoom').
    exists w'. split; [|split; [congruence|auto]].
    cbn [VTKWidget.view_run]. unfold mbind, result_bind. rewrite Hstep. exact Hrun.
Qed.

(** X1. A wheel event leaves the orbit radius between 0.1 and 1000 whatever
    it was before, also when it was not a number; and from start-up on,
    every run of wheel, orbit, pan and pivot events returns with the radius
    in that range. *)
Theorem zoom_keeps_radius_in_range
    (math_sin math_cos : float -> float) (h : Heap)
    (angle_delta_y : Z) (w : VTKWidget.t) (events : list VTKWidget.ViewEvent) :
  zoom_in_range (VTKWidget.camera_radius (VTKWidget.wheelEvent math_sin math_cos angle_delta_y w)) /\
  exists w',
    VTKWidget.view_run math_sin math_cos events (VTKWidget.init math_sin math_cos h)
      = Py.Return w' /\
    zoom_in_range (VTKWidget.camera_radius w').
Proof.
  split; [apply clamped_zoom_in_range|].
  destruct (view_run_returns math_sin math_cos events (VTKWidget.init math_sin math_cos h))
    as (w' & Hrun & _ & Hzoom).
  exists w'. split; [exact Hrun|]. apply Hzoom. split; vm_compute; reflexivity.
Qed.

(** X2. Whatever wheel, orbit, pan and pivot events came after start-up,
    [reset_view] puts the camera exactly where it was at start-up: the same
    position, focal point, up vector and view angle, the same radius, angles
    and pivot. *)
Theorem reset_view_restores_startup_view
    (math_sin math_cos : float -> float) (h : Heap) (events : list VTKWidget.ViewEvent) :
  exists w',
    VTKWidget.view_run math_sin math_cos events (VTKWidget.init math_sin math_cos h)
      = Py.Return w' /\
    let start := VTKWidget.init math_sin math_cos h in
    let home := VTKWidget.reset_view math_sin math_cos w' in
    VTKWidget.camera home = VTKWidget.camera start /\
    VTKWidget.camera_radius home = VTKWidget.camera_radius start /\
    VTKWidget.camera_theta home = VTKWidget.camera_theta start /\
    VTKWidget.camera_phi home = VTKWidget.camera_phi start /\
    VTKWidget.rotation_pivot home = VTKWidget.rotation_pivot start.
Proof.
  destruct (view_run_returns math_sin math_cos events (VTKWidget.init math_sin math_cos h))
    as (w' & Hrun & Hangle & _).
  exists w'. split; [exact Hrun|]. cbn zeta.
  repeat split; try reflexivity.
  unfold VTKWidget.reset_view, VTKWidget.update_camera_position.
  cbn [VTKWidget.camera VTKWidget.with_view VTKWidget.with_radius
       VTKWidget.camera_radius VTKWidget.camera_theta VTKWidget.camera_phi
       VTKWidget.rotation_pivot VTKWidget.last_mouse_pos].
  rewrite Hangle. reflexivity.
Qed.

(** ** The measurement tool under pointer events *)

#[local] Arguments MeasurementTool.with_points _ _ /.
#[local] Arguments MeasurementTool.with_actors _ _ /.
#[local] Arguments MeasurementTool.with_drag _ _ _ /.
#[local] Arguments MeasurementTool.add_actor _ _ /.
#[local] Arguments MeasurementTool.clear_measurements _ /.
#[local] Arguments MeasurementTool.create_sphere _ _ /.
#[local] Arguments MeasurementTool.create_line _ _ _ /.
#[local] Arguments MeasurementTool.create_distance_text_at_position _ _ _ /.
#[local] Arguments MeasurementTool.set_is_temporary _ _ /.

Ltac msimpl := unfold measurement_ready in *; repeat (progress simpl in * ).

Ltac unbind := unfold mbind, result_bind, mret, result_ret; cbn [Py.bind].

(** The handler returns the tool as it was. *)
Ltac same_ready Ea :=
  left; eexists; split; [reflexivity|]; split; [|exact Ea];
  unfold measurement_ready; simpl;
  repeat match goal with
         | E : MeasurementTool.points _ = _ |- _ => rewrite E
         | E : MeasurementTool.is_dragging_new_point _ = _ |- _ => rewrite E
         | E : MeasurementTool.dragging_point _ = _ |- _ => rewrite E
         end;
  split; assumption.

Lemma distance_spec (point1 point2 : Vec3) :
  MeasurementTool.distance point1 point2 =
    if measurable point1 point2
    then Py.Return
           (PrimFloat.sqrt
              ((v0 point2 - v0 point1) * (v0 point2 - v0 point1)
               + (v1 point2 - v1 point1) * (v1 point2 - v1 point1)
               + (v2 point2 - v2 point1) * (v2 point2 - v2 point1)))
    else Py.Raise Py.OverflowError.
Proof. apply norm3_spec. Qed.

Lemma distance_raises (point1 point2 : Vec3) (e : Py.Exn) :
  MeasurementTool.distance point1 point2 = Py.Raise e -> e = Py.OverflowError.
Proof. apply norm3_raises. Qed.


Lemma create_distance_text_raises (point1 point2 : Vec3) (self : MeasurementTool.t)
    (e : Py.Exn) :
  MeasurementTool.create_distance_text point1 point2 self = Py.Raise e ->
  e = Py.OverflowError.
Proof.
  unfold MeasurementTool.create_distance_text. unbind.
  destruct (MeasurementTool.distance point1 point2) eqn:E; cbn [Py.bind]; [discriminate|].
  intros [= <-]. now apply distance_raises in E.
Qed.


Lemma point_at_position_bound (world_pos : Vec3) (tolerance : float) (points : list Vec3)
    (i k : nat) :
  MeasurementTool.point_at_position world_pos tolerance i points = Py.Return (Some k) ->
  (i <= k < i + length points)%nat.
Proof.
  revert i. induction points as [|point rest IH]; intros i;
    cbn [MeasurementTool.point_at_position]; unbind; [discriminate|].
  destruct (Py.norm3 _ _ _) as [d|e]; cbn [Py.bind]; [|discriminate].
  destruct (d <? tolerance)%float.
  - intros [= <-]. cbn [length]. lia.
  - intros H. apply IH in H. cbn [length]. lia.
Qed.

Lemma point_at_position_raises (world_pos : Vec3) (tolerance : float) (points : list Vec3)
    (i : nat) (e : Py.Exn) :
  MeasurementTool.point_at_position world_pos tolerance i points = Py.Raise e ->
  e = Py.OverflowError.
Proof.
  revert i. induction points as [|point rest IH]; intros i;
    cbn [MeasurementTool.point_at_position]; unbind; [discriminate|].
  destruct (Py.norm3 _ _ _) as [d|e'] eqn:E; cbn [Py.bind].
  - destruct (d <? tolerance)%float; [discriminate|apply IH].
  - intros [= <-]. now apply norm3_raises in E.
Qed.

Lemma click_keeps_ready (renderer : Renderer) (mouse_x mouse_y : Z) (self : MeasurementTool.t) :
  measurement_ready self ->
  (exists r,
     MeasurementTool.handle_click renderer mouse_x mouse_y self = Py.Return r /\
     measurement_ready r.2 /\
     MeasurementTool.is_active r.2 = MeasurementTool.is_active self) \/
  MeasurementTool.handle_click renderer mouse_x mouse_y self = Py.Raise Py.OverflowError.
Proof.
  intros [Hlen Hdrag]. unfold MeasurementTool.handle_click.
  destruct (MeasurementTool.is_active self) eqn:Ea; cbn [negb];
    [|same_ready Ea].
  rewrite world_pick_value. unbind.
  destruct (((GetSize renderer).1 =? 0) || ((GetSize renderer).2 =? 0));
    [same_ready Ea|].
  set (world_pos := WorldPointPicker_Pick renderer mouse_x ((GetSize renderer).2 - mouse_y)).
  destruct (MeasurementTool.get_point_at_position world_pos self) as [[idx|]|e] eqn:Eidx;
    cbn [Py.bind].
  - left. eexists. split; [reflexivity|]. split; [|exact Ea]. split; [exact Hlen|].
    intros _ i [= <-]. apply point_at_position_bound in Eidx. msimpl. lia.
  - destruct (MeasurementTool.points self) as [|point0 [|point1 rest]] eqn:Ep.
    + left. eexists. split; [reflexivity|]. msimpl. split; [|exact Ea].
      split; [lia|discriminate].
    + cbn [MeasurementTool.create_sphere MeasurementTool.create_line].
      destruct (MeasurementTool.create_distance_text _ _ _) as [[label tool']|e] eqn:Et;
        cbn [Py.bind].
      * left. eexists. split; [reflexivity|].
        unfold MeasurementTool.create_distance_text in Et. unbind.
        destruct (MeasurementTool.distance point0 world_pos); cbn [Py.bind] in Et;
          [|discriminate].
        injection Et as <- <-. msimpl. rewrite ?Ep. msimpl. split; [|exact Ea]. split; [lia|].
        intros Hnew i Hi. specialize (Hdrag Hnew i Hi). msimpl. lia.
      * right. apply create_distance_text_raises in Et. now subst.
    + left. eexists. split; [reflexivity|]. msimpl. rewrite ?Ep. split; [|exact Ea].
      split; [msimpl; lia|discriminate].
  - right. apply point_at_position_raises in Eidx. now subst.
Qed.

Lemma update_temporary_measurement_spec (world_pos point0 : Vec3) (self : MeasurementTool.t) :
  MeasurementTool.points self = [point0] ->
  match MeasurementTool.update_temporary_measurement world_pos self with
  | Py.Return self' =>
      MeasurementTool.points self' = [point0] /\
      MeasurementTool.is_active self' = MeasurementTool.is_active self /\
      MeasurementTool.is_dragging_new_point self' = MeasurementTool.is_dragging_new_point self /\
      MeasurementTool.dragging_point self' = MeasurementTool.dragging_point self /\
      measurable point0 world_pos = true
  | Py.Raise e => e = Py.OverflowError /\ measurable point0 world_pos = false
  end.
Proof.
  intros Ep. unfold MeasurementTool.update_temporary_measurement.
  cbn [MeasurementTool.points MeasurementTool.with_actors]. rewrite Ep.
  cbn [MeasurementTool.create_line]. unbind.
  change (Py.norm3 (v0 world_pos - v0 point0) (v1 world_pos - v1 point0)
            (v2 world_pos - v2 point0))
    with (MeasurementTool.distance point0 world_pos).
  rewrite distance_spec. destruct (measurable point0 world_pos); cbn [Py.bind]; simpl;
    auto 10.
Qed.

Lemma update_visualization_spec (self : MeasurementTool.t) :
  match MeasurementTool.update_visualization self with
  | Py.Return self' =>
      MeasurementTool.points self' = MeasurementTool.points self /\
      MeasurementTool.is_active self' = MeasurementTool.is_active self /\
      MeasurementTool.is_dragging_new_point self' = MeasurementTool.is_dragging_new_point self /\
      MeasurementTool.dragging_point self' = MeasurementTool.dragging_point self
  | Py.Raise e => e = Py.OverflowError
  end.
Proof.
  unfold MeasurementTool.update_visualization.
  cbn [MeasurementTool.points MeasurementTool.with_actors].
  destruct (MeasurementTool.points self) as [|point0 [|point1 rest]]; unbind; auto.
  cbn [MeasurementTool.create_line].
  destruct (MeasurementTool.create_distance_text _ _ _) as [[label tool']|e] eqn:Et.
  - unfold MeasurementTool.create_distance_text in Et. unbind.
    destruct (MeasurementTool.distance point0 point1); cbn [Py.bind] in Et;
      [|discriminate].
    injection Et as <- <-. cbn. auto.
  - now apply create_distance_text_raises in Et.
Qed.

Lemma drag_keeps_ready (renderer : Renderer) (mouse_x mouse_y : Z) (self : MeasurementTool.t) :
  measurement_ready self ->
  (exists r,
     MeasurementTool.handle_drag renderer mouse_x mouse_y self = PyList.Return r /\
     measurement_ready r.2 /\
     MeasurementTool.is_active r.2 = MeasurementTool.is_active self) \/
  MeasurementTool.handle_drag renderer mouse_x mouse_y self
    = PyList.Raise (PyList.Other Py.OverflowError).
Proof.
  intros [Hlen Hdrag]. unfold MeasurementTool.handle_drag.
  destruct (MeasurementTool.is_active self) eqn:Ea; cbn [negb];
    [|same_ready Ea].
  rewrite world_pick_value. cbn [PyList.lift PyList.bind].
  destruct (((GetSize renderer).1 =? 0) || ((GetSize renderer).2 =? 0));
    [same_ready Ea|].
  set (world_pos := WorldPointPicker_Pick renderer mouse_x ((GetSize renderer).2 - mouse_y)).
  destruct (MeasurementTool.is_dragging_new_point self) eqn:En.
  - destruct (MeasurementTool.points self) as [|point0 [|point1 rest]] eqn:Ep;
      try (same_ready Ea).
    pose proof (update_temporary_measurement_spec world_pos point0 self Ep) as Hspec.
    destruct (MeasurementTool.update_temporary_measurement world_pos self) as [self'|e];
      cbn [PyList.lift PyList.bind].
    + destruct Hspec as (Ep' & Ea' & En' & Ed' & _).
      left. eexists. split; [reflexivity|]. cbn [snd].
      split; [|congruence]. split; [rewrite Ep'; cbn; lia|].
      rewrite En', En. discriminate.
    + right. destruct Hspec as [-> _]. reflexivity.
  - destruct (MeasurementTool.dragging_point self) as [i|] eqn:Ed;
      [|same_ready Ea].
    specialize (Hdrag eq_refl i eq_refl).
    unfold PyList.setitem. rewrite decide_True by exact Hdrag. cbn [PyList.bind].
    pose proof (update_visualization_spec
                  (MeasurementTool.with_points
                     (<[i:=world_pos]> (MeasurementTool.points self)) self)) as Hspec.
    destruct (MeasurementTool.update_visualization _) as [self'|e];
      cbn [PyList.lift PyList.bind].
    + destruct Hspec as (Ep' & Ea' & En' & Ed').
      cbn [MeasurementTool.with_points MeasurementTool.points MeasurementTool.is_active
           MeasurementTool.is_dragging_new_point MeasurementTool.dragging_point] in *.
      left. eexists. split; [reflexivity|]. cbn [snd].
      split; [|congruence]. split; [rewrite Ep', length_insert; exact Hlen|].
      intros _ k Hk. rewrite Ep', length_insert. rewrite Ed', Ed in Hk.
      injection Hk as <-. exact Hdrag.
    + right. now subst.
Qed.

Lemma release_keeps_ready (renderer : Renderer) (mouse_x mouse_y : Z) (self : MeasurementTool.t) :
  measurement_ready self ->
  (exists r,
     MeasurementTool.handle_release renderer mouse_x mouse_y self = Py.Return r /\
     measurement_ready r.2 /\
     MeasurementTool.is_active r.2 = MeasurementTool.is_active self) \/
  MeasurementTool.handle_release renderer mouse_x mouse_y self = Py.Raise Py.OverflowError.
Proof.
  intros [Hlen Hdrag]. unfold MeasurementTool.handle_release.
  destruct (MeasurementTool.is_active self) eqn:Ea; cbn [negb];
    [|same_ready Ea].
  rewrite world_pick_value. unbind.
  destruct (((GetSize renderer).1 =? 0) || ((GetSize renderer).2 =? 0));
    [same_ready Ea|].
  set (world_pos := WorldPointPicker_Pick renderer mouse_x ((GetSize renderer).2 - mouse_y)).
  destruct (MeasurementTool.is_dragging_new_point self) eqn:En;
    destruct (MeasurementTool.points self) as [|point0 [|point1 rest]] eqn:Ep;
    cbn [Py.bind];
    try (left; eexists; split; [reflexivity|]; msimpl; rewrite ?Ea, ?Ep;
         (split; [|reflexivity]); (split; [msimpl; lia|discriminate])).
  cbn [MeasurementTool.create_sphere MeasurementTool.create_line].
  destruct (MeasurementTool.create_distance_text _ _ _) as [[label tool']|e] eqn:Et;
    cbn [Py.bind].
  - left. eexists. split; [reflexivity|].
    unfold MeasurementTool.create_distance_text in Et. unbind.
    destruct (MeasurementTool.distance point0 world_pos); cbn [Py.bind] in Et;
      [|discriminate].
    injection Et as <- <-. msimpl. rewrite ?Ea, ?Ep. msimpl.
    split; [|reflexivity]. split; [lia|discriminate].
  - right. apply create_distance_text_raises in Et. now subst.
Qed.

Lemma pointer_event_keeps_ready (e : MeasurementTool.PointerEvent) (self : MeasurementTool.t) :
  measurement_ready self ->
  (exists self',
     MeasurementTool.pointer_event e self = PyList.Return self' /\
     measurement_ready self' /\
     MeasurementTool.is_active self' = MeasurementTool.is_active self) \/
  MeasurementTool.pointer_event e self = PyList.Raise (PyList.Other Py.OverflowError).
Proof.
  intros Hready. destruct e as [r x y|r x y|r x y]; cbn [MeasurementTool.pointer_event].
  - destruct (click_keeps_ready r x y self Hready) as [(res & -> & H1 & H2)| ->];
      [left; eauto|now right].
  - destruct (drag_keeps_ready r x y self Hready) as [(res & -> & H1 & H2)| ->];
      [left; eauto|now right].
  - destruct (release_keeps_ready r x y self Hready) as [(res & -> & H1 & H2)| ->];
      [left; eauto|now right].
Qed.

(** X3. From a state in which the tool holds at most two points and a
    dragged point is one of them, no run of press, drag and release
    events raises [IndexError] or [ZeroDivisionError], whatever the
    renderer answers.  The run returns, and leaves the tool in such a
    state, so with at most two points, and active or not as it was; or it
    ends with the [OverflowError] that [**] raises where a distance is
    taken between points too far apart for binary64. *)
Theorem measuring_gestures_raise_no_index_error
    (events : list MeasurementTool.PointerEvent) (self : MeasurementTool.t) :
  measurement_ready self ->
  (exists self',
     MeasurementTool.pointer_run events self = PyList.Return self' /\
     measurement_ready self' /\
     (length (MeasurementTool.points self') <= 2)%nat /\
     MeasurementTool.is_active self' = MeasurementTool.is_active self) \/
  MeasurementTool.pointer_run events self = PyList.Raise (PyList.Other Py.OverflowError).
Proof.
  revert self. induction events as [|e events IH]; intros self Hready.
  - left. exists self. split; [reflexivity|]. split; [exact Hready|].
    split; [apply Hready|reflexivity].
  - cbn [MeasurementTool.pointer_run].
    destruct (pointer_event_keeps_ready e self Hready)
      as [(self1 & -> & Hready1 & Hactive1)| ->]; [|now right].
    cbn [PyList.bind].
    destruct (IH self1 Hready1) as [(self' & Hrun & Hready' & Hlen & Hactive')|Hraise];
      [|now right].
    left. exists self'. split; [exact Hrun|]. split; [exact Hready'|].
    split; [exact Hlen|]. congruence.
Qed.

Lemma measuring_gestures_raise_no_index_error_witness :
  measurement_ready Demo.measuring /\
  exists self',
    MeasurementTool.pointer_run Demo.gesture Demo.measuring = PyList.Return self' /\
    (length (MeasurementTool.points self') <= 2)%nat.
Proof.
  assert (Hready : measurement_ready Demo.measuring).
  { split; [cbn; lia|]. intros _ i. discriminate. }
  assert (Hreturns : exists self',
             MeasurementTool.pointer_run Demo.gesture Demo.measuring = PyList.Return self')
    by (eexists; vm_compute; reflexivity).
  split; [exact Hready|].
  destruct (measuring_gestures_raise_no_index_error Demo.gesture Demo.measuring Hready)
    as [(self' & Hrun & _ & Hlen & _)|Hraise].
  - exists self'. split; assumption.
  - destruct Hreturns as [self' Hrun]. rewrite Hraise in Hrun. discriminate Hrun.
Defined.


Lemma nonzero_size (renderer : Renderer) :
  (GetSize renderer).1 <> 0 -> (GetSize renderer).2 <> 0 ->
  ((GetSize renderer).1 =? 0) || ((GetSize renderer).2 =? 0) = false.
Proof.
  intros Hw Hh.
  destruct (Z.eqb_spec (GetSize renderer).1 0); [contradiction|].
  destruct (Z.eqb_spec (GetSize renderer).2 0); [contradiction|reflexivity].
Qed.




(** ** Picking up a point *)





(** X7. [activate] empties the points but keeps the index of the point
    that is being dragged.  On a tool on which a point is being dragged the
    tool is then not in a ready state, and the drag event that follows
    [activate] raises [IndexError] in every viewport that has a size.
    With [deactivate] before [activate] no point is being dragged and the
    tool is ready for any pointer events. *)
Theorem activate_keeps_the_dragged_index
    (self : MeasurementTool.t) (i : nat) (renderer : Renderer) (mouse_x mouse_y : Z) :
  MeasurementTool.dragging_point self = Some i ->
  (GetSize renderer).1 <> 0 -> (GetSize renderer).2 <> 0 ->
  MeasurementTool.handle_drag renderer mouse_x mouse_y (MeasurementTool.activate self)
    = PyList.Raise PyList.IndexError /\
  ~ measurement_ready (MeasurementTool.activate self) /\
  measurement_ready (MeasurementTool.activate (MeasurementTool.deactivate self)).
Proof.
  intros Ed Hw Hh. split; [|split].
  - unfold MeasurementTool.handle_drag.
    cbn [MeasurementTool.is_active MeasurementTool.activate MeasurementTool.clear_measurements negb].
    rewrite world_pick_value, nonzero_size by assumption.
    cbn. rewrite Ed. reflexivity.
  - intros [_ Hdrag]. specialize (Hdrag eq_refl i). cbn in Hdrag.
    specialize (Hdrag Ed). lia.
  - split; [cbn; lia|]. intros _ k. discriminate.
Qed.

Lemma activate_keeps_the_dragged_index_witness :
  MeasurementTool.pointer_run [MeasurementTool.Press Demo.wall_view 103 496] Demo.measured
    = PyList.Return (MeasurementTool.with_drag (Some 1%nat) false Demo.measured) /\
  MeasurementTool.handle_drag Demo.wall_view 110 496
    (MeasurementTool.activate (MeasurementTool.with_drag (Some 1%nat) false Demo.measured))
    = PyList.Raise PyList.IndexError.
Proof.
  split; [vm_compute; reflexivity|].
  apply (activate_keeps_the_dragged_index
           (MeasurementTool.with_drag (Some 1%nat) false Demo.measured) 1 Demo.wall_view 110 496);
    [reflexivity|discriminate|discriminate].
Defined.

(** ** The selection and its outlines under any calls *)

Lemma remove_first_NoDup (a : ActorId) (l : list ActorId) :
  NoDup l -> NoDup (list_remove_first a l).
Proof.
  induction 1 as [|b l Hb Hl IH]; cbn; [constructor|].
  destruct (Pos.eqb_spec b a) as [->|Hne]; [assumption|].
  constructor; [|assumption].
  intros Hin. apply Hb. now apply (remove_first_other a b l) in Hin.
Qed.

(** A selection without the flag outlines exactly the new object, if the
    outlines of the other objects agreed with the selection before. *)
Lemma select_single_outlined (X : ActorId) (om : ObjectManager.t) (heap : Heap) :
  (forall k shown, k <> X -> outline_visible om k = Some shown ->
                   (shown = true <-> k ∈ ObjectManager.selected_actors om)) ->
  selection_outlined (ObjectManager.select_object X false om heap).1.
Proof.
  intros Hpre. destruct (select_single_spec X om heap) as [Hsel Hvis].
  cbn zeta in Hsel, Hvis. split; [rewrite Hsel; apply NoDup_singleton|].
  intros k shown. rewrite Hvis, Hsel.
  destruct (outline_visible om k) as [v|] eqn:Ev; [|discriminate]. cbn.
  intros [= <-]. destruct (decide (k = X)) as [->|Hne].
  - split; [intros _; apply list_elem_of_here|reflexivity].
  - specialize (Hpre k v Hne Ev).
    destruct (bool_decide_reflect (k ∈ ObjectManager.selected_actors om)) as [Hin|Hnin].
    + split; [discriminate|]. rewrite list_elem_of_singleton. contradiction.
    + split.
      * intros ->. exfalso. apply Hnin. now apply Hpre.
      * rewrite list_elem_of_singleton. contradiction.
Qed.

Lemma select_multi_outlined (X : ActorId) (om : ObjectManager.t) (heap : Heap) :
  selection_outlined om ->
  selection_outlined (ObjectManager.select_object X true om heap).1.
Proof.
  intros [Hnd Hpre]. destruct (select_multi_spec X om heap) as (Hsel & HX & Hother).
  cbn zeta in Hsel, HX, Hother. split.
  - rewrite Hsel. destruct (bool_decide_reflect (X ∈ ObjectManager.selected_actors om)).
    + now apply remove_first_NoDup.
    + apply NoDup_app. split; [assumption|]. split; [|apply NoDup_singleton].
      intros k Hk. rewrite list_elem_of_singleton. now intros ->.
  - intros k shown. rewrite Hsel. destruct (decide (k = X)) as [->|Hne].
    + rewrite HX. destruct (outline_visible om X); [|discriminate]. cbn. intros [= <-].
      destruct (bool_decide_reflect (X ∈ ObjectManager.selected_actors om)) as [Hin|Hnin]; cbn.
      * split; [discriminate|]. intros H. exfalso. revert H. now apply remove_first_gone.
      * split; [|reflexivity]. intros _. rewrite elem_of_app, list_elem_of_singleton. now right.
    + rewrite Hother by assumption. intros Hk. rewrite (Hpre k shown Hk).
      destruct (bool_decide (X ∈ ObjectManager.selected_actors om)).
      * symmetry. now apply remove_first_other.
      * rewrite elem_of_app, list_elem_of_singleton. intuition congruence.
Qed.

Lemma deselect_object_outlined (X : ActorId) (om : ObjectManager.t) :
  selection_outlined om -> selection_outlined (ObjectManager.deselect_object X om).
Proof.
  intros [Hnd Hpre]. unfold ObjectManager.deselect_object, selection_outlined, outline_visible.
  cbn [ObjectManager.selected_actors ObjectManager.outline_actors ObjectManager.with_selection].
  split.
  - destruct (bool_decide (X ∈ ObjectManager.selected_actors om)); [|assumption].
    now apply remove_first_NoDup.
  - intros k shown. destruct (decide (k = X)) as [->|Hne].
    + rewrite lookup_alter_eq.
      destruct (ObjectManager.outline_actors om !! X); [|discriminate]. cbn. intros [= <-].
      split; [discriminate|]. intros H. exfalso. revert H.
      destruct (bool_decide_reflect (X ∈ ObjectManager.selected_actors om)); [|assumption].
      now apply remove_first_gone.
    + rewrite lookup_alter_ne by congruence. intros Hk.
      unfold outline_visible in Hpre. rewrite (Hpre k shown Hk).
      destruct (bool_decide (X ∈ ObjectManager.selected_actors om)); [|reflexivity].
      symmetry. now apply remove_first_other.
Qed.

Lemma deselect_all_outlined (om : ObjectManager.t) (heap : Heap) :
  selection_outlined om -> selection_outlined (ObjectManager.deselect_all om heap).1.
Proof.
  intros [Hnd Hpre]. unfold ObjectManager.deselect_all. cbn [Gizmo.hide fst].
  unfold selection_outlined, outline_visible.
  cbn [ObjectManager.selected_actors ObjectManager.outline_actors ObjectManager.with_selection
       ObjectManager.with_gizmos].
  split; [constructor|]. intros k shown. rewrite hide_outlines_lookup.
  destruct (ObjectManager.outline_actors om !! k) as [outline|] eqn:Ek; [|discriminate].
  cbn. intros [= <-]. split; [|intros H; now apply elem_of_nil in H].
  destruct (bool_decide_reflect (k ∈ ObjectManager.selected_actors om)) as [Hin|Hnin];
    cbn; [discriminate|].
  intros Hshown. exfalso. apply Hnin. apply (Hpre k (Visibility outline)); [|assumption].
  unfold outline_visible. now rewrite Ek.
Qed.

Lemma finalize_outlined (X : ActorId) (om : ObjectManager.t) (heap : Heap) :
  selection_outlined om ->
  selection_outlined (ObjectManager.finalize_object_creation X om heap).1.
Proof.
  intros [Hnd Hpre]. unfold ObjectManager.finalize_object_creation.
  apply select_single_outlined. intros k shown Hne.
  unfold outline_visible, ObjectManager.create_outline.
  cbn [ObjectManager.selected_actors ObjectManager.outline_actors ObjectManager.with_selection].
  rewrite lookup_insert_ne by congruence. apply Hpre.
Qed.

Lemma move_object_keeps_selection (GetBounds : ActorId -> Actor -> Bounds)
    (X : ActorId) (dx dy dz : float) (om : ObjectManager.t) (heap : Heap) :
  let om' := (ObjectManager.move_object GetBounds X dx dy dz om heap).1 in
  ObjectManager.selected_actors om' = ObjectManager.selected_actors om /\
  ObjectManager.actors om' = ObjectManager.actors om /\
  (forall k, outline_visible om' k = outline_visible om k) /\
  (forall k, is_Some (ObjectManager.outline_actors om' !! k)
             <-> is_Some (ObjectManager.outline_actors om !! k)) /\
  ObjectManager.move_gizmo om' = ObjectManager.move_gizmo om /\
  ObjectManager.rotate_gizmo om' = ObjectManager.rotate_gizmo om /\
  ObjectManager.scale_gizmo om' = ObjectManager.scale_gizmo om /\
  ObjectManager.active_gizmo om' = ObjectManager.active_gizmo om.
Proof.
  unfold ObjectManager.move_object, ObjectManager.move_object_outcome,
    ObjectManager.update_outline_position.
  cbn [ObjectManager.camera_objects ObjectManager.with_selection ObjectManager.light_manager].
  assert (Hfollow : forall k,
             Visibility <$> ObjectManager.follow X
                              (heap_upd X (SetPosition
                                 (mkVec3 (v0 (Position (heap X)) + dx) (v1 (Position (heap X)) + dy)
                                    (v2 (Position (heap X)) + dz))) heap)
                              (ObjectManager.outline_actors om) !! k
             = Visibility <$> ObjectManager.outline_actors om !! k).
  { intros k. unfold ObjectManager.follow. destruct (decide (k = X)) as [->|Hne].
    - rewrite lookup_alter_eq. now destruct (ObjectManager.outline_actors om !! X).
    - now rewrite lookup_alter_ne by congruence. }
  assert (Hsome : forall k,
             is_Some (ObjectManager.follow X
                        (heap_upd X (SetPosition
                           (mkVec3 (v0 (Position (heap X)) + dx) (v1 (Position (heap X)) + dy)
                              (v2 (Position (heap X)) + dz))) heap)
                        (ObjectManager.outline_actors om) !! k)
             <-> is_Some (ObjectManager.outline_actors om !! k)).
  { intros k. unfold ObjectManager.follow. apply lookup_alter_is_Some. }
  destruct (ObjectManager.camera_objects om !! X) as [cam|];
    cbn [CameraObject.set_position fst snd];
    [destruct (CameraObject.get_view_direction _)|]; cbn [fst snd];
    (split; [reflexivity|]; split; [reflexivity|];
     split; [exact Hfollow|]; split; [exact Hsome|]; repeat split; reflexivity).
Qed.

Lemma set_active_tool_keeps_selection (tool : Tool) (om : ObjectManager.t) (heap : Heap) :
  let om' := (ObjectManager.set_active_tool tool om heap).1 in
  ObjectManager.selected_actors om' = ObjectManager.selected_actors om /\
  ObjectManager.outline_actors om' = ObjectManager.outline_actors om /\
  ObjectManager.actors om' = ObjectManager.actors om.
Proof.
  unfold ObjectManager.set_active_tool. cbn [Gizmo.hide].
  match goal with
  | |- context [ObjectManager.show_active_gizmo ?o ?h] =>
      destruct (show_active_gizmo_keeps o h) as (Hs & Ho & Hact)
  end.
  cbn zeta. rewrite Hs, Ho, Hact. auto.
Qed.

Lemma call_outlined (GetBounds : ActorId -> Actor -> Bounds)
    (c : ObjectManager.Call) (state : ObjectManager.t * Heap) :
  selection_outlined state.1 -> selection_outlined (ObjectManager.call GetBounds c state).1.
Proof.
  destruct state as [om heap]. cbn [fst]. intros Hpre.
  destruct c as [a|a [|]|a| |a dx dy dz| |tool]; cbn [ObjectManager.call fst].
  - now apply finalize_outlined.
  - now apply select_multi_outlined.
  - apply select_single_outlined. intros k shown _. apply Hpre.
  - now apply deselect_object_outlined.
  - now apply deselect_all_outlined.
  - destruct (move_object_keeps_selection GetBounds a dx dy dz om heap) as (Hs & _ & Hv & _).
    cbn zeta in Hs, Hv. destruct Hpre as [Hnd Hpre]. split; [now rewrite Hs|].
    intros k shown. rewrite Hv, Hs. apply Hpre.
  - split; [constructor|]. intros k shown. unfold outline_visible. cbn. discriminate.
  - destruct (set_active_tool_keeps_selection tool om heap) as (Hs & Ho & _).
    cbn zeta in Hs, Ho. destruct Hpre as [Hnd Hpre]. split; [now rewrite Hs|].
    intros k shown. unfold outline_visible in *. rewrite Ho, Hs. apply Hpre.
Qed.

(** X8. If exactly the selected objects show their outline and none is
    selected twice, this is still so after any run of object creations,
    selections with and without the multi-select flag, deselections, moves,
    tool changes and [clear_objects], on whichever actors. *)
Theorem outlines_follow_the_selection
    (GetBounds : ActorId -> Actor -> Bounds)
    (cs : list ObjectManager.Call) (om : ObjectManager.t) (heap : Heap) :
  selection_outlined om ->
  selection_outlined (ObjectManager.calls GetBounds cs (om, heap)).1.
Proof.
  unfold ObjectManager.calls.
  change om with (om, heap).1 at 1. generalize (om, heap). clear om heap.
  induction cs as [|c cs IH]; intros state Hpre; [exact Hpre|].
  cbn [foldl]. apply IH. now apply call_outlined.
Qed.

Lemma outlines_follow_the_selection_witness :
  selection_outlined ObjectManager.init /\
  selection_outlined
    (ObjectManager.calls Demo.no_bounds
       [ObjectManager.FinalizeObjectCreation Demo.object;
        ObjectManager.FinalizeObjectCreation Demo.second_object;
        ObjectManager.SelectObject Demo.object true;
        ObjectManager.SetActiveTool tool_move;
        ObjectManager.MoveObject Demo.object 1 0 0;
        ObjectManager.SelectObject Demo.second_object true]
       (ObjectManager.init, Demo.heap0)).1.
Proof.
  assert (Hinit : selection_outlined ObjectManager.init).
  { split; [constructor|]. intros a shown. unfold outline_visible. cbn.
    rewrite lookup_empty. discriminate. }
  split; [exact Hinit|].
  exact (outlines_follow_the_selection Demo.no_bounds _ ObjectManager.init Demo.heap0 Hinit).
Defined.

(** ** The registry under any calls *)

Lemma remove_first_subset (a b : ActorId) (l : list ActorId) :
  b ∈ list_remove_first a l -> b ∈ l.
Proof.
  induction l as [|c l IH]; cbn; [auto|].
  destruct (Pos.eqb_spec c a) as [->|Hne].
  - apply list_elem_of_further.
  - rewrite !elem_of_cons. intuition.
Qed.

Lemma select_object_consistent (X : ActorId) (multi : bool) (om : ObjectManager.t) (heap : Heap) :
  ObjectManager.consistent om -> X ∈ ObjectManager.actors om ->
  ObjectManager.consistent (ObjectManager.select_object X multi om heap).1.
Proof.
  intros [Hsel Hout] HX. unfold ObjectManager.consistent, ObjectManager.select_object.
  destruct multi; cbn [andb].
  - destruct (bool_decide_reflect (X ∈ ObjectManager.selected_actors om)) as [Hin|Hnin].
    + match goal with
      | |- context [ObjectManager.show_active_gizmo ?o ?h] =>
          destruct (show_active_gizmo_keeps o h) as (Hs' & Ho' & Ha')
      end.
      rewrite Hs', Ho', Ha'. unfold ObjectManager.deselect_object.
      rewrite (bool_decide_eq_true_2 (X ∈ ObjectManager.selected_actors om)) by assumption.
      cbn [ObjectManager.selected_actors ObjectManager.outline_actors ObjectManager.actors
           ObjectManager.with_selection].
      split.
      * intros b Hb. apply Hsel. now apply remove_first_subset in Hb.
      * intros b Hb. apply Hout. now apply lookup_alter_is_Some in Hb.
    + match goal with
      | |- context [ObjectManager.show_active_gizmo ?o ?h] =>
          destruct (show_active_gizmo_keeps o h) as (Hs' & Ho' & Ha')
      end.
      rewrite Hs', Ho', Ha'.
      cbn [ObjectManager.selected_actors ObjectManager.outline_actors ObjectManager.actors
           ObjectManager.with_selection].
      split.
      * intros b Hb. apply elem_of_app in Hb as [Hb|Hb]; [now apply Hsel|].
        apply list_elem_of_singleton in Hb. now subst.
      * intros b Hb. apply Hout. unfold ObjectManager.follow in Hb.
        now rewrite !lookup_alter_is_Some in Hb.
  - unfold ObjectManager.deselect_all. cbn [Gizmo.hide].
    match goal with
    | |- context [ObjectManager.show_active_gizmo ?o ?h] =>
        destruct (show_active_gizmo_keeps o h) as (Hs' & Ho' & Ha')
    end.
    rewrite Hs', Ho', Ha'.
    cbn [ObjectManager.selected_actors ObjectManager.outline_actors ObjectManager.actors
         ObjectManager.with_selection ObjectManager.with_gizmos].
    split.
    + intros b Hb. apply list_elem_of_singleton in Hb. now subst.
    + intros b Hb. apply Hout. unfold ObjectManager.follow in Hb.
      rewrite !lookup_alter_is_Some in Hb.
      destruct Hb as [outline Hb]. rewrite hide_outlines_lookup in Hb.
      destruct (ObjectManager.outline_actors om !! b); [eauto|discriminate].
Qed.

Lemma call_consistent (GetBounds : ActorId -> Actor -> Bounds)
    (c : ObjectManager.Call) (state : ObjectManager.t * Heap) :
  ObjectManager.consistent state.1 ->
  match c with
  | ObjectManager.SelectObject actor _ => actor ∈ ObjectManager.actors state.1
  | _ => True
  end ->
  ObjectManager.consistent (ObjectManager.call GetBounds c state).1.
Proof.
  destruct state as [om heap]. cbn [fst]. intros Hpre Hreg.
  destruct c as [a|a multi|a| |a dx dy dz| |tool]; cbn [ObjectManager.call fst].
  - unfold ObjectManager.finalize_object_creation. apply select_object_consistent.
    + destruct Hpre as [Hsel Hout]. unfold ObjectManager.consistent, ObjectManager.create_outline.
      cbn [ObjectManager.selected_actors ObjectManager.outline_actors ObjectManager.actors
           ObjectManager.with_selection].
      split.
      * intros b Hb. apply elem_of_app. left. now apply Hsel.
      * intros b Hb. apply elem_of_app. destruct (decide (b = a)) as [->|Hne].
        -- right. apply list_elem_of_here.
        -- left. apply Hout. now rewrite lookup_insert_ne in Hb by congruence.
    + cbn. apply elem_of_app. right. apply list_elem_of_here.
  - now apply select_object_consistent.
  - destruct Hpre as [Hsel Hout]. unfold ObjectManager.consistent, ObjectManager.deselect_object.
    cbn [ObjectManager.selected_actors ObjectManager.outline_actors ObjectManager.actors
         ObjectManager.with_selection].
    split.
    + intros b Hb. apply Hsel.
      destruct (bool_decide (a ∈ ObjectManager.selected_actors om)); [|assumption].
      now apply remove_first_subset in Hb.
    + intros b Hb. apply Hout. now apply lookup_alter_is_Some in Hb.
  - destruct Hpre as [Hsel Hout]. unfold ObjectManager.consistent, ObjectManager.deselect_all.
    cbn [Gizmo.hide fst ObjectManager.selected_actors ObjectManager.outline_actors
         ObjectManager.actors ObjectManager.with_selection ObjectManager.with_gizmos].
    split.
    + intros b Hb. now apply elem_of_nil in Hb.
    + intros b [outline Hb]. apply Hout. rewrite hide_outlines_lookup in Hb.
      destruct (ObjectManager.outline_actors om !! b); [eauto|discriminate].
  - destruct (move_object_keeps_selection GetBounds a dx dy dz om heap)
      as (Hs & Ha & _ & Ho & _).
    cbn zeta in Hs, Ha, Ho. destruct Hpre as [Hsel Hout]. unfold ObjectManager.consistent.
    rewrite Hs, Ha. split; [exact Hsel|]. intros b Hb. apply Hout. now apply Ho.
  - split; cbn.
    + intros b Hb. now apply elem_of_nil in Hb.
    + intros b [outline Hb]. rewrite lookup_empty in Hb. discriminate.
  - destruct (set_active_tool_keeps_selection tool om heap) as (Hs & Ho & Ha).
    cbn zeta in Hs, Ho, Ha. unfold ObjectManager.consistent. rewrite Hs, Ho, Ha. exact Hpre.
Qed.

(** X9. If what is selected and what has an outline is in the actor list,
    this is still so after any run of creations, selections, deselections,
    moves, tool changes and [clear_objects] in which [select_object] is
    given actors of the list; and a click in the viewport, which selects
    what [get_object_at_position] finds, keeps it so whatever the renderer
    answers. *)
Theorem registry_stays_consistent
    (GetBounds : ActorId -> Actor -> Bounds) (math_sin math_cos : float -> float)
    (cs : list ObjectManager.Call) (om : ObjectManager.t) (heap : Heap) :
  ObjectManager.consistent om ->
  (ObjectManager.selects_registered GetBounds cs (om, heap) ->
   ObjectManager.consistent (ObjectManager.calls GetBounds cs (om, heap)).1) /\
  (forall renderer mouse_pos multi_select w,
     VTKWidget.object_manager w = om ->
     ObjectManager.consistent
       (VTKWidget.object_manager
          (VTKWidget.handle_object_selection math_sin math_cos renderer mouse_pos
             multi_select w))).
Proof.
  intros Hpre. split.
  - unfold ObjectManager.calls. revert Hpre.
    change om with (om, heap).1 at 1. generalize (om, heap). clear om heap.
    induction cs as [|c cs IH]; intros state Hpre Hreg; [exact Hpre|].
    cbn [foldl]. destruct Hreg as [Hc Hreg]. apply IH; [|exact Hreg].
    now apply call_consistent.
  - intros renderer mouse_pos multi w <-. unfold VTKWidget.handle_object_selection.
    destruct (ObjectManager.actors (VTKWidget.object_manager w)) as [|first others];
      [exact Hpre|].
    destruct (((GetSize renderer).1 =? 0) || ((GetSize renderer).2 =? 0)); [exact Hpre|].
    cbn [VTKWidget.update_camera_position VTKWidget.object_manager VTKWidget.with_view].
    destruct (ObjectManager.get_object_at_position renderer (qx mouse_pos)
                ((GetSize renderer).2 - qy mouse_pos) (VTKWidget.object_manager w))
      as [picked|] eqn:Epick.
    + assert (Hin : picked ∈ ObjectManager.actors (VTKWidget.object_manager w)).
      { unfold ObjectManager.get_object_at_position in Epick.
        destruct (PropPicker_Pick renderer _ _) as [[a| |]|]; try discriminate.
        destruct (bool_decide_reflect (a ∈ ObjectManager.actors (VTKWidget.object_manager w)));
          [|discriminate].
        now injection Epick as <-. }
      pose proof (select_object_consistent picked multi (VTKWidget.object_manager w)
                    (VTKWidget.heap w) Hpre Hin) as H.
      destruct (ObjectManager.select_object picked multi _ _) as [om' h']. exact H.
    + destruct multi; cbn [negb]; [exact Hpre|].
      pose proof (call_consistent GetBounds ObjectManager.DeselectAll
                    (VTKWidget.object_manager w, VTKWidget.heap w) Hpre I) as H.
      cbn [ObjectManager.call fst] in H.
      destruct (ObjectManager.deselect_all _ _) as [om' h']. exact H.
Qed.

Lemma registry_stays_consistent_witness :
  ObjectManager.consistent ObjectManager.init /\
  ObjectManager.consistent
    (ObjectManager.calls Demo.no_bounds
       [ObjectManager.FinalizeObjectCreation Demo.object;
        ObjectManager.FinalizeObjectCreation Demo.second_object;
        ObjectManager.SelectObject Demo.object true;
        ObjectManager.MoveObject Demo.object 1 0 0;
        ObjectManager.ClearObjects]
       (ObjectManager.init, Demo.heap0)).1.
Proof.
  assert (Hinit : ObjectManager.consistent ObjectManager.init).
  { split; cbn.
    - intros b Hb. now apply elem_of_nil in Hb.
    - intros b [outline Hb]. rewrite lookup_empty in Hb. discriminate. }
  split; [exact Hinit|].
  apply (registry_stays_consistent Demo.no_bounds Demo.sin_45 Demo.cos_45 _
           ObjectManager.init Demo.heap0 Hinit).
  cbn [ObjectManager.selects_registered]. repeat split.
  vm_compute. apply list_elem_of_here.
Defined.

(** ** The gizmos and the active tool under any calls *)

Lemma gizmos_match_tool_alt (om : ObjectManager.t) :
  gizmos_match_tool om <->
  forall tool g,
    (tool = tool_move /\ g = ObjectManager.move_gizmo om) \/
    (tool = tool_rotate /\ g = ObjectManager.rotate_gizmo om) \/
    (tool = tool_scale /\ g = ObjectManager.scale_gizmo om) ->
    (Gizmo.is_visible g = true ->
     ObjectManager.active_gizmo om = Some tool /\ is_Some (Gizmo.selected_actor g)) /\
    (Gizmo.is_visible g = false -> Gizmo.original_opacities g = ∅).
Proof.
  unfold gizmos_match_tool, gizmos.
  split; intros H tool g Hin; apply H.
  - rewrite !elem_of_cons. destruct Hin as [[-> ->]|[[-> ->]|[-> ->]]]; auto.
  - rewrite !elem_of_cons, elem_of_nil in Hin.
    destruct Hin as [[= -> ->]|[[= -> ->]|[[= -> ->]|[]]]]; auto.
Qed.

Lemma gizmos_match_tool_ext (om om' : ObjectManager.t) :
  ObjectManager.move_gizmo om' = ObjectManager.move_gizmo om ->
  ObjectManager.rotate_gizmo om' = ObjectManager.rotate_gizmo om ->
  ObjectManager.scale_gizmo om' = ObjectManager.scale_gizmo om ->
  ObjectManager.active_gizmo om' = ObjectManager.active_gizmo om ->
  gizmos_match_tool om -> gizmos_match_tool om'.
Proof.
  intros Hm Hr Hs Ha. rewrite !gizmos_match_tool_alt. rewrite Hm, Hr, Hs, Ha. auto.
Qed.

(** With every gizmo hidden and nothing to restore, the gizmos match
    whatever tool is active. *)
Lemma hidden_gizmos_match (om : ObjectManager.t) :
  (forall tool g, (tool, g) ∈ gizmos om ->
     Gizmo.is_visible g = false /\ Gizmo.original_opacities g = ∅) ->
  gizmos_match_tool om.
Proof.
  intros H tool g Hin. destruct (H tool g Hin) as [Hv Ho]. split; [congruence|auto].
Qed.

Lemma show_active_gizmo_match (om : ObjectManager.t) (heap : Heap) :
  gizmos_match_tool om -> gizmos_match_tool (ObjectManager.show_active_gizmo om heap).1.
Proof.
  intros Hpre. unfold ObjectManager.show_active_gizmo.
  destruct (ObjectManager.selected_actors om) as [|first rest]; [exact Hpre|].
  destruct (ObjectManager.active_gizmo om) as [[]|] eqn:Eact; try exact Hpre;
    cbn [Gizmo.show fst]; apply (proj2 (gizmos_match_tool_alt _));
    pose proof (proj1 (gizmos_match_tool_alt om) Hpre) as Hpre';
    intros tool g [[-> ->]|[[-> ->]|[-> ->]]];
    cbn [ObjectManager.move_gizmo ObjectManager.rotate_gizmo ObjectManager.scale_gizmo
         ObjectManager.active_gizmo ObjectManager.with_gizmos
         Gizmo.is_visible Gizmo.selected_actor Gizmo.original_opacities];
    rewrite ?Eact;
    try (split; [intros _; split; [reflexivity|eauto]|discriminate]);
    match goal with
    | |- context [Gizmo.is_visible ?g] =>
        rewrite <- Eact; apply Hpre'; auto
    end.
Qed.

Lemma select_object_match (X : ActorId) (multi : bool) (om : ObjectManager.t) (heap : Heap) :
  gizmos_match_tool om -> gizmos_match_tool (ObjectManager.select_object X multi om heap).1.
Proof.
  intros Hpre. unfold ObjectManager.select_object. destruct multi; cbn [andb].
  - destruct (bool_decide (X ∈ ObjectManager.selected_actors om));
      apply show_active_gizmo_match; revert Hpre; apply gizmos_match_tool_ext; reflexivity.
  - unfold ObjectManager.deselect_all. cbn [Gizmo.hide].
    apply show_active_gizmo_match. apply hidden_gizmos_match.
    intros tool g Hin. unfold gizmos in Hin. cbn in Hin.
    rewrite !elem_of_cons, elem_of_nil in Hin.
    destruct Hin as [[= -> ->]|[[= -> ->]|[[= -> ->]|[]]]]; auto.
Qed.

Lemma call_match (GetBounds : ActorId -> Actor -> Bounds)
    (c : ObjectManager.Call) (state : ObjectManager.t * Heap) :
  gizmos_match_tool state.1 -> gizmos_match_tool (ObjectManager.call GetBounds c state).1.
Proof.
  destruct state as [om heap]. cbn [fst]. intros Hpre.
  destruct c as [a|a multi|a| |a dx dy dz| |tool]; cbn [ObjectManager.call fst].
  - unfold ObjectManager.finalize_object_creation. apply select_object_match.
    revert Hpre. apply gizmos_match_tool_ext; reflexivity.
  - now apply select_object_match.
  - revert Hpre. apply gizmos_match_tool_ext; reflexivity.
  - unfold ObjectManager.deselect_all. cbn [Gizmo.hide fst]. apply hidden_gizmos_match.
    intros tool g Hin. unfold gizmos in Hin. cbn in Hin.
    rewrite !elem_of_cons, elem_of_nil in Hin.
    destruct Hin as [[= -> ->]|[[= -> ->]|[[= -> ->]|[]]]]; auto.
  - destruct (move_object_keeps_selection GetBounds a dx dy dz om heap)
      as (_ & _ & _ & _ & Hm & Hr & Hs & Ha).
    cbn zeta in Hm, Hr, Hs, Ha. revert Hpre. now apply gizmos_match_tool_ext.
  - revert Hpre. apply gizmos_match_tool_ext; reflexivity.
  - unfold ObjectManager.set_active_tool. cbn [Gizmo.hide].
    apply show_active_gizmo_match. apply hidden_gizmos_match.
    intros tool' g Hin. unfold gizmos in Hin. cbn in Hin.
    rewrite !elem_of_cons, elem_of_nil in Hin.
    destruct Hin as [[= -> ->]|[[= -> ->]|[[= -> ->]|[]]]]; auto.
Qed.

(** X10. If each gizmo that is shown is the gizmo of the active tool and
    each hidden gizmo has no opacity left to restore, this is still so
    after any run of creations, selections, deselections, moves, tool
    changes and [clear_objects]; so at most one of the three gizmos is
    shown at any time, and it is the one of the active tool. *)
Theorem shown_gizmo_is_the_active_tools
    (GetBounds : ActorId -> Actor -> Bounds)
    (cs : list ObjectManager.Call) (om : ObjectManager.t) (heap : Heap) :
  gizmos_match_tool om ->
  let om' := (ObjectManager.calls GetBounds cs (om, heap)).1 in
  gizmos_match_tool om' /\
  forall tool1 g1 tool2 g2,
    (tool1, g1) ∈ gizmos om' -> (tool2, g2) ∈ gizmos om' ->
    Gizmo.is_visible g1 = true -> Gizmo.is_visible g2 = true ->
    tool1 = tool2 /\ ObjectManager.active_gizmo om' = Some tool1.
Proof.
  intros Hpre om'.
  assert (Hpost : gizmos_match_tool om').
  { subst om'. unfold ObjectManager.calls. revert Hpre.
    change om with (om, heap).1 at 1. generalize (om, heap). clear om heap.
    induction cs as [|c cs IH]; intros state Hpre; [exact Hpre|].
    cbn [foldl]. apply IH. now apply call_match. }
  split; [exact Hpost|].
  intros tool1 g1 tool2 g2 Hin1 Hin2 Hv1 Hv2.
  destruct (Hpost tool1 g1 Hin1) as [H1 _]. destruct (Hpost tool2 g2 Hin2) as [H2 _].
  destruct (H1 Hv1) as [Ha1 _]. destruct (H2 Hv2) as [Ha2 _].
  split; [congruence|exact Ha1].
Qed.

Lemma shown_gizmo_is_the_active_tools_witness :
  gizmos_match_tool ObjectManager.init /\
  gizmos_match_tool
    (ObjectManager.calls Demo.no_bounds
       [ObjectManager.FinalizeObjectCreation Demo.object;
        ObjectManager.SetActiveTool tool_move;
        ObjectManager.SetActiveTool tool_rotate;
        ObjectManager.FinalizeObjectCreation Demo.second_object]
       (ObjectManager.init, Demo.heap0)).1.
Proof.
  assert (Hinit : gizmos_match_tool ObjectManager.init).
  { apply hidden_gizmos_match. intros tool g Hin. unfold gizmos in Hin. cbn in Hin.
    rewrite !elem_of_cons, elem_of_nil in Hin.
    destruct Hin as [[= -> ->]|[[= -> ->]|[[= -> ->]|[]]]]; auto. }
  split; [exact Hinit|].
  exact (proj1 (shown_gizmo_is_the_active_tools Demo.no_bounds _ ObjectManager.init
                  Demo.heap0 Hinit)).
Defined.

(** ** What hiding the gizmos restores *)

Lemma restored_opacity_spec (om : ObjectManager.t) (heap : Heap) (a : ActorId) :
  restored_opacity (om, heap) a =
    match Gizmo.original_opacities (ObjectManager.scale_gizmo om) !! a,
          Gizmo.original_opacities (ObjectManager.rotate_gizmo om) !! a,
          Gizmo.original_opacities (ObjectManager.move_gizmo om) !! a with
    | Some o, _, _ => o
    | None, Some o, _ => o
    | None, None, Some o => o
    | None, None, None => Opacity (heap a)
    end.
Proof.
  unfold restored_opacity, ObjectManager.deselect_all. cbn [Gizmo.hide fst snd].
  rewrite !restore_opacities_spec.
  destruct (Gizmo.original_opacities (ObjectManager.scale_gizmo om) !! a);
    destruct (Gizmo.original_opacities (ObjectManager.rotate_gizmo om) !! a);
    destruct (Gizmo.original_opacities (ObjectManager.move_gizmo om) !! a); reflexivity.
Qed.

(** With the tables of all gizmos empty, showing the gizmo of the active
    tool does not change what hiding restores. *)
Lemma show_active_gizmo_restored (om : ObjectManager.t) (heap : Heap) (a : ActorId) :
  Gizmo.original_opacities (ObjectManager.move_gizmo om) = ∅ ->
  Gizmo.original_opacities (ObjectManager.rotate_gizmo om) = ∅ ->
  Gizmo.original_opacities (ObjectManager.scale_gizmo om) = ∅ ->
  restored_opacity (ObjectManager.show_active_gizmo om heap) a = Opacity (heap a).
Proof.
  intros Hm Hr Hs.
  assert (Hsame : restored_opacity (om, heap) a = Opacity (heap a)).
  { rewrite restored_opacity_spec, Hm, Hr, Hs, !lookup_empty. reflexivity. }
  unfold ObjectManager.show_active_gizmo.
  destruct (ObjectManager.selected_actors om) as [|first rest]; [exact Hsame|].
  destruct (ObjectManager.active_gizmo om) as [[]|]; try exact Hsame;
    cbn [Gizmo.show]; rewrite restored_opacity_spec;
    cbn [ObjectManager.move_gizmo ObjectManager.rotate_gizmo ObjectManager.scale_gizmo
         ObjectManager.with_gizmos Gizmo.original_opacities];
    rewrite ?Hm, ?Hr, ?Hs, ?lookup_empty;
    (destruct (decide (a = first)) as [->|Hne];
     [rewrite lookup_insert_eq; reflexivity
     |rewrite lookup_insert_ne, lookup_empty, heap_upd_other by congruence; reflexivity]).
Qed.

Lemma call_leaves_restored_opacity (GetBounds : ActorId -> Actor -> Bounds)
    (a : ActorId) (c : ObjectManager.Call) (state : ObjectManager.t * Heap) :
  leaves_opacity a c = true ->
  restored_opacity (ObjectManager.call GetBounds c state) a = restored_opacity state a.
Proof.
  destruct state as [om heap]. intros Hc.
  destruct c as [b|b [|]|b| |b dx dy dz| |tool]; cbn [ObjectManager.call]; try discriminate Hc.
  - cbn in Hc. apply negb_true_iff in Hc. apply Pos.eqb_neq in Hc.
    unfold ObjectManager.finalize_object_creation, ObjectManager.select_object,
      ObjectManager.deselect_all.
    cbn [andb Gizmo.hide].
    rewrite show_active_gizmo_restored by reflexivity.
    rewrite !restore_opacities_spec. rewrite restored_opacity_spec.
    cbn [ObjectManager.move_gizmo ObjectManager.rotate_gizmo ObjectManager.scale_gizmo
         ObjectManager.create_outline ObjectManager.with_selection].
    rewrite !heap_upd_other by congruence.
    destruct (Gizmo.original_opacities (ObjectManager.scale_gizmo om) !! a);
      destruct (Gizmo.original_opacities (ObjectManager.rotate_gizmo om) !! a);
      destruct (Gizmo.original_opacities (ObjectManager.move_gizmo om) !! a); reflexivity.
  - unfold ObjectManager.select_object, ObjectManager.deselect_all. cbn [andb Gizmo.hide].
    rewrite show_active_gizmo_restored by reflexivity. reflexivity.
  - rewrite !restored_opacity_spec. reflexivity.
  - unfold ObjectManager.deselect_all at 1. cbn [Gizmo.hide].
    rewrite restored_opacity_spec.
    cbn [ObjectManager.move_gizmo ObjectManager.rotate_gizmo ObjectManager.scale_gizmo
         ObjectManager.with_selection ObjectManager.with_gizmos Gizmo.original_opacities].
    rewrite !lookup_empty. reflexivity.
  - destruct (move_object_keeps_selection GetBounds b dx dy dz om heap)
      as (_ & _ & _ & _ & Hm & Hr & Hs & _).
    cbn zeta in Hm, Hr, Hs.
    destruct (ObjectManager.move_object GetBounds b dx dy dz om heap) as [om' heap'] eqn:Emove.
    cbn [fst] in Hm, Hr, Hs. rewrite !restored_opacity_spec, Hm, Hr, Hs.
    assert (Hheap : Opacity (heap' a) = Opacity (heap a)).
    { pose proof (move_object_heap GetBounds b dx dy dz om heap) as Hh.
      rewrite Emove in Hh. cbn [snd] in Hh. cbn zeta in Hh. rewrite Hh.
      destruct (ObjectManager.camera_objects om !! b); unfold heap_upd;
        repeat match goal with |- context [Pos.eqb ?x ?y] => destruct (Pos.eqb x y) end;
        reflexivity. }
    rewrite Hheap. reflexivity.
  - unfold ObjectManager.clear_objects. rewrite !restored_opacity_spec.
    cbn [ObjectManager.move_gizmo ObjectManager.rotate_gizmo ObjectManager.scale_gizmo].
    assert (Hheap : forall l h,
               Opacity (foldl (fun heap actor => heap_upd actor RemoveActor heap) h l a)
               = Opacity (h a)).
    { induction l as [|x l IH]; intros h; [reflexivity|]. cbn [foldl]. rewrite IH.
      unfold heap_upd. now destruct (Pos.eqb a x). }
    rewrite Hheap. reflexivity.
  - unfold ObjectManager.set_active_tool. cbn [Gizmo.hide].
    rewrite show_active_gizmo_restored by reflexivity. reflexivity.
Qed.

(** X11. Take any run of calls without a selection with the multi-select
    flag: single selections, deselections, moves, tool changes,
    [clear_objects], creations of other actors.  What hiding the gizmos
    restores for an actor is the same after the run as before it: the
    opacity an actor regains does not depend on which gizmos were shown on
    which objects in between. *)
Theorem single_selection_keeps_restored_opacity
    (GetBounds : ActorId -> Actor -> Bounds)
    (a : ActorId) (cs : list ObjectManager.Call) (state : ObjectManager.t * Heap) :
  forallb (leaves_opacity a) cs = true ->
  restored_opacity (ObjectManager.calls GetBounds cs state) a = restored_opacity state a.
Proof.
  unfold ObjectManager.calls. revert state.
  induction cs as [|c cs IH]; intros state Hcs; [reflexivity|].
  cbn [forallb] in Hcs. apply andb_true_iff in Hcs as [Hc Hcs].
  cbn [foldl]. rewrite IH by exact Hcs. now apply call_leaves_restored_opacity.
Qed.

Lemma single_selection_keeps_restored_opacity_witness :
  let state := (Demo.two_objects.1, heap_upd Demo.object (SetOpacity 0.65) Demo.two_objects.2) in
  let cs :=
    [ObjectManager.SetActiveTool tool_move;
     ObjectManager.SelectObject Demo.object false;
     ObjectManager.SetActiveTool tool_rotate;
     ObjectManager.MoveObject Demo.object 1 0 0;
     ObjectManager.SetActiveTool tool_scale;
     ObjectManager.SelectObject Demo.second_object false] in
  forallb (leaves_opacity Demo.object) cs = true /\
  restored_opacity (ObjectManager.calls Demo.no_bounds cs state) Demo.object = 0.65%float.
Proof.
  cbv zeta. split; [reflexivity|].
  rewrite single_selection_keeps_restored_opacity by reflexivity.
  vm_compute. reflexivity.
Defined.

(** X12. With the Move, Rotate or Scale tool active, select an object and
    then, with the multi-select flag, another one.  The second selection
    shows the gizmo again on the first object, which is already dimmed, so
    the dimmed value is recorded as the one to restore: from then on
    hiding the gizmos leaves the first object at the dimmed opacity of that
    gizmo, whatever its opacity was; after the first selection alone it
    would have regained its opacity. *)
Theorem multi_select_records_the_dimmed_opacity
    (tool : Tool) (g : Gizmo.t) (first second : ActorId)
    (om : ObjectManager.t) (heap : Heap) :
  ObjectManager.active_gizmo om = Some tool ->
  (tool, g) ∈ gizmos om ->
  first <> second ->
  let one := ObjectManager.select_object first false om heap in
  let two := ObjectManager.select_object second true one.1 one.2 in
  restored_opacity one first = restored_opacity (om, heap) first /\
  ObjectManager.selected_actors two.1 = [first; second] /\
  restored_opacity two first = Gizmo.dimmed_opacity (Gizmo.kind g).
Proof.
  intros Hact Hin Hne one two.
  split.
  { apply (call_leaves_restored_opacity (fun _ _ => mkBounds 0 0 0 0 0 0) first
             (ObjectManager.SelectObject first false) (om, heap)). reflexivity. }
  subst two one. unfold gizmos in Hin. rewrite !elem_of_cons, elem_of_nil in Hin.
  unfold ObjectManager.select_object, ObjectManager.deselect_all,
    ObjectManager.show_active_gizmo.
  destruct Hin as [[= -> ->]|[[= -> ->]|[[= -> ->]|[]]]];
    repeat (progress
              (cbn [andb Gizmo.hide Gizmo.show fst snd app
                    ObjectManager.selected_actors ObjectManager.active_gizmo
                    ObjectManager.move_gizmo ObjectManager.rotate_gizmo
                    ObjectManager.scale_gizmo ObjectManager.with_selection
                    ObjectManager.with_gizmos Gizmo.kind Gizmo.original_opacities];
               rewrite ?Hact;
               rewrite ?(bool_decide_eq_false_2 (second ∈ [first]))
                 by (rewrite list_elem_of_singleton; congruence)));
    (split; [reflexivity|]);
    rewrite restored_opacity_spec;
    cbn [ObjectManager.move_gizmo ObjectManager.rotate_gizmo ObjectManager.scale_gizmo
         ObjectManager.with_gizmos ObjectManager.with_selection
         Gizmo.original_opacities Gizmo.kind];
    rewrite ?lookup_insert_eq, ?lookup_empty, ?heap_upd_same; reflexivity.
Qed.

Lemma multi_select_records_the_dimmed_opacity_witness :
  let om := (ObjectManager.set_active_tool tool_move Demo.two_objects.1 Demo.two_objects.2).1 in
  let heap :=
    heap_upd Demo.object (SetOpacity 0.65)
      (ObjectManager.set_active_tool tool_move Demo.two_objects.1 Demo.two_objects.2).2 in
  let one := ObjectManager.select_object Demo.object false om heap in
  let two := ObjectManager.select_object Demo.second_object true one.1 one.2 in
  ObjectManager.active_gizmo om = Some tool_move /\
  (tool_move, ObjectManager.move_gizmo om) ∈ gizmos om /\
  Demo.object <> Demo.second_object /\
  restored_opacity one Demo.object = 0.65%float /\
  restored_opacity two Demo.object = 0.3%float.
Proof.
  cbv zeta.
  set (om := (ObjectManager.set_active_tool tool_move Demo.two_objects.1 Demo.two_objects.2).1).
  set (heap := heap_upd Demo.object (SetOpacity 0.65)
                 (ObjectManager.set_active_tool tool_move Demo.two_objects.1
                    Demo.two_objects.2).2).
  assert (Hact : ObjectManager.active_gizmo om = Some tool_move) by reflexivity.
  assert (Hin : (tool_move, ObjectManager.move_gizmo om) ∈ gizmos om) by apply list_elem_of_here.
  assert (Hne : Demo.object <> Demo.second_object) by discriminate.
  destruct (multi_select_records_the_dimmed_opacity tool_move (ObjectManager.move_gizmo om)
              Demo.object Demo.second_object om heap Hact Hin Hne) as (H1 & _ & H2).
  split; [exact Hact|]. split; [exact Hin|]. split; [exact Hne|].
  split; [rewrite H1|rewrite H2]; vm_compute; reflexivity.
Defined.

(** ** Lights and their icons *)

Lemma add_opp_self (c : float) : is_finite c = true -> (c + - c)%float = 0%float.
Proof.
  intros H. apply Prim2SF_inj. rewrite FloatAxioms.add_spec, FloatAxioms.opp_spec.
  replace (Prim2SF 0%float) with (S754_zero false) by (vm_compute; reflexivity).
  destruct (finite_cases c H) as [[s E]|(s & m & e & E)]; rewrite E; unfold SF64add.
  - now destruct s.
  - cbn [SFadd SFopp].
    generalize (shl_align m e (e `min` e)).1. intros m'.
    replace (cond_Zopp s (Z.pos m') + cond_Zopp (negb s) (Z.pos m')) with 0
      by (destruct s; cbn [cond_Zopp negb]; lia).
    reflexivity.
Qed.

(** A number that compares equal to zero is one of the two zeros. *)
Lemma zero_cases (c : float) : (c =? 0)%float = true -> c = 0%float \/ c = (-0)%float.
Proof.
  rewrite FloatAxioms.eqb_spec.
  replace (Prim2SF 0%float) with (S754_zero false) by (vm_compute; reflexivity).
  destruct (Prim2SF c) as [[]|[]| |[] m e] eqn:E; cbn; try discriminate; intros _.
  - right. apply Prim2SF_inj. rewrite E. vm_compute. reflexivity.
  - left. apply Prim2SF_inj. rewrite E. vm_compute. reflexivity.
Qed.

Lemma opp_eqb_zero (c : float) : (- c =? 0)%float = (c =? 0)%float.
Proof.
  rewrite !FloatAxioms.eqb_spec, FloatAxioms.opp_spec.
  replace (Prim2SF 0%float) with (S754_zero false) by (vm_compute; reflexivity).
  now destruct (Prim2SF c) as [[]|[]| |[]].
Qed.

(** X13. The light of a sun icon is put at the icon's position.  When the
    coordinates of the icon are finite the light aims exactly at the
    origin, from wherever the icon is; only when the icon itself sits at
    the origin it aims at (0, -1, -0.5). *)
Theorem sun_light_aims_at_the_origin (a : Actor) (light : LightManager.Light) :
  vec_finite (Position a) = true ->
  let updated := LightManager._update_sun_light a light in
  LightManager.light_Position updated = Position a /\
  LightManager.light_FocalPoint updated =
    (if vec_forall (fun c => (c =? 0)%float) (Position a)
     then mkVec3 0%float (-1)%float (-0.5)%float
     else vec_zero).
Proof.
  intros Hfin. unfold LightManager._update_sun_light. cbn zeta. cbn [v0 v1 v2].
  rewrite !opp_eqb_zero. unfold vec_forall.
  destruct (Position a) as [x y z]. cbn [v0 v1 v2] in *.
  unfold vec_finite, vec_forall in Hfin. cbn [v0 v1 v2] in Hfin.
  apply andb_true_iff in Hfin as [Hfin Hz]. apply andb_true_iff in Hfin as [Hx Hy].
  destruct ((x =? 0)%float && (y =? 0)%float && (z =? 0)%float) eqn:E.
  - cbn [LightManager.light_Position LightManager.light_FocalPoint]. split; [reflexivity|].
    apply andb_true_iff in E as [E Ez]. apply andb_true_iff in E as [Ex Ey].
    unfold vec_add. cbn [v0 v1 v2].
    destruct (zero_cases x Ex) as [->| ->], (zero_cases y Ey) as [->| ->],
        (zero_cases z Ez) as [->| ->]; vm_compute; reflexivity.
  - cbn [LightManager.light_Position LightManager.light_FocalPoint]. split; [reflexivity|].
    unfold vec_add, vec_zero. cbn [v0 v1 v2].
    now rewrite !add_opp_self by assumption.
Qed.

Lemma sun_light_aims_at_the_origin_witness :
  let icon := SetPosition (mkVec3 3.5 10 (-2.25)) new_actor in
  vec_finite (Position icon) = true /\
  LightManager._update_sun_light icon (LightManager.mkLight vec_zero vec_zero)
    = LightManager.mkLight (mkVec3 3.5 10 (-2.25)) vec_zero.
Proof.
  cbv zeta.
  assert (Hfin : vec_finite (Position (SetPosition (mkVec3 3.5 10 (-2.25)) new_actor)) = true)
    by reflexivity.
  split; [exact Hfin|].
  destruct (sun_light_aims_at_the_origin (SetPosition (mkVec3 3.5 10 (-2.25)) new_actor)
              (LightManager.mkLight vec_zero vec_zero) Hfin) as [Hpos Hfocal].
  destruct (LightManager._update_sun_light _ _) as [p f].
  cbn [LightManager.light_Position LightManager.light_FocalPoint] in Hpos, Hfocal.
  rewrite Hpos, Hfocal. reflexivity.
Defined.

Lemma update_area_light_spec (a : Actor) (offsets : list Vec3) (lights : list LightManager.Light) :
  length (LightManager._update_area_light a offsets lights) = length lights /\
  forall i o, offsets !! i = Some o -> (i < length lights)%nat ->
    LightManager._update_area_light a offsets lights !! i
      = Some (LightManager.mkLight (vec_add (Position a) o) vec_zero).
Proof.
  revert lights. induction offsets as [|o' offsets IH]; intros lights.
  - split; [now destruct lights|]. intros i o Hi. discriminate.
  - destruct lights as [|l lights]; cbn [LightManager._update_area_light].
    + split; [reflexivity|]. intros i o _ Hi. cbn in Hi. lia.
    + destruct (IH lights) as [Hlen Hlook]. split; [cbn; now rewrite Hlen|].
      intros [|i] o Ho Hi; cbn in Ho, Hi |- *.
      * now injection Ho as ->.
      * apply Hlook; [exact Ho|lia].
Qed.

(** When [move_object] raises: for a camera whose focal point is too far
    from the new position for the squares of its view direction. *)
Lemma move_object_raises_spec
    (GetBounds : ActorId -> Actor -> Bounds) (a : ActorId) (dx dy dz : float)
    (om : ObjectManager.t) (heap : Heap) :
  ObjectManager.move_object_raises GetBounds a dx dy dz om heap =
    match ObjectManager.camera_objects om !! a with
    | Some camera_obj =>
        if measurable
             (mkVec3 (v0 (Position (heap a)) + dx) (v1 (Position (heap a)) + dy)
                     (v2 (Position (heap a)) + dz)%float)
             (CameraObject.focal_point camera_obj)
        then None else Some Py.OverflowError
    | None => None
    end.
Proof.
  unfold ObjectManager.move_object_raises, ObjectManager.move_object_outcome.
  cbn [ObjectManager.update_outline_position ObjectManager.camera_objects
       ObjectManager.with_selection].
  destruct (ObjectManager.camera_objects om !! a) as [cam|];
    cbn -[CameraObject.get_view_direction]; [|reflexivity].
  unfold CameraObject.get_view_direction.
  cbn [CameraObject.update_vtk_camera CameraObject.focal_point CameraObject.position
       vec_sub v0 v1 v2].
  rewrite norm3_spec. unfold measurable. cbn [v0 v1 v2].
  destruct (square_in_range _ && square_in_range _ && square_in_range _);
    cbn [mbind result_bind Py.bind]; [|reflexivity].
  now destruct (0 <? _)%float.
Qed.

(** X14. [move_object] on the icon of a light puts the icon at its old
    position plus the delta.  The call returns unless the icon is also a
    camera whose focal point is so far from the new position that a
    square of the view direction is out of the range of binary64; then it
    raises [OverflowError] and leaves the lights as they were.  When it
    returns it has taken the light along: a point, spot or sun light is
    put at the icon's new position, each light of an area light at that
    position plus its offset, a mesh light at the centre of the actor's
    bounds; point, spot and area lights aim at the origin; the lights of
    the other icons stay as they are. *)
Theorem moved_icon_takes_its_light_along
    (GetBounds : ActorId -> Actor -> Bounds)
    (actor : ActorId) (delta_x delta_y delta_z : float)
    (om : ObjectManager.t) (heap : Heap) (lm : LightManager.t) (info : LightManager.Info) :
  ObjectManager.light_manager om = Some lm ->
  LightManager.light_objects lm !! actor = Some info ->
  let moved := ObjectManager.move_object GetBounds actor delta_x delta_y delta_z om heap in
  let raised :=
    ObjectManager.move_object_raises GetBounds actor delta_x delta_y delta_z om heap in
  let position := Position (moved.2 actor) in
  position = mkVec3 (v0 (Position (heap actor)) + delta_x)%float
                    (v1 (Position (heap actor)) + delta_y)%float
                    (v2 (Position (heap actor)) + delta_z)%float /\
  raised =
    match ObjectManager.camera_objects om !! actor with
    | Some camera_obj =>
        if measurable position (CameraObject.focal_point camera_obj)
        then None else Some Py.OverflowError
    | None => None
    end /\
  match raised with
  | Some _ => ObjectManager.light_manager moved.1 = Some lm
  | None =>
  exists lm' info',
    ObjectManager.light_manager moved.1 = Some lm' /\
    LightManager.light_objects lm' !! actor = Some info' /\
    (forall other, other <> actor ->
       LightManager.light_objects lm' !! other = LightManager.light_objects lm !! other) /\
    match info, info' with
    | LightManager.Single LightManager.point _, LightManager.Single LightManager.point light
    | LightManager.Single LightManager.spot _, LightManager.Single LightManager.spot light =>
        light = LightManager.mkLight position vec_zero
    | LightManager.Single LightManager.sun _, LightManager.Single LightManager.sun light =>
        LightManager.light_Position light = position
    | LightManager.Single LightManager.mesh old, LightManager.Single LightManager.mesh light =>
        let bounds := GetBounds actor (moved.2 actor) in
        light = LightManager.mkLight
                  (mkVec3 ((xmin bounds + xmax bounds) / 2)%float
                          ((ymin bounds + ymax bounds) / 2)%float
                          ((zmin bounds + zmax bounds) / 2)%float)
                  (LightManager.light_FocalPoint old)
    | LightManager.Area lights offsets, LightManager.Area lights' offsets' =>
        offsets' = offsets /\ length lights' = length lights /\
        forall i o, offsets !! i = Some o -> (i < length lights)%nat ->
          lights' !! i = Some (LightManager.mkLight (vec_add position o) vec_zero)
    | _, _ => False
    end
  end.
Proof.
  intros Hlm Hinfo moved raised position.
  pose proof (move_object_position GetBounds actor delta_x delta_y delta_z om heap) as Hpos.
  fold moved in Hpos. fold position in Hpos.
  pose proof (move_object_raises_spec GetBounds actor delta_x delta_y delta_z om heap)
    as Hraised.
  fold raised in Hraised. rewrite <- Hpos in Hraised.
  split; [exact Hpos|]. split; [exact Hraised|].
  set (new_pos := mkVec3 (v0 (Position (heap actor)) + delta_x)
                         (v1 (Position (heap actor)) + delta_y)
                         (v2 (Position (heap actor)) + delta_z)) in *.
  assert (Hsync : forall h,
             Position (h actor) = new_pos ->
             exists lm' info',
               Some (LightManager.sync_light_for_actor GetBounds actor lm h) = Some lm' /\
               LightManager.light_objects lm' !! actor = Some info' /\
               (forall other, other <> actor ->
                  LightManager.light_objects lm' !! other
                  = LightManager.light_objects lm !! other) /\
               match info, info' with
               | LightManager.Single LightManager.point _,
                 LightManager.Single LightManager.point light
               | LightManager.Single LightManager.spot _,
                 LightManager.Single LightManager.spot light =>
                   light = LightManager.mkLight new_pos vec_zero
               | LightManager.Single LightManager.sun _,
                 LightManager.Single LightManager.sun light =>
                   LightManager.light_Position light = new_pos
               | LightManager.Single LightManager.mesh old,
                 LightManager.Single LightManager.mesh light =>
                   let bounds := GetBounds actor (h actor) in
                   light = LightManager.mkLight
                             (mkVec3 ((xmin bounds + xmax bounds) / 2)%float
                                     ((ymin bounds + ymax bounds) / 2)%float
                                     ((zmin bounds + zmax bounds) / 2)%float)
                             (LightManager.light_FocalPoint old)
               | LightManager.Area lights offsets, LightManager.Area lights' offsets' =>
                   offsets' = offsets /\ length lights' = length lights /\
                   forall i o, offsets !! i = Some o -> (i < length lights)%nat ->
                     lights' !! i = Some (LightManager.mkLight (vec_add new_pos o) vec_zero)
               | _, _ => False
               end).
  { intros h Hh. unfold LightManager.sync_light_for_actor. rewrite Hinfo.
    eexists. eexists. split; [reflexivity|].
    cbn [LightManager.light_objects]. split; [apply lookup_insert_eq|].
    split; [intros other Hne; now apply lookup_insert_ne|].
    destruct info as [[] l|lights offsets].
    - unfold LightManager._update_point_light. now rewrite Hh.
    - unfold LightManager._update_sun_light. cbn zeta. cbn [LightManager.light_Position].
      exact Hh.
    - unfold LightManager._update_spot_light. now rewrite Hh.
    - reflexivity.
    - split; [reflexivity|]. rewrite <- Hh. apply update_area_light_spec. }
  assert (Hlights :
            ObjectManager.light_manager moved.1 =
              match raised with
              | Some _ => Some lm
              | None =>
                  Some (LightManager.sync_light_for_actor GetBounds actor lm moved.2)
              end).
  { subst moved raised.
    unfold ObjectManager.move_object, ObjectManager.move_object_raises,
      ObjectManager.move_object_outcome.
    cbn [ObjectManager.update_outline_position ObjectManager.camera_objects
         ObjectManager.with_selection ObjectManager.light_manager].
    rewrite Hlm.
    destruct (ObjectManager.camera_objects om !! actor) as [cam|];
      cbn -[CameraObject.get_view_direction]; [|reflexivity].
    destruct (CameraObject.get_view_direction _); reflexivity. }
  destruct raised as [e|]; [exact Hlights|].
  destruct (Hsync moved.2 Hpos) as (lm' & info' & Hs & H1 & H2 & H3).
  exists lm', info'. rewrite Hlights, Hpos. auto.
Qed.

Lemma moved_icon_takes_its_light_along_witness :
  ObjectManager.light_manager Demo.lit.1 = Some Demo.lights /\
  LightManager.light_objects Demo.lights !! Demo.lamp
    = Some (LightManager.Single LightManager.point
              (LightManager.mkLight (mkVec3 0 5 0) vec_zero)) /\
  ObjectManager.move_object_raises Demo.no_bounds Demo.lamp 1 0 (-2) Demo.lit.1 Demo.lit.2
    = None /\
  Position ((ObjectManager.move_object Demo.no_bounds Demo.lamp 1 0 (-2)
               Demo.lit.1 Demo.lit.2).2 Demo.lamp) = mkVec3 1 5 (-2) /\
  exists lm',
    ObjectManager.light_manager
      (ObjectManager.move_object Demo.no_bounds Demo.lamp 1 0 (-2) Demo.lit.1 Demo.lit.2).1
      = Some lm' /\
    LightManager.light_objects lm' !! Demo.lamp
      = Some (LightManager.Single LightManager.point
                (LightManager.mkLight (mkVec3 1 5 (-2)) vec_zero)).
Proof.
  assert (Hlm : ObjectManager.light_manager Demo.lit.1 = Some Demo.lights)
    by (vm_compute; reflexivity).
  assert (Hinfo : LightManager.light_objects Demo.lights !! Demo.lamp
                  = Some (LightManager.Single LightManager.point
                            (LightManager.mkLight (mkVec3 0 5 0) vec_zero)))
    by (vm_compute; reflexivity).
  assert (Hnone : ObjectManager.move_object_raises Demo.no_bounds Demo.lamp 1 0 (-2)
                    Demo.lit.1 Demo.lit.2 = None)
    by (vm_compute; reflexivity).
  split; [exact Hlm|]. split; [exact Hinfo|]. split; [exact Hnone|].
  pose proof (moved_icon_takes_its_light_along Demo.no_bounds Demo.lamp 1 0 (-2)
                Demo.lit.1 Demo.lit.2 Demo.lights _ Hlm Hinfo) as H.
  cbv zeta in H. rewrite Hnone in H.
  destruct H as (Hpos & _ & lm' & info' & Hlm' & Hinfo' & _ & Hlight).
  assert (Hvalue : Position ((ObjectManager.move_object Demo.no_bounds Demo.lamp 1 0 (-2)
                                Demo.lit.1 Demo.lit.2).2 Demo.lamp) = mkVec3 1 5 (-2))
    by (vm_compute; reflexivity).
  split; [exact Hvalue|].
  exists lm'. split; [exact Hlm'|]. rewrite Hinfo'.
  destruct info' as [[] light|]; try contradiction. now rewrite Hlight, Hvalue.
Defined.

(** ** The rubber band of the box selection *)

Lemma update_selection_spec (pos : QPoint) (b : BoxSelectRubberBand.t) :
  let b' := BoxSelectRubberBand.update_selection pos b in
  BoxSelectRubberBand.start_point b' = BoxSelectRubberBand.start_point b /\
  BoxSelectRubberBand.end_point b' = pos /\
  BoxSelectRubberBand.is_selecting b' = BoxSelectRubberBand.is_selecting b /\
  BoxSelectRubberBand.isVisible b' = BoxSelectRubberBand.isVisible b /\
  BoxSelectRubberBand.geometry b' =
    BoxSelectRubberBand.mkQRect
      (Z.min (qx (BoxSelectRubberBand.start_point b)) (qx pos))
      (Z.min (qy (BoxSelectRubberBand.start_point b)) (qy pos))
      (Z.max 2 (Z.abs (qx (BoxSelectRubberBand.start_point b) - qx pos)))
      (Z.max 2 (Z.abs (qy (BoxSelectRubberBand.start_point b) - qy pos))).
Proof. cbn. auto. Qed.

(** X15. While a box is dragged out the rubber band is shown and depends
    only on where the selection started and where the pointer is now, not
    on the way between: its corner is the smaller coordinate of the two
    points in each direction, its width and height the distance between
    them but at least 2, so it is never smaller than 2 x 2 and reaches from
    the one point to the other whichever way the pointer moved. *)
Theorem rubber_band_spans_start_to_pointer
    (start : QPoint) (moves : list QPoint) (b : BoxSelectRubberBand.t) :
  let b' := BoxSelectRubberBand.band start moves b in
  let now := List.last moves start in
  let g := BoxSelectRubberBand.geometry b' in
  BoxSelectRubberBand.is_selecting b' = true /\
  BoxSelectRubberBand.isVisible b' = true /\
  g = BoxSelectRubberBand.mkQRect
        (Z.min (qx start) (qx now)) (Z.min (qy start) (qy now))
        (Z.max 2 (Z.abs (qx start - qx now))) (Z.max 2 (Z.abs (qy start - qy now))) /\
  2 <= BoxSelectRubberBand.rect_width g /\ 2 <= BoxSelectRubberBand.rect_height g /\
  BoxSelectRubberBand.rect_x g <= qx start
    <= BoxSelectRubberBand.rect_x g + BoxSelectRubberBand.rect_width g /\
  BoxSelectRubberBand.rect_x g <= qx now
    <= BoxSelectRubberBand.rect_x g + BoxSelectRubberBand.rect_width g /\
  BoxSelectRubberBand.rect_y g <= qy start
    <= BoxSelectRubberBand.rect_y g + BoxSelectRubberBand.rect_height g /\
  BoxSelectRubberBand.rect_y g <= qy now
    <= BoxSelectRubberBand.rect_y g + BoxSelectRubberBand.rect_height g.
Proof.
  cbn zeta.
  assert (H : BoxSelectRubberBand.start_point (BoxSelectRubberBand.band start moves b) = start /\
              BoxSelectRubberBand.is_selecting (BoxSelectRubberBand.band start moves b) = true /\
              BoxSelectRubberBand.isVisible (BoxSelectRubberBand.band start moves b) = true /\
              BoxSelectRubberBand.geometry (BoxSelectRubberBand.band start moves b) =
                BoxSelectRubberBand.mkQRect
                  (Z.min (qx start) (qx (List.last moves start)))
                  (Z.min (qy start) (qy (List.last moves start)))
                  (Z.max 2 (Z.abs (qx start - qx (List.last moves start))))
                  (Z.max 2 (Z.abs (qy start - qy (List.last moves start))))).
  { unfold BoxSelectRubberBand.band.
    induction moves as [|pos moves IH] using rev_ind.
    - cbn. auto.
    - rewrite foldl_app. cbn [foldl]. rewrite List.last_last.
      destruct IH as (Hs & Hsel & Hvis & _).
      destruct (update_selection_spec pos
                  (foldl (fun self pos => BoxSelectRubberBand.update_selection pos self)
                     (BoxSelectRubberBand.start_selection start b) moves))
        as (Hs' & _ & Hsel' & Hvis' & Hg').
      cbn zeta in Hs', Hsel', Hvis', Hg'.
      rewrite Hs', Hsel', Hvis', Hg', Hs. auto. }
  destruct H as (_ & Hsel & Hvis & Hg). rewrite Hg.
  cbn [BoxSelectRubberBand.rect_x BoxSelectRubberBand.rect_y BoxSelectRubberBand.rect_width
       BoxSelectRubberBand.rect_height].
  repeat split; try assumption; lia.
Qed.

#[local] Arguments VTKWidget.with_box _ _ _ _ /.
#[local] Arguments VTKWidget.with_moving _ _ _ _ _ _ /.
#[local] Arguments VTKWidget.with_tool _ _ _ /.
#[local] Arguments VTKWidget.start_box_selection _ _ _ /.
#[local] Arguments VTKWidget.update_box_selection _ _ _ /.
#[local] Arguments VTKWidget.end_box_selection _ _ /.

(** X16. With the Box Select tool and no drag under way, a press of the
    left button, any moves with the button held and the release leave the
    widget's scene exactly as it was: the selection, the outlines, the
    gizmos, every actor and the camera.  The definition of
    [end_box_selection] that is in force only ends the rubber band, which
    is hidden afterwards; the tool and the measurement tool are
    unchanged. *)
Theorem box_selection_selects_nothing
    (math_sin math_cos : float -> float) (GetBounds : ActorId -> Actor -> Bounds)
    (mapFrom : QPoint -> QPoint)
    (self : VTKWidget.t) (tools : VTKWidget.Tools)
    (r0 : Renderer) (press : VTKWidget.QMouseEvent)
    (moves : list (Renderer * VTKWidget.QMouseEvent))
    (r1 : Renderer) (release : VTKWidget.QMouseEvent) :
  VTKWidget.current_tool tools = tool_box_select ->
  VTKWidget.is_scaling self = false ->
  VTKWidget.is_moving tools = false ->
  VTKWidget.is_rotating_object self = false ->
  VTKWidget.button press = VTKWidget.LeftButton ->
  VTKWidget.button release = VTKWidget.LeftButton ->
  Forall (fun m : Renderer * VTKWidget.QMouseEvent =>
            VTKWidget.buttons_LeftButton m.2 = true) moves ->
  exists tools',
    VTKWidget.run math_sin math_cos GetBounds mapFrom
      (VTKWidget.MousePress r0 press
       :: map (fun m : Renderer * VTKWidget.QMouseEvent => VTKWidget.MouseMove m.1 m.2) moves
       ++ [VTKWidget.MouseRelease r1 release])
      (self, tools) = PyList.Return (self, tools') /\
    VTKWidget.is_box_selecting tools' = false /\
    BoxSelectRubberBand.isVisible (VTKWidget.box_select_rubberband tools') = false /\
    VTKWidget.current_tool tools' = tool_box_select /\
    VTKWidget.measurement_tool tools' = VTKWidget.measurement_tool tools.
Proof.
  intros Htool Hscale Hmove Hrot Hpress Hrelease Hmoves.
  cbn [VTKWidget.run VTKWidget.dispatch fst snd].
  unfold VTKWidget.mousePressEvent. rewrite Hpress, Htool.
  unfold mret, result_ret. cbn [PyList.lift PyList.bind].
  set (tools1 := VTKWidget.start_box_selection mapFrom (VTKWidget.pos press) tools).
  assert (Hinv : VTKWidget.current_tool tools1 = tool_box_select /\
                 VTKWidget.is_moving tools1 = false /\
                 VTKWidget.is_box_selecting tools1 = true /\
                 VTKWidget.measurement_tool tools1 = VTKWidget.measurement_tool tools).
  { subst tools1. simpl. auto. }
  clearbody tools1. revert tools1 Hinv.
  induction Hmoves as [|[r m] moves Hm Hmoves IH]; intros tools1 (H1 & H2 & H3 & H4).
  - cbn [map app VTKWidget.run VTKWidget.dispatch fst snd].
    unfold VTKWidget.mouseReleaseEvent. rewrite Hrelease, Hscale, H2, Hrot, H3.
    unfold mret, result_ret. cbn [PyList.lift PyList.bind].
    eexists. split; [reflexivity|]. simpl. auto.
  - cbn [map app VTKWidget.run VTKWidget.dispatch fst snd].
    unfold VTKWidget.mouseMoveEvent. cbn [snd] in Hm.
    rewrite Hscale, H2, Hrot, H3, Hm. cbn [andb PyList.bind].
    apply IH. simpl. auto.
Qed.

Lemma box_selection_selects_nothing_witness :
  VTKWidget.current_tool Demo.boxing.2 = tool_box_select /\
  ObjectManager.selected_actors (VTKWidget.object_manager Demo.boxing.1) = [Demo.object] /\
  exists tools',
    VTKWidget.run Demo.sin_45 Demo.cos_45 Demo.no_bounds id
      [VTKWidget.MousePress Demo.renderer (Demo.left 10 10);
       VTKWidget.MouseMove Demo.renderer (Demo.left 400 300);
       VTKWidget.MouseMove Demo.renderer (Demo.left 790 590);
       VTKWidget.MouseRelease Demo.renderer (Demo.left 790 590)]
      (Demo.boxing.1, Demo.boxing.2) = PyList.Return (Demo.boxing.1, tools') /\
    VTKWidget.is_box_selecting tools' = false.
Proof.
  assert (Htool : VTKWidget.current_tool Demo.boxing.2 = tool_box_select)
    by (vm_compute; reflexivity).
  assert (Hsel : ObjectManager.selected_actors (VTKWidget.object_manager Demo.boxing.1)
                 = [Demo.object]) by (vm_compute; reflexivity).
  assert (Hscale : VTKWidget.is_scaling Demo.boxing.1 = false) by (vm_compute; reflexivity).
  assert (Hmove : VTKWidget.is_moving Demo.boxing.2 = false) by (vm_compute; reflexivity).
  assert (Hrot : VTKWidget.is_rotating_object Demo.boxing.1 = false)
    by (vm_compute; reflexivity).
  assert (Hmoves : Forall (fun m : Renderer * VTKWidget.QMouseEvent =>
                             VTKWidget.buttons_LeftButton m.2 = true)
                     [(Demo.renderer, Demo.left 400 300); (Demo.renderer, Demo.left 790 590)])
    by (repeat constructor).
  split; [exact Htool|]. split; [exact Hsel|].
  destruct (box_selection_selects_nothing Demo.sin_45 Demo.cos_45 Demo.no_bounds id
              Demo.boxing.1 Demo.boxing.2 Demo.renderer (Demo.left 10 10)
              [(Demo.renderer, Demo.left 400 300); (Demo.renderer, Demo.left 790 590)]
              Demo.renderer (Demo.left 790 590) Htool Hscale Hmove Hrot eq_refl eq_refl Hmoves)
    as (tools' & Hrun & Hbox & _).
  exists tools'. split; [exact Hrun|exact Hbox].
Defined.

(** ** Changing the tool *)

Lemma set_active_tool_restored (tool : Tool) (om : ObjectManager.t) (heap : Heap) (a : ActorId) :
  restored_opacity (ObjectManager.set_active_tool tool om heap) a = restored_opacity (om, heap) a.
Proof.
  apply (call_leaves_restored_opacity (fun _ _ => mkBounds 0 0 0 0 0 0) a
           (ObjectManager.SetActiveTool tool) (om, heap)). reflexivity.
Qed.

Lemma set_active_tool_active (tool : Tool) (om : ObjectManager.t) (heap : Heap) :
  ObjectManager.active_gizmo (ObjectManager.set_active_tool tool om heap).1 = Some tool.
Proof.
  unfold ObjectManager.set_active_tool. cbn [Gizmo.hide].
  unfold ObjectManager.show_active_gizmo.
  cbn [ObjectManager.selected_actors ObjectManager.active_gizmo].
  destruct (ObjectManager.selected_actors om); [reflexivity|].
  destruct tool; reflexivity.
Qed.

Lemma set_active_tool_match (tool : Tool) (om : ObjectManager.t) (heap : Heap) :
  gizmos_match_tool (ObjectManager.set_active_tool tool om heap).1.
Proof.
  unfold ObjectManager.set_active_tool. cbn [Gizmo.hide].
  apply show_active_gizmo_match. apply hidden_gizmos_match.
  intros tool' g Hin. unfold gizmos in Hin. cbn in Hin.
  rewrite !elem_of_cons, elem_of_nil in Hin.
  destruct Hin as [[= -> ->]|[[= -> ->]|[[= -> ->]|[]]]]; auto.
Qed.

(** What [on_tool_changed] does to the object manager and the heap
    before it calls [set_active_tool]. *)
Lemma on_tool_changed_scene (tool_name : Tool) (self : VTKWidget.t) (tools : VTKWidget.Tools) :
  exists om1 h1,
    (VTKWidget.on_tool_changed tool_name self tools).1 =
      VTKWidget.with_scene (ObjectManager.set_active_tool tool_name om1 h1).1
        (ObjectManager.set_active_tool tool_name om1 h1).2 self /\
    ObjectManager.selected_actors om1
      = ObjectManager.selected_actors (VTKWidget.object_manager self) /\
    ObjectManager.outline_actors om1
      = ObjectManager.outline_actors (VTKWidget.object_manager self) /\
    ObjectManager.actors om1 = ObjectManager.actors (VTKWidget.object_manager self) /\
    ((tool_name = tool_move ->
      Gizmo.original_opacities
        (ObjectManager.move_gizmo (VTKWidget.object_manager self)) = ∅) ->
     (tool_name = tool_rotate ->
      Gizmo.original_opacities
        (ObjectManager.rotate_gizmo (VTKWidget.object_manager self)) = ∅) ->
     forall a, restored_opacity (om1, h1) a
               = restored_opacity (VTKWidget.object_manager self, VTKWidget.heap self) a).
Proof.
  unfold VTKWidget.on_tool_changed.
  destruct tool_name; cbn [Gizmo.hide];
    try (destruct (ObjectManager.selected_actors
                     (ObjectManager.with_gizmos _ _ _ (VTKWidget.object_manager self)))
           as [|first rest] eqn:Esel;
         cbn [ObjectManager.selected_actors ObjectManager.with_gizmos] in Esel);
    cbn [Gizmo.show];
    match goal with
    | |- context [ObjectManager.set_active_tool ?t ?o ?h] =>
        exists o, h; destruct (ObjectManager.set_active_tool t o h) as [om2 h2] eqn:Eset
    end;
    (split; [reflexivity|]); (split; [reflexivity|]); (split; [reflexivity|]);
    (split; [reflexivity|]); intros Hm Hr a; rewrite !restored_opacity_spec;
    cbn [ObjectManager.move_gizmo ObjectManager.rotate_gizmo ObjectManager.scale_gizmo
         ObjectManager.with_gizmos Gizmo.original_opacities];
    rewrite ?Hm, ?Hr by reflexivity;
    rewrite ?restore_opacities_spec, ?lookup_empty;
    try (destruct (decide (a = first)) as [->|Hne];
         [rewrite ?lookup_insert_eq, ?heap_upd_same
         |rewrite ?lookup_insert_ne, ?heap_upd_other by congruence]);
    rewrite ?restore_opacities_spec, ?lookup_empty, ?Hm, ?Hr by reflexivity;
    repeat match goal with
           | |- context [?m !! ?k] => destruct (m !! k)
           end;
    reflexivity.
Qed.

Lemma on_tool_changed_tools (tool_name : Tool) (self : VTKWidget.t) (tools : VTKWidget.Tools) :
  (VTKWidget.on_tool_changed tool_name self tools).2 =
    VTKWidget.with_tool tool_name
      match tool_name with
      | tool_measure => MeasurementTool.activate (VTKWidget.measurement_tool tools)
      | _ => MeasurementTool.deactivate (VTKWidget.measurement_tool tools)
      end tools.
Proof.
  unfold VTKWidget.on_tool_changed. destruct tool_name; cbn [Gizmo.hide];
    repeat match goal with
           | |- context [match ?l with [] => _ | _ :: _ => _ end] => destruct l
           end;
    cbn [Gizmo.show];
    match goal with
    | |- context [ObjectManager.set_active_tool ?t ?o ?h] =>
        destruct (ObjectManager.set_active_tool t o h) as [om2 h2]
    end;
    reflexivity.
Qed.

(** X17. A change to another tool than the active one, in a state where
    the shown gizmo is the active tool's: afterwards the new tool is the
    current tool of the widget and the active tool of the object manager,
    the shown gizmo is again the active tool's, the selection, the outlines
    and the actor list are as before, and every actor regains the same
    opacity as before when the gizmos are hidden.  The measurement tool is
    active exactly if the new tool is Measure, in which case it starts
    without points and markers; otherwise no point is being dragged. *)
Theorem tool_change_keeps_scene_and_opacity
    (tool_name : Tool) (self : VTKWidget.t) (tools : VTKWidget.Tools) :
  gizmos_match_tool (VTKWidget.object_manager self) ->
  ObjectManager.active_gizmo (VTKWidget.object_manager self) <> Some tool_name ->
  let changed := VTKWidget.on_tool_changed tool_name self tools in
  let om' := VTKWidget.object_manager changed.1 in
  let measuring := VTKWidget.measurement_tool changed.2 in
  VTKWidget.current_tool changed.2 = tool_name /\
  ObjectManager.active_gizmo om' = Some tool_name /\
  gizmos_match_tool om' /\
  ObjectManager.selected_actors om'
    = ObjectManager.selected_actors (VTKWidget.object_manager self) /\
  ObjectManager.outline_actors om'
    = ObjectManager.outline_actors (VTKWidget.object_manager self) /\
  ObjectManager.actors om' = ObjectManager.actors (VTKWidget.object_manager self) /\
  (forall a, restored_opacity (om', VTKWidget.heap changed.1) a
             = restored_opacity (VTKWidget.object_manager self, VTKWidget.heap self) a) /\
  MeasurementTool.is_active measuring = bool_decide (tool_name = tool_measure) /\
  (if bool_decide (tool_name = tool_measure)
   then MeasurementTool.points measuring = [] /\ MeasurementTool.actors measuring = []
   else MeasurementTool.dragging_point measuring = None).
Proof.
  intros Hmatch Hother. cbn zeta.
  destruct (on_tool_changed_scene tool_name self tools)
    as (om1 & h1 & Hscene & Hsel & Hout & Hact & Hrestored).
  rewrite Hscene. cbn [VTKWidget.object_manager VTKWidget.heap VTKWidget.with_scene].
  destruct (set_active_tool_keeps_selection tool_name om1 h1) as (Hs' & Ho' & Ha').
  cbn zeta in Hs', Ho', Ha'.
  rewrite on_tool_changed_tools.
  cbn [VTKWidget.current_tool VTKWidget.measurement_tool VTKWidget.with_tool].
  split; [reflexivity|].
  split; [apply set_active_tool_active|].
  split; [apply set_active_tool_match|].
  split; [congruence|]. split; [congruence|]. split; [congruence|].
  split.
  { intros a.
    rewrite <- (surjective_pairing (ObjectManager.set_active_tool tool_name om1 h1)).
    rewrite set_active_tool_restored. apply Hrestored.
    - intros ->. destruct (Hmatch tool_move (ObjectManager.move_gizmo (VTKWidget.object_manager self)))
        as [Hshown Hhidden]; [apply list_elem_of_here|].
      destruct (Gizmo.is_visible (ObjectManager.move_gizmo (VTKWidget.object_manager self)));
        [|now apply Hhidden].
      destruct (Hshown eq_refl) as [Hactive _]. contradiction.
    - intros ->.
      destruct (Hmatch tool_rotate (ObjectManager.rotate_gizmo (VTKWidget.object_manager self)))
        as [Hshown Hhidden]; [apply list_elem_of_further, list_elem_of_here|].
      destruct (Gizmo.is_visible (ObjectManager.rotate_gizmo (VTKWidget.object_manager self)));
        [|now apply Hhidden].
      destruct (Hshown eq_refl) as [Hactive _]. contradiction. }
  destruct tool_name; cbn;
    first [rewrite bool_decide_eq_false_2 by discriminate
          |rewrite bool_decide_eq_true_2 by reflexivity];
    auto.
Qed.

Lemma tool_change_keeps_scene_and_opacity_witness :
  gizmos_match_tool (VTKWidget.object_manager Demo.widget) /\
  ObjectManager.active_gizmo (VTKWidget.object_manager Demo.widget) <> Some tool_move /\
  VTKWidget.current_tool (VTKWidget.on_tool_changed tool_move Demo.widget Demo.tools).2
    = tool_move /\
  restored_opacity
    (VTKWidget.object_manager (VTKWidget.on_tool_changed tool_move Demo.widget Demo.tools).1,
     VTKWidget.heap (VTKWidget.on_tool_changed tool_move Demo.widget Demo.tools).1)
    Demo.object = 1%float.
Proof.
  assert (Hmatch : gizmos_match_tool (VTKWidget.object_manager Demo.widget)).
  { change (VTKWidget.object_manager Demo.widget)
      with (ObjectManager.set_active_tool tool_scale
              (ObjectManager.finalize_object_creation Demo.object
                 (VTKWidget.object_manager Demo.fresh) (VTKWidget.heap Demo.fresh)).1
              (ObjectManager.finalize_object_creation Demo.object
                 (VTKWidget.object_manager Demo.fresh) (VTKWidget.heap Demo.fresh)).2).1.
    apply set_active_tool_match. }
  assert (Hother : ObjectManager.active_gizmo (VTKWidget.object_manager Demo.widget)
                   <> Some tool_move) by (vm_compute; discriminate).
  split; [exact Hmatch|]. split; [exact Hother|].
  destruct (tool_change_keeps_scene_and_opacity tool_move Demo.widget Demo.tools Hmatch Hother)
    as (Htool & _ & _ & _ & _ & _ & Hrestored & _).
  split; [exact Htool|]. rewrite Hrestored. vm_compute. reflexivity.
Defined.

(** ** Dragging with the Move tool *)

Lemma update_position_handles (g : Gizmo.t) (heap : Heap) (a : ActorId)
    (handle : Axis * Actor) :
  Gizmo.is_visible g = true ->
  Gizmo.selected_actor g = Some a ->
  handle ∈ Gizmo.actors (Gizmo.update_position g heap) ->
  Position handle.2 = Position (heap a).
Proof.
  intros Hv Hs. unfold Gizmo.update_position. rewrite Hv, Hs. cbn [Gizmo.actors].
  intros Hin. apply list_elem_of_In, in_map_iff in Hin.
  destruct Hin as (h & <- & _). reflexivity.
Qed.

Lemma move_object_outline
    (GetBounds : ActorId -> Actor -> Bounds) (a : ActorId) (dx dy dz : float)
    (om : ObjectManager.t) (heap : Heap) (outline : Actor) :
  ObjectManager.outline_actors (ObjectManager.move_object GetBounds a dx dy dz om heap).1 !! a
    = Some outline ->
  Position outline = Position ((ObjectManager.move_object GetBounds a dx dy dz om heap).2 a) /\
  Rotation outline
    = GetOrientation ((ObjectManager.move_object GetBounds a dx dy dz om heap).2 a).
Proof.
  rewrite move_object_position, move_object_heap.
  unfold ObjectManager.move_object, ObjectManager.move_object_outcome,
    ObjectManager.update_outline_position.
  cbn [ObjectManager.camera_objects ObjectManager.with_selection ObjectManager.light_manager].
  assert (Houtlines : forall raised cams heap' lm,
             ObjectManager.outline_actors
               (let '(raised, cams, heap') := (raised, cams, heap') in
                (raised : option Py.Exn,
                 (ObjectManager.with_roles cams lm
                    (ObjectManager.with_selection (ObjectManager.selected_actors om)
                       (ObjectManager.follow a
                          (heap_upd a
                             (SetPosition
                                (mkVec3 (v0 (Position (heap a)) + dx)
                                   (v1 (Position (heap a)) + dy)
                                   (v2 (Position (heap a)) + dz))) heap)
                          (ObjectManager.outline_actors om)) om),
                  heap' : Heap))).2.1
             = ObjectManager.follow a
                 (heap_upd a
                    (SetPosition
                       (mkVec3 (v0 (Position (heap a)) + dx) (v1 (Position (heap a)) + dy)
                          (v2 (Position (heap a)) + dz))) heap)
                 (ObjectManager.outline_actors om)) by reflexivity.
  destruct (ObjectManager.camera_objects om !! a) as [cam|];
    cbn -[CameraObject.get_view_direction];
    [destruct (CameraObject.get_view_direction _)|];
    cbn [fst snd ObjectManager.outline_actors ObjectManager.with_roles
         ObjectManager.with_selection];
    unfold ObjectManager.follow; rewrite lookup_alter_eq;
    (destruct (ObjectManager.outline_actors om !! a) as [old|]; [|discriminate]);
    intros [= <-]; cbn; rewrite ?heap_upd_same; cbn;
    (split; [reflexivity|]); unfold heap_upd; rewrite ?Pos.eqb_refl;
    try destruct (Pos.eqb a (CameraObject.actor cam)); reflexivity.
Qed.

(** X18. A drag on an arrow of the move gizmo moves the first selected
    object along the arrow's axis only, by a hundredth of a unit for
    every pixel the pointer went since the previous event (X and Z
    against the pointer, Y with it).  The handler returns unless the
    object is a camera whose focal point is so far from the new position
    that a square of the view direction is out of the range of binary64;
    then it raises [OverflowError].  When it returns, the pointer's
    position is the start of the next step, the object's outline has the
    position of the object and its matrix is built from the angles read
    from the object, and every handle of the move gizmo shown on the
    object has the object's position. *)
Theorem axis_drag_takes_outline_and_gizmo_along
    (GetBounds : ActorId -> Actor -> Bounds) (renderer : Renderer) (mouse_pos : QPoint)
    (self : VTKWidget.t) (tools : VTKWidget.Tools)
    (a : ActorId) (rest : list ActorId) (axis : Axis) :
  VTKWidget.is_moving tools = true ->
  VTKWidget.move_axis tools = Some axis ->
  ObjectManager.selected_actors (VTKWidget.object_manager self) = a :: rest ->
  Gizmo.is_visible (ObjectManager.move_gizmo (VTKWidget.object_manager self)) = true ->
  Gizmo.selected_actor (ObjectManager.move_gizmo (VTKWidget.object_manager self)) = Some a ->
  let delta := QPoint_sub mouse_pos (VTKWidget.move_start_point tools) in
  let world_delta := VTKWidget.move_delta (Some axis) delta in
  let new_pos := vec_add (Position (VTKWidget.heap self a)) world_delta in
  let in_range :=
    match ObjectManager.camera_objects (VTKWidget.object_manager self) !! a with
    | Some camera_obj => measurable new_pos (CameraObject.focal_point camera_obj)
    | None => true
    end in
  world_delta =
    match axis with
    | axis_x => mkVec3 (Py.float_of_int (- qx delta) * 0.01) 0 0
    | axis_y => mkVec3 0 (Py.float_of_int (qx delta) * 0.01) 0
    | axis_z => mkVec3 0 0 (Py.float_of_int (- qy delta) * 0.01)
    | _ => mkVec3 0 0 0
    end /\
  if in_range then
    exists self' tools',
      VTKWidget.handle_move_drag GetBounds renderer mouse_pos self tools
        = Py.Return (self', tools') /\
      Position (VTKWidget.heap self' a) = new_pos /\
      (forall outline,
          ObjectManager.outline_actors (VTKWidget.object_manager self') !! a = Some outline ->
          Position outline = Position (VTKWidget.heap self' a) /\
          Rotation outline = GetOrientation (VTKWidget.heap self' a)) /\
      (forall handle,
          handle ∈ Gizmo.actors (ObjectManager.move_gizmo (VTKWidget.object_manager self')) ->
          Position handle.2 = Position (VTKWidget.heap self' a)) /\
      ObjectManager.selected_actors (VTKWidget.object_manager self') = a :: rest /\
      VTKWidget.move_start_point tools' = mouse_pos /\
      VTKWidget.is_moving tools' = true /\
      VTKWidget.move_axis tools' = Some axis
  else
    VTKWidget.handle_move_drag GetBounds renderer mouse_pos self tools
      = Py.Raise Py.OverflowError.
Proof.
  intros Hmoving Haxis Hsel Hvis Htarget delta world_delta new_pos in_range.
  split; [now destruct axis|].
  unfold VTKWidget.handle_move_drag. rewrite Hmoving, Hsel, Haxis.
  fold delta. fold world_delta.
  rewrite move_object_raises_spec.
  change (mkVec3 (v0 (Position (VTKWidget.heap self a)) + v0 world_delta)
            (v1 (Position (VTKWidget.heap self a)) + v1 world_delta)
            (v2 (Position (VTKWidget.heap self a)) + v2 world_delta))
    with new_pos.
  assert (Hreturns :
            exists self' tools',
              (let '(om, h) :=
                 ObjectManager.move_object GetBounds a (v0 world_delta) (v1 world_delta)
                   (v2 world_delta) (VTKWidget.object_manager self) (VTKWidget.heap self) in
               mret (VTKWidget.with_scene (VTKWidget.update_move_gizmo om h) h self,
                     VTKWidget.with_moving true (Some axis) mouse_pos
                       (VTKWidget.free_move_mouse_world_start tools)
                       (VTKWidget.free_move_actor_start tools) tools))
              = Py.Return (self', tools') /\
              Position (VTKWidget.heap self' a) = new_pos /\
              (forall outline,
                  ObjectManager.outline_actors (VTKWidget.object_manager self') !! a
                    = Some outline ->
                  Position outline = Position (VTKWidget.heap self' a) /\
                  Rotation outline = GetOrientation (VTKWidget.heap self' a)) /\
              (forall handle,
                  handle ∈ Gizmo.actors
                             (ObjectManager.move_gizmo (VTKWidget.object_manager self')) ->
                  Position handle.2 = Position (VTKWidget.heap self' a)) /\
              ObjectManager.selected_actors (VTKWidget.object_manager self') = a :: rest /\
              VTKWidget.move_start_point tools' = mouse_pos /\
              VTKWidget.is_moving tools' = true /\
              VTKWidget.move_axis tools' = Some axis).
  { pose proof (move_object_position GetBounds a (v0 world_delta) (v1 world_delta)
                  (v2 world_delta) (VTKWidget.object_manager self) (VTKWidget.heap self))
      as Hpos.
    pose proof (move_object_outline GetBounds a (v0 world_delta) (v1 world_delta)
                  (v2 world_delta) (VTKWidget.object_manager self) (VTKWidget.heap self))
      as Hout.
    destruct (move_object_keeps_selection GetBounds a (v0 world_delta) (v1 world_delta)
                (v2 world_delta) (VTKWidget.object_manager self) (VTKWidget.heap self))
      as (Hs & _ & _ & _ & Hmg & _).
    cbn zeta in Hs, Hmg.
    destruct (ObjectManager.move_object GetBounds a (v0 world_delta) (v1 world_delta)
                (v2 world_delta) (VTKWidget.object_manager self) (VTKWidget.heap self))
      as [om h].
    cbn [fst snd] in Hpos, Hout, Hs, Hmg.
    eexists _, _. split; [reflexivity|].
    cbn [VTKWidget.heap VTKWidget.object_manager VTKWidget.with_scene
         VTKWidget.update_move_gizmo ObjectManager.outline_actors ObjectManager.with_gizmos
         ObjectManager.move_gizmo ObjectManager.selected_actors
         VTKWidget.move_start_point VTKWidget.is_moving VTKWidget.move_axis
         VTKWidget.with_moving].
    split; [exact Hpos|]. split; [exact Hout|].
    split.
    { intros handle. apply update_position_handles; congruence. }
    split; [congruence|]. auto. }
  subst in_range.
  destruct (ObjectManager.camera_objects (VTKWidget.object_manager self) !! a) as [cam|];
    [|exact Hreturns].
  destruct (measurable new_pos (CameraObject.focal_point cam)); [exact Hreturns|reflexivity].
Qed.

Lemma axis_drag_takes_outline_and_gizmo_along_witness :
  VTKWidget.is_moving Demo.moving.2 = true /\
  VTKWidget.move_axis Demo.moving.2 = Some axis_x /\
  ObjectManager.selected_actors (VTKWidget.object_manager Demo.moving.1) = [Demo.object] /\
  ObjectManager.camera_objects (VTKWidget.object_manager Demo.moving.1) !! Demo.object = None /\
  exists self' tools',
    VTKWidget.handle_move_drag Demo.no_bounds Demo.arrow_view (mkQPoint 150 290)
      Demo.moving.1 Demo.moving.2 = Py.Return (self', tools') /\
    Position (VTKWidget.heap self' Demo.object) = mkVec3 0.5 0 0 /\
    VTKWidget.move_start_point tools' = mkQPoint 150 290.
Proof.
  assert (H1 : VTKWidget.is_moving Demo.moving.2 = true) by (vm_compute; reflexivity).
  assert (H2 : VTKWidget.move_axis Demo.moving.2 = Some axis_x) by (vm_compute; reflexivity).
  assert (H3 : ObjectManager.selected_actors (VTKWidget.object_manager Demo.moving.1)
               = [Demo.object]) by (vm_compute; reflexivity).
  assert (H4 : Gizmo.is_visible (ObjectManager.move_gizmo (VTKWidget.object_manager Demo.moving.1))
               = true) by (vm_compute; reflexivity).
  assert (H5 : Gizmo.selected_actor
                 (ObjectManager.move_gizmo (VTKWidget.object_manager Demo.moving.1))
               = Some Demo.object) by (vm_compute; reflexivity).
  assert (H6 : ObjectManager.camera_objects (VTKWidget.object_manager Demo.moving.1)
                 !! Demo.object = None) by (vm_compute; reflexivity).
  split; [exact H1|]. split; [exact H2|]. split; [exact H3|]. split; [exact H6|].
  pose proof (axis_drag_takes_outline_and_gizmo_along Demo.no_bounds Demo.arrow_view
                (mkQPoint 150 290) Demo.moving.1 Demo.moving.2 Demo.object [] axis_x
                H1 H2 H3 H4 H5) as H.
  cbv zeta in H. rewrite H6 in H.
  destruct H as (_ & self' & tools' & Hret & Hpos & _ & _ & _ & Hstart & _).
  exists self', tools'. split; [exact Hret|]. split; [|exact Hstart].
  rewrite Hpos. vm_compute. reflexivity.
Defined.

Lemma update_position_keeps_target (g : Gizmo.t) (heap : Heap) :
  Gizmo.is_visible (Gizmo.update_position g heap) = Gizmo.is_visible g /\
  Gizmo.selected_actor (Gizmo.update_position g heap) = Gizmo.selected_actor g.
Proof.
  unfold Gizmo.update_position.
  destruct (Gizmo.is_visible g) eqn:Hv, (Gizmo.selected_actor g) eqn:Hs; cbn; auto.
Qed.

(** One free drag: the handler returns with the tools as they were, and
    where the viewport has a size the object is put at the position
    taken at the press plus the way the picked point went since. *)
Lemma free_drag_step
    (GetBounds : ActorId -> Actor -> Bounds) (renderer : Renderer) (mouse_pos : QPoint)
    (self : VTKWidget.t) (tools : VTKWidget.Tools)
    (a : ActorId) (world_start actor_start : Vec3) :
  free_move_in_progress a world_start actor_start (self, tools) ->
  exists self',
    VTKWidget.handle_move_drag GetBounds renderer mouse_pos self tools
      = Py.Return (self', tools) /\
    free_move_in_progress a world_start actor_start (self', tools) /\
    (forall b, b <> a -> VTKWidget.heap self' b = VTKWidget.heap self b) /\
    Gizmo.is_visible (ObjectManager.move_gizmo (VTKWidget.object_manager self'))
      = Gizmo.is_visible (ObjectManager.move_gizmo (VTKWidget.object_manager self)) /\
    Gizmo.selected_actor (ObjectManager.move_gizmo (VTKWidget.object_manager self'))
      = Gizmo.selected_actor (ObjectManager.move_gizmo (VTKWidget.object_manager self)) /\
    ((GetSize renderer).1 <> 0 -> (GetSize renderer).2 <> 0 ->
     Position (VTKWidget.heap self' a) =
       vec_add actor_start
         (vec_sub (WorldPointPicker_Pick renderer (qx mouse_pos) (qy mouse_pos)) world_start) /\
     outline_on a self' /\ move_gizmo_on a self').
Proof.
  intros (Hscaling & Hmoving & Haxis & Hws & Has & Hsel).
  cbn [fst snd] in Hscaling, Hmoving, Haxis, Hws, Has, Hsel.
  destruct (ObjectManager.selected_actors (VTKWidget.object_manager self))
    as [|first rest] eqn:Elist; [discriminate|].
  injection Hsel as ->.
  unfold VTKWidget.handle_move_drag. rewrite Hmoving, Elist, Haxis, Hws, Has.
  rewrite world_pick_value.
  destruct (((GetSize renderer).1 =? 0) || ((GetSize renderer).2 =? 0)) eqn:Hsize.
  - exists self. split; [reflexivity|].
    split; [unfold free_move_in_progress; cbn [fst snd]; rewrite Elist; auto 10|].
    split; [reflexivity|]. split; [reflexivity|]. split; [reflexivity|].
    intros Hw Hh. rewrite nonzero_size in Hsize by assumption. discriminate.
  - replace ((GetSize renderer).2 - ((GetSize renderer).2 - qy mouse_pos))
      with (qy mouse_pos) by lia.
    eexists. split; [reflexivity|].
    unfold free_move_in_progress, outline_on, move_gizmo_on.
    cbn [fst snd VTKWidget.heap VTKWidget.object_manager VTKWidget.with_scene
         VTKWidget.is_scaling
         VTKWidget.update_move_gizmo ObjectManager.outline_actors ObjectManager.with_gizmos
         ObjectManager.with_selection ObjectManager.move_gizmo ObjectManager.selected_actors].
    destruct (update_position_keeps_target
                (ObjectManager.move_gizmo (VTKWidget.object_manager self))
                (heap_upd a
                   (SetPosition
                      (vec_add actor_start
                         (vec_sub (WorldPointPicker_Pick renderer (qx mouse_pos) (qy mouse_pos))
                            world_start)))
                   (VTKWidget.heap self))) as [Hv' Ht'].
    split; [auto 10|].
    split; [intros b Hb; now apply heap_upd_other|].
    split; [exact Hv'|]. split; [exact Ht'|].
    intros _ _. rewrite heap_upd_same. cbn [Position SetPosition].
    split; [reflexivity|]. split.
    + intros outline. rewrite lookup_alter_eq.
      destruct (ObjectManager.outline_actors (VTKWidget.object_manager self) !! a);
        [|discriminate].
      now intros [= <-].
    + rewrite Hv', Ht'. intros Hvis Htarget handle Hin.
      rewrite (update_position_handles _ _ a handle Hvis Htarget Hin).
      now rewrite heap_upd_same.
Qed.

Lemma widget_run_app
    (math_sin math_cos : float -> float) (GetBounds : ActorId -> Actor -> Bounds)
    (mapFrom : QPoint -> QPoint) (events1 events2 : list VTKWidget.Event)
    (widget : VTKWidget.t * VTKWidget.Tools) :
  VTKWidget.run math_sin math_cos GetBounds mapFrom (events1 ++ events2) widget =
    PyList.bind (VTKWidget.run math_sin math_cos GetBounds mapFrom events1 widget)
      (VTKWidget.run math_sin math_cos GetBounds mapFrom events2).
Proof.
  revert widget. induction events1 as [|e events1 IH]; intros widget; [reflexivity|].
  cbn [app VTKWidget.run].
  destruct (VTKWidget.dispatch math_sin math_cos GetBounds mapFrom e widget) as [w|err];
    [apply IH|reflexivity].
Qed.

(** While a free move is in progress, a move of the pointer with the left
    button down is handled by [handle_move_drag]. *)
Lemma free_move_event
    (math_sin math_cos : float -> float) (GetBounds : ActorId -> Actor -> Bounds)
    (mapFrom : QPoint -> QPoint) (renderer : Renderer) (event : VTKWidget.QMouseEvent)
    (self : VTKWidget.t) (tools : VTKWidget.Tools)
    (a : ActorId) (world_start actor_start : Vec3) :
  free_move_in_progress a world_start actor_start (self, tools) ->
  VTKWidget.buttons_LeftButton event = true ->
  VTKWidget.mouseMoveEvent math_sin math_cos GetBounds mapFrom renderer event self tools =
    PyList.lift
      (VTKWidget.handle_move_drag GetBounds renderer (VTKWidget.pos event) self tools).
Proof.
  intros (Hscaling & Hmoving & _) Hleft. cbn [fst snd] in Hscaling, Hmoving.
  unfold VTKWidget.mouseMoveEvent. now rewrite Hscaling, Hmoving, Hleft.
Qed.

Lemma free_drags_keep_mode
    (math_sin math_cos : float -> float) (GetBounds : ActorId -> Actor -> Bounds)
    (mapFrom : QPoint -> QPoint) (drags : list (Renderer * VTKWidget.QMouseEvent))
    (self : VTKWidget.t) (tools : VTKWidget.Tools)
    (a : ActorId) (world_start actor_start : Vec3) :
  free_move_in_progress a world_start actor_start (self, tools) ->
  Forall (fun d => VTKWidget.buttons_LeftButton d.2 = true) drags ->
  exists self',
    VTKWidget.run math_sin math_cos GetBounds mapFrom
      (map (fun d => VTKWidget.MouseMove d.1 d.2) drags) (self, tools)
      = PyList.Return (self', tools) /\
    free_move_in_progress a world_start actor_start (self', tools) /\
    (forall b, b <> a -> VTKWidget.heap self' b = VTKWidget.heap self b) /\
    Gizmo.is_visible (ObjectManager.move_gizmo (VTKWidget.object_manager self'))
      = Gizmo.is_visible (ObjectManager.move_gizmo (VTKWidget.object_manager self)) /\
    Gizmo.selected_actor (ObjectManager.move_gizmo (VTKWidget.object_manager self'))
      = Gizmo.selected_actor (ObjectManager.move_gizmo (VTKWidget.object_manager self)).
Proof.
  intros Hfree Hleft. revert self Hfree.
  induction Hleft as [|[renderer event] drags Hd _ IH]; intros self Hfree.
  - exists self. cbn. auto.
  - cbn [map VTKWidget.run VTKWidget.dispatch fst snd]. cbn [snd] in Hd.
    rewrite (free_move_event _ _ _ _ _ _ _ _ a world_start actor_start Hfree Hd).
    destruct (free_drag_step GetBounds renderer (VTKWidget.pos event) self tools a
                world_start actor_start Hfree)
      as (self1 & -> & Hfree1 & Hheap1 & Hv1 & Ht1 & _).
    cbn [PyList.lift PyList.bind].
    destruct (IH self1 Hfree1) as (self' & -> & Hfree' & Hheap' & Hv' & Ht').
    exists self'. split; [reflexivity|]. split; [exact Hfree'|].
    split; [intros b Hb; now rewrite Hheap', Hheap1|]. split; congruence.
Qed.

(** X19. While the first selected object is dragged freely, every move
    of the pointer with the left button down returns, and after any
    number of them the object is where the last one puts it: at the
    position taken at the press plus the way from the point picked at the
    press to the point picked now.  That point is picked at the pointer's
    column and at the display row with the number of the pointer's
    window row: the row is flipped twice on the way to the picker.  The
    object's outline and the handles of the move gizmo shown on it are
    at the object's new position, no other object is touched, and the
    free move is still in progress. *)
Theorem free_drag_places_object_by_the_last_pointer
    (math_sin math_cos : float -> float) (GetBounds : ActorId -> Actor -> Bounds)
    (mapFrom : QPoint -> QPoint) (drags : list (Renderer * VTKWidget.QMouseEvent))
    (renderer : Renderer) (event : VTKWidget.QMouseEvent)
    (widget : VTKWidget.t * VTKWidget.Tools)
    (a : ActorId) (world_start actor_start : Vec3) :
  free_move_in_progress a world_start actor_start widget ->
  Forall (fun d => VTKWidget.buttons_LeftButton d.2 = true) drags ->
  VTKWidget.buttons_LeftButton event = true ->
  (GetSize renderer).1 <> 0 ->
  (GetSize renderer).2 <> 0 ->
  exists self',
    VTKWidget.run math_sin math_cos GetBounds mapFrom
      (map (fun d => VTKWidget.MouseMove d.1 d.2) drags
         ++ [VTKWidget.MouseMove renderer event]) widget
      = PyList.Return (self', widget.2) /\
    Position (VTKWidget.heap self' a) =
      vec_add actor_start
        (vec_sub
           (WorldPointPicker_Pick renderer (qx (VTKWidget.pos event)) (qy (VTKWidget.pos event)))
           world_start) /\
    outline_on a self' /\
    move_gizmo_on a self' /\
    (forall b, b <> a -> VTKWidget.heap self' b = VTKWidget.heap widget.1 b) /\
    free_move_in_progress a world_start actor_start (self', widget.2).
Proof.
  destruct widget as [self tools]. cbn [fst snd].
  intros Hfree Hdrags Hleft Hw Hh.
  destruct (free_drags_keep_mode math_sin math_cos GetBounds mapFrom drags self tools a
              world_start actor_start Hfree Hdrags)
    as (self1 & Hrun & Hfree1 & Hheap1 & _).
  rewrite widget_run_app, Hrun.
  cbn [PyList.bind VTKWidget.run VTKWidget.dispatch fst snd].
  rewrite (free_move_event _ _ _ _ _ _ _ _ a world_start actor_start Hfree1 Hleft).
  destruct (free_drag_step GetBounds renderer (VTKWidget.pos event) self1 tools a
              world_start actor_start Hfree1)
    as (self' & -> & Hfree' & Hheap' & _ & _ & Hplaced).
  destruct (Hplaced Hw Hh) as (Hpos & Hout & Hgizmo).
  exists self'. cbn [PyList.lift PyList.bind].
  split; [reflexivity|]. split; [exact Hpos|]. split; [exact Hout|]. split; [exact Hgizmo|].
  split; [intros b Hb; now rewrite Hheap', Hheap1|exact Hfree'].
Qed.

Lemma free_drag_places_object_by_the_last_pointer_witness :
  free_move_in_progress Demo.object (mkVec3 200 300 0) (mkVec3 0 0 0) Demo.grabbing /\
  exists self',
    VTKWidget.run Demo.sin_45 Demo.cos_45 Demo.no_bounds id
      (map (fun d => VTKWidget.MouseMove d.1 d.2) [(Demo.object_view, Demo.left 205 295)]
         ++ [VTKWidget.MouseMove Demo.object_view (Demo.left 210 290)]) Demo.grabbing
      = PyList.Return (self', Demo.grabbing.2) /\
    Position (VTKWidget.heap self' Demo.object) = mkVec3 10 (-10) 0.
Proof.
  assert (Hfree : free_move_in_progress Demo.object (mkVec3 200 300 0) (mkVec3 0 0 0)
                    Demo.grabbing).
  { unfold free_move_in_progress. repeat split; vm_compute; reflexivity. }
  assert (Hdrags : Forall (fun d : Renderer * VTKWidget.QMouseEvent =>
                             VTKWidget.buttons_LeftButton d.2 = true)
                     [(Demo.object_view, Demo.left 205 295)])
    by (repeat constructor).
  assert (Hleft : VTKWidget.buttons_LeftButton (Demo.left 210 290) = true) by reflexivity.
  assert (Hw : (GetSize Demo.object_view).1 <> 0) by (intros H; vm_compute in H; discriminate).
  assert (Hh : (GetSize Demo.object_view).2 <> 0) by (intros H; vm_compute in H; discriminate).
  split; [exact Hfree|].
  destruct (free_drag_places_object_by_the_last_pointer Demo.sin_45 Demo.cos_45 Demo.no_bounds
              id [(Demo.object_view, Demo.left 205 295)] Demo.object_view (Demo.left 210 290)
              Demo.grabbing Demo.object (mkVec3 200 300 0) (mkVec3 0 0 0)
              Hfree Hdrags Hleft Hw Hh)
    as (self' & Hrun & Hpos & _).
  exists self'. split; [exact Hrun|]. rewrite Hpos. vm_compute. reflexivity.
Defined.

(** A press of the left button with the Move tool on a selected object,
    where the viewport has a size, starts a free move: of the first
    selected object, from the position of the object under the pointer. *)
Lemma press_starts_free_move
    (math_sin math_cos : float -> float) (mapFrom : QPoint -> QPoint)
    (renderer : Renderer) (event : VTKWidget.QMouseEvent)
    (self : VTKWidget.t) (tools : VTKWidget.Tools) (a b : ActorId) (rest : list ActorId) :
  VTKWidget.button event = VTKWidget.LeftButton ->
  VTKWidget.current_tool tools = tool_move ->
  VTKWidget.is_scaling self = false ->
  (GetSize renderer).1 <> 0 ->
  (GetSize renderer).2 <> 0 ->
  ObjectManager.get_object_at_position renderer (qx (VTKWidget.pos event))
    ((GetSize renderer).2 - qy (VTKWidget.pos event)) (VTKWidget.object_manager self)
    = Some b ->
  ObjectManager.selected_actors (VTKWidget.object_manager self) = a :: rest ->
  b ∈ a :: rest ->
  exists tools',
    VTKWidget.mousePressEvent math_sin math_cos mapFrom renderer event self tools
      = Py.Return (self, tools') /\
    free_move_in_progress a
      (WorldPointPicker_Pick renderer (qx (VTKWidget.pos event)) (qy (VTKWidget.pos event)))
      (Position (VTKWidget.heap self b)) (self, tools').
Proof.
  intros Hbutton Htool Hscaling Hw Hh Hobject Hsel Hin.
  unfold VTKWidget.mousePressEvent. rewrite Hbutton, Htool.
  unfold VTKWidget.handle_move_start. rewrite (nonzero_size renderer Hw Hh).
  assert (Haxis : Gizmo.get_axis_at_position renderer (qx (VTKWidget.pos event))
                    ((GetSize renderer).2 - qy (VTKWidget.pos event))
                    (ObjectManager.move_gizmo (VTKWidget.object_manager self)) = None).
  { unfold ObjectManager.get_object_at_position in Hobject. unfold Gizmo.get_axis_at_position.
    destruct (PropPicker_Pick renderer _ _) as [[]|]; try discriminate.
    now destruct (negb _). }
  rewrite Haxis, Hobject, Hsel, (bool_decide_eq_true_2 _ Hin), world_pick_value,
    (nonzero_size renderer Hw Hh).
  replace ((GetSize renderer).2 - ((GetSize renderer).2 - qy (VTKWidget.pos event)))
    with (qy (VTKWidget.pos event)) by lia.
  eexists. split; [reflexivity|].
  unfold free_move_in_progress. cbn. rewrite Hsel. auto 10.
Qed.

(** X20. With several objects selected and the Move tool chosen, a
    press of the left button on a selected object followed by a move of
    the pointer returns, and moves the first object of the selection, not
    the one under the pointer: the first object is put at the position
    the pressed object had, plus the way from the point picked at the
    press to the point picked now; every other object, the pressed one
    among them when it is not the first, stays as it was. *)
Theorem free_drag_moves_the_first_selected_object
    (math_sin math_cos : float -> float) (GetBounds : ActorId -> Actor -> Bounds)
    (mapFrom : QPoint -> QPoint)
    (pressed_in : Renderer) (press : VTKWidget.QMouseEvent)
    (renderer : Renderer) (event : VTKWidget.QMouseEvent)
    (self : VTKWidget.t) (tools : VTKWidget.Tools) (a b : ActorId) (rest : list ActorId) :
  VTKWidget.button press = VTKWidget.LeftButton ->
  VTKWidget.current_tool tools = tool_move ->
  VTKWidget.is_scaling self = false ->
  (GetSize pressed_in).1 <> 0 ->
  (GetSize pressed_in).2 <> 0 ->
  ObjectManager.get_object_at_position pressed_in (qx (VTKWidget.pos press))
    ((GetSize pressed_in).2 - qy (VTKWidget.pos press)) (VTKWidget.object_manager self)
    = Some b ->
  ObjectManager.selected_actors (VTKWidget.object_manager self) = a :: rest ->
  b ∈ a :: rest ->
  VTKWidget.buttons_LeftButton event = true ->
  (GetSize renderer).1 <> 0 ->
  (GetSize renderer).2 <> 0 ->
  exists self' tools',
    VTKWidget.run math_sin math_cos GetBounds mapFrom
      [VTKWidget.MousePress pressed_in press; VTKWidget.MouseMove renderer event] (self, tools)
      = PyList.Return (self', tools') /\
    Position (VTKWidget.heap self' a) =
      vec_add (Position (VTKWidget.heap self b))
        (vec_sub
           (WorldPointPicker_Pick renderer (qx (VTKWidget.pos event)) (qy (VTKWidget.pos event)))
           (WorldPointPicker_Pick pressed_in (qx (VTKWidget.pos press))
              (qy (VTKWidget.pos press)))) /\
    (forall c, c <> a -> VTKWidget.heap self' c = VTKWidget.heap self c).
Proof.
  intros Hbutton Htool Hscaling Hw0 Hh0 Hobject Hsel Hin Hleft Hw Hh.
  destruct (press_starts_free_move math_sin math_cos mapFrom pressed_in press self tools
              a b rest Hbutton Htool Hscaling Hw0 Hh0 Hobject Hsel Hin)
    as (tools' & Hpress & Hfree).
  cbn [VTKWidget.run VTKWidget.dispatch fst snd]. rewrite Hpress.
  cbn [PyList.lift PyList.bind fst snd].
  rewrite (free_move_event _ _ _ _ _ _ _ _ _ _ _ Hfree Hleft).
  destruct (free_drag_step GetBounds renderer (VTKWidget.pos event) self tools' a _ _ Hfree)
    as (self' & -> & Hfree' & Hheap & _ & _ & Hplaced).
  destruct (Hplaced Hw Hh) as (Hpos & _).
  exists self', tools'. cbn [PyList.lift PyList.bind].
  split; [reflexivity|]. split; [exact Hpos|exact Hheap].
Qed.

Lemma free_drag_moves_the_first_selected_object_witness :
  ObjectManager.selected_actors (VTKWidget.object_manager Demo.both_selected.1)
    = [Demo.object; Demo.second_object] /\
  Position (VTKWidget.heap Demo.both_selected.1 Demo.object) = mkVec3 0 0 0 /\
  Position (VTKWidget.heap Demo.both_selected.1 Demo.second_object) = mkVec3 5 0 0 /\
  exists self' tools',
    VTKWidget.run Demo.sin_45 Demo.cos_45 Demo.no_bounds id
      [VTKWidget.MousePress Demo.second_view (Demo.left 200 300);
       VTKWidget.MouseMove Demo.second_view (Demo.left 210 290)]
      (Demo.both_selected.1, Demo.both_selected.2)
      = PyList.Return (self', tools') /\
    Position (VTKWidget.heap self' Demo.object) = mkVec3 15 (-10) 0 /\
    Position (VTKWidget.heap self' Demo.second_object) = mkVec3 5 0 0.
Proof.
  assert (Hsel : ObjectManager.selected_actors (VTKWidget.object_manager Demo.both_selected.1)
                 = [Demo.object; Demo.second_object]) by (vm_compute; reflexivity).
  assert (Hfirst : Position (VTKWidget.heap Demo.both_selected.1 Demo.object) = mkVec3 0 0 0)
    by (vm_compute; reflexivity).
  assert (Hsecond : Position (VTKWidget.heap Demo.both_selected.1 Demo.second_object)
                    = mkVec3 5 0 0) by (vm_compute; reflexivity).
  assert (Hbutton : VTKWidget.button (Demo.left 200 300) = VTKWidget.LeftButton)
    by reflexivity.
  assert (Htool : VTKWidget.current_tool Demo.both_selected.2 = tool_move)
    by (vm_compute; reflexivity).
  assert (Hscaling : VTKWidget.is_scaling Demo.both_selected.1 = false)
    by (vm_compute; reflexivity).
  assert (Hw : (GetSize Demo.second_view).1 <> 0) by (intros H; vm_compute in H; discriminate).
  assert (Hh : (GetSize Demo.second_view).2 <> 0) by (intros H; vm_compute in H; discriminate).
  assert (Hobject :
            ObjectManager.get_object_at_position Demo.second_view
              (qx (VTKWidget.pos (Demo.left 200 300)))
              ((GetSize Demo.second_view).2 - qy (VTKWidget.pos (Demo.left 200 300)))
              (VTKWidget.object_manager Demo.both_selected.1)
            = Some Demo.second_object) by (vm_compute; reflexivity).
  assert (Hin : Demo.second_object ∈ [Demo.object; Demo.second_object])
    by (apply list_elem_of_further, list_elem_of_here).
  assert (Hleft : VTKWidget.buttons_LeftButton (Demo.left 210 290) = true) by reflexivity.
  split; [exact Hsel|]. split; [exact Hfirst|]. split; [exact Hsecond|].
  destruct (free_drag_moves_the_first_selected_object Demo.sin_45 Demo.cos_45 Demo.no_bounds
              id Demo.second_view (Demo.left 200 300) Demo.second_view (Demo.left 210 290)
              Demo.both_selected.1 Demo.both_selected.2 Demo.object Demo.second_object
              [Demo.second_object]
              Hbutton Htool Hscaling Hw Hh Hobject Hsel Hin Hleft Hw Hh)
    as (self' & tools' & Hrun & Hpos & Hothers).
  exists self', tools'. split; [exact Hrun|]. split.
  - rewrite Hpos, Hsecond. vm_compute. reflexivity.
  - rewrite Hothers by discriminate. exact Hsecond.
Defined.

(** ** The edge count of the geometry panel *)

Lemma sorted_edge_comm (point1 point2 : Z) :
  RightPanel.sorted_edge point1 point2 = RightPanel.sorted_edge point2 point1.
Proof. unfold RightPanel.sorted_edge. now rewrite Z.min_comm, Z.max_comm. Qed.

(** The edges of a cell join each corner to the next one, the last
    corner to the first. *)
Lemma elem_of_cell_edges (e : Z * Z) (p : list Z) :
  e ∈ RightPanel.cell_edges p <->
  exists i : nat,
    (i < length p)%nat /\
    e = RightPanel.sorted_edge (default 0 (p !! i))
          (default 0 (p !! ((i + 1) mod length p)%nat)).
Proof.
  unfold RightPanel.cell_edges. rewrite list_elem_of_In, in_map_iff. split.
  - intros (i & <- & Hi). apply in_seq in Hi. exists i. split; [lia|].
    now rewrite !nth_lookup.
  - intros (i & Hi & ->). exists i. split; [now rewrite !nth_lookup|].
    apply in_seq. lia.
Qed.

Lemma elem_of_add_edges (e : Z * Z) (l : list (Z * Z)) (edges : gset (Z * Z)) :
  e ∈ foldl (fun edges edge => edges ∪ {[edge]}) edges l <-> e ∈ edges \/ e ∈ l.
Proof.
  revert edges. induction l as [|x l IH]; intros edges; cbn [foldl].
  - rewrite elem_of_nil. tauto.
  - rewrite IH, elem_of_union, elem_of_singleton, elem_of_cons. tauto.
Qed.

Lemma elem_of_edge_set (e : Z * Z) (cells : list (list Z)) :
  e ∈ RightPanel.edge_set cells <-> exists p, p ∈ cells /\ e ∈ RightPanel.cell_edges p.
Proof.
  unfold RightPanel.edge_set.
  enough (H : forall edges : gset (Z * Z),
             e ∈ foldl (fun edges id_list =>
                          foldl (fun edges edge => edges ∪ {[edge]}) edges
                            (RightPanel.cell_edges id_list)) edges cells
             <-> e ∈ edges \/ exists p, p ∈ cells /\ e ∈ RightPanel.cell_edges p).
  { rewrite H. rewrite elem_of_empty. tauto. }
  induction cells as [|c cells IH]; intros edges; cbn [foldl].
  - split; [auto|]. intros [H|(p & Hp & _)]; [exact H|]. now apply elem_of_nil in Hp.
  - rewrite IH, elem_of_add_edges. split.
    + intros [[H|H]|(p & Hp & He)]; [now left| |].
      * right. exists c. split; [apply list_elem_of_here|exact H].
      * right. exists p. split; [now apply list_elem_of_further|exact He].
    + intros [H|(p & Hp & He)]; [now left; left|].
      apply elem_of_cons in Hp as [->|Hp]; [now left; right|].
      right. now exists p.
Qed.

Lemma rotate_nat_add_mod (k i len : nat) :
  rotate_nat_add k i len = ((k + i) mod len)%nat.
Proof.
  unfold rotate_nat_add. rewrite <- Nat2Z.inj_add, <- Nat2Z.inj_mod. apply Nat2Z.id.
Qed.

Lemma cell_edges_rotate (k : nat) (p : list Z) (e : Z * Z) :
  e ∈ RightPanel.cell_edges (rotate k p) <-> e ∈ RightPanel.cell_edges p.
Proof.
  rewrite !elem_of_cell_edges, length_rotate.
  assert (Hstep : forall j : nat,
             (0 < length p)%nat ->
             rotate_nat_add k ((j + 1) mod length p) (length p)
             = ((rotate_nat_add k j (length p) + 1) mod length p)%nat).
  { intros j Hlen. rewrite !rotate_nat_add_mod.
    rewrite Nat.Div0.add_mod_idemp_r, Nat.Div0.add_mod_idemp_l. f_equal. lia. }
  split.
  - intros (j & Hj & ->). exists (rotate_nat_add k j (length p)).
    split; [apply rotate_nat_add_lt; lia|].
    rewrite !lookup_rotate_r by (try apply Nat.mod_upper_bound; lia).
    now rewrite Hstep by lia.
  - intros (i & Hi & ->). exists (rotate_nat_sub k i (length p)).
    split; [apply rotate_nat_sub_lt; lia|].
    rewrite !lookup_rotate_r
      by (try apply Nat.mod_upper_bound; try apply rotate_nat_sub_lt; lia).
    rewrite Hstep by lia. now rewrite rotate_nat_add_sub by lia.
Qed.

Lemma cell_edges_reverse_1 (p : list Z) (e : Z * Z) :
  e ∈ RightPanel.cell_edges (reverse p) -> e ∈ RightPanel.cell_edges p.
Proof.
  rewrite !elem_of_cell_edges, length_reverse.
  intros (j & Hj & ->).
  destruct (decide (j + 1 < length p)%nat) as [Hlt|Hge].
  - exists (length p - S (j + 1))%nat. split; [lia|].
    rewrite (Nat.mod_small (j + 1)) by lia.
    rewrite !reverse_lookup by lia.
    rewrite (Nat.mod_small (length p - S (j + 1) + 1)) by lia.
    replace (length p - S (j + 1) + 1)%nat with (length p - S j)%nat by lia.
    apply sorted_edge_comm.
  - exists (length p - 1)%nat. split; [lia|].
    replace (j + 1)%nat with (length p) by lia.
    replace (length p - 1 + 1)%nat with (length p) by lia.
    rewrite Nat.Div0.mod_same.
    rewrite !reverse_lookup by lia.
    replace (length p - S j)%nat with 0%nat by lia.
    replace (length p - 1)%nat with (length p - 1)%nat by lia.
    apply sorted_edge_comm.
Qed.

Lemma cell_edges_reverse (p : list Z) (e : Z * Z) :
  e ∈ RightPanel.cell_edges (reverse p) <-> e ∈ RightPanel.cell_edges p.
Proof.
  split; [apply cell_edges_reverse_1|].
  intros H. apply cell_edges_reverse_1. now rewrite reverse_involutive.
Qed.

Lemma same_polygon_edges (p q : list Z) (e : Z * Z) :
  same_polygon p q -> e ∈ RightPanel.cell_edges q <-> e ∈ RightPanel.cell_edges p.
Proof.
  intros (k & [-> | ->]); [apply cell_edges_rotate|].
  now rewrite cell_edges_rotate, cell_edges_reverse.
Qed.

(** X21. The number of edges the geometry panel shows belongs to the
    polygons, not to the way the cells list them: two lists of cells that
    describe the same polygons, in whatever order, with whichever corner
    first, in either direction round each polygon and however often a
    polygon is repeated, give the same count.  An edge that two polygons
    share is therefore counted once, whichever way each of them runs
    along it. *)
Theorem edge_count_ignores_how_cells_are_listed
    (points points' : option Z) (cells cells' : list (list Z)) :
  same_polygons cells cells' ->
  RightPanel.calculate_edge_count (Some (RightPanel.mkPolyData points (Some cells))) =
    RightPanel.calculate_edge_count (Some (RightPanel.mkPolyData points' (Some cells'))).
Proof.
  intros [Hto Hfrom]. unfold RightPanel.calculate_edge_count. cbn [RightPanel.GetPolys].
  do 2 f_equal. apply set_eq. intros e. rewrite !elem_of_edge_set. split.
  - intros (p & Hp & He). destruct (Hto p Hp) as (q & Hq & Hsame).
    exists q. split; [exact Hq|]. now apply (same_polygon_edges p q e Hsame).
  - intros (q & Hq & He). destruct (Hfrom q Hq) as (p & Hp & Hsame).
    exists p. split; [exact Hp|]. now apply (same_polygon_edges p q e Hsame).
Qed.

Lemma edge_count_ignores_how_cells_are_listed_witness :
  same_polygons Demo.two_triangles Demo.two_triangles_again /\
  RightPanel.calculate_edge_count
    (Some (RightPanel.mkPolyData (Some 4) (Some Demo.two_triangles_again))) = 5.
Proof.
  assert (Hsame : same_polygons Demo.two_triangles Demo.two_triangles_again).
  { split.
    - intros p Hp. apply list_elem_of_In in Hp. cbn in Hp.
      destruct Hp as [<-|[<-|[]]].
      + exists [2; 1; 0]. split; [apply list_elem_of_In; cbn; tauto|].
        exists 0%nat. now right.
      + exists [3; 2; 1]. split; [apply list_elem_of_In; cbn; tauto|].
        exists 2%nat. now left.
    - intros q Hq. apply list_elem_of_In in Hq. cbn in Hq.
      destruct Hq as [<-|[<-|[<-|[]]]].
      + exists [2; 1; 3]. split; [apply list_elem_of_In; cbn; tauto|].
        exists 2%nat. now left.
      + exists [0; 1; 2]. split; [apply list_elem_of_In; cbn; tauto|].
        exists 0%nat. now right.
      + exists [2; 1; 3]. split; [apply list_elem_of_In; cbn; tauto|].
        exists 1%nat. now left. }
  split; [exact Hsame|].
  rewrite <- (edge_count_ignores_how_cells_are_listed (Some 4) (Some 4)
                Demo.two_triangles Demo.two_triangles_again Hsame).
  vm_compute. reflexivity.
Defined.
